(** * Sentiment-to-action decision engine and its logging contract

    A shallow embedding of [hw3/app.js] (the business-logic variant of the
    sentiment demo) and of the older logging-only variant, together with the
    properties of the decision engine, of the classifier-output extraction and
    of the telemetry emitter.

    JavaScript data is modelled as the language has it: a Number is an IEEE 754
    binary64 value ([spec_float] with 53 bits of precision), a String is a
    sequence of UTF-16 code units, an object literal with fixed keys is a
    record, a dynamically shaped result is a tree of JavaScript values. *)

From Stdlib Require Import ZArith NArith List Bool String Ascii Lia.
From Stdlib Require Import DecimalString.
From Stdlib Require DecimalFacts DecimalPos DecimalZ.
From Stdlib Require Import Floats.SpecFloat.
Import ListNotations.

Set Warnings "-register-all".
Open Scope Z_scope.

(** Linear arithmetic with division and remainder by constants. *)
Ltac divmod := zify; Z.to_euclidean_division_equations; lia.

(** ** JavaScript strings: sequences of UTF-16 code units *)

Module JSString.

Abbreviation code_unit := N.
Abbreviation t := (list N).

(** A source-code string literal (ASCII in this program). *)
Definition str (s : string) : t :=
  List.map N_of_ascii (list_ascii_of_string s).

(** Strict equality [===] of two strings. *)
Fixpoint eqb (a b : t) : bool :=
  match a, b with
  | [], [] => true
  | x :: a', y :: b' => N.eqb x y && eqb a' b'
  | _, _ => false
  end.

Fixpoint startsWith (p s : t) : bool :=
  match p, s with
  | [], _ => true
  | x :: p', y :: s' => N.eqb x y && startsWith p' s'
  | _ :: _, [] => false
  end.

(** [s.includes(p)] *)
Fixpoint includes (s p : t) : bool :=
  startsWith p s ||
  match s with
  | [] => false
  | _ :: s' => includes s' p
  end.

(** [s.substring(start, end)] for integer arguments: both indices are
    clamped to [0, s.length] and swapped when start > end. *)
Definition substring (s : t) (start end_ : Z) : t :=
  let len := Z.of_nat (List.length s) in
  let a := Z.min (Z.max start 0) len in
  let b := Z.min (Z.max end_ 0) len in
  let from := Z.min a b in
  let to := Z.max a b in
  firstn (Z.to_nat (to - from)) (skipn (Z.to_nat from) s).

(** [String(n)] for an integral Number [n] below 2^53 (no exponent form). *)
Definition of_Z (z : Z) : t :=
  str (NilZero.string_of_int (Z.to_int z)).

Local Open Scope N_scope.

(** The ASCII code of a decimal digit, and the code units of a numeral. *)
Fixpoint units_of_uint (d : Decimal.uint) : t :=
  match d with
  | Decimal.Nil => []
  | Decimal.D0 d => 48 :: units_of_uint d
  | Decimal.D1 d => 49 :: units_of_uint d
  | Decimal.D2 d => 50 :: units_of_uint d
  | Decimal.D3 d => 51 :: units_of_uint d
  | Decimal.D4 d => 52 :: units_of_uint d
  | Decimal.D5 d => 53 :: units_of_uint d
  | Decimal.D6 d => 54 :: units_of_uint d
  | Decimal.D7 d => 55 :: units_of_uint d
  | Decimal.D8 d => 56 :: units_of_uint d
  | Decimal.D9 d => 57 :: units_of_uint d
  end.

End JSString.

Abbreviation jsstring := JSString.t.
Abbreviation str := JSString.str.

(** ** JavaScript Numbers: IEEE 754 binary64 *)

Module Number.

Definition prec : Z := 53.
Definition emax : Z := 1024.

Definition t := spec_float.

(** The finite values of the format are the canonical ones. *)
Definition is_double (x : t) : bool := valid_binary prec emax x.

Definition sub : t -> t -> t := SFsub prec emax.
Definition mul : t -> t -> t := SFmul prec emax.
Definition leb : t -> t -> bool := SFleb.
Definition ltb : t -> t -> bool := SFltb.

Definition of_Z (z : Z) : t := binary_normalize prec emax z 0 false.

(** The value of a decimal literal [n/d]: the quotient of two exactly
    representable integers, rounded to nearest-even once. *)
Definition of_decimal (n d : Z) : t := SFdiv prec emax (of_Z n) (of_Z d).

Definition zero : t := S754_zero false.
Definition one : t := S754_finite false 4503599627370496 (-52).
Definition lit_0_5 : t := S754_finite false 4503599627370496 (-53).
Definition lit_0_4 : t := S754_finite false 7205759403792794 (-54).
Definition lit_0_7 : t := S754_finite false 6305039478318694 (-53).

(** The doubles nearest to 0.3 and to 0.6, the thresholds that the
    specification states for the label NEGATIVE. *)
Definition lit_0_3 : t := S754_finite false 5404319552844595 (-54).
Definition lit_0_6 : t := S754_finite false 5404319552844595 (-53).

(** 0.3000000000000001, the second double above 0.3. *)
Definition lit_0_3_plus : t := S754_finite false 5404319552844597 (-54).

Definition is_finite (x : t) : bool :=
  match x with S754_zero _ | S754_finite _ _ _ => true | _ => false end.

(** Membership in the closed interval [0,1]. *)
Definition in_unit (x : t) : Prop := leb zero x = true /\ leb x one = true.

End Number.

Abbreviation Number := Number.t.

(** ** The decision engine *)

Record Action := mkAction {
  actionCode : jsstring;
  uiMessage : jsstring;
  uiColor : jsstring;
  icon : jsstring;
  cssClass : jsstring
}.

Definition OFFER_COUPON : Action := {|
  actionCode := str "OFFER_COUPON";
  uiMessage := str "We are truly sorry for your negative experience. Please accept this 50% discount coupon.";
  uiColor := str "#dc3545";
  icon := str "fa-fire";
  cssClass := str "coupon"
|}.

Definition REQUEST_FEEDBACK : Action := {|
  actionCode := str "REQUEST_FEEDBACK";
  uiMessage := str "Thank you for your feedback! Could you tell us how we can improve?";
  uiColor := str "#6b7280";
  icon := str "fa-clipboard-question";
  cssClass := str "feedback"
|}.

Definition ASK_REFERRAL : Action := {|
  actionCode := str "ASK_REFERRAL";
  uiMessage := str "We're thrilled you enjoyed your experience! Refer a friend and both of you will earn rewards.";
  uiColor := str "#3b82f6";
  icon := str "fa-user-friends";
  cssClass := str "referral"
|}.

(** The score on the scale 0 (worst) to 1 (best). *)
Definition normalizedScore (confidence : Number) (label : jsstring) : Number :=
  if JSString.eqb label (str "POSITIVE") then confidence
  else if JSString.eqb label (str "NEGATIVE") then Number.sub Number.one confidence
  else Number.lit_0_5.

Definition applyThresholds (score : Number) : Action :=
  if Number.leb score Number.lit_0_4 then OFFER_COUPON
  else if Number.ltb score Number.lit_0_7 then REQUEST_FEEDBACK
  else ASK_REFERRAL.

Definition determineBusinessAction (confidence : Number) (label : jsstring) : Action :=
  applyThresholds (normalizedScore confidence label).

(** ** Dynamically typed values and the classifier-output extraction *)

Inductive value :=
| VUndefined
| VNull
| VBoolean (b : bool)
| VNumber (x : Number)
| VString (s : jsstring)
| VArray (elems : list value)
| VObject (props : list (jsstring * value)).

Record JsError := mkError { errName : jsstring; errMessage : jsstring }.

(** The completion of a call: a returned value or a thrown error. *)
Inductive completion (A : Type) :=
| Normal (a : A)
| Throw (e : JsError).
Arguments Normal {A} a.
Arguments Throw {A} e.

Definition ToBoolean (v : value) : bool :=
  match v with
  | VUndefined | VNull => false
  | VBoolean b => b
  | VNumber (S754_zero _) | VNumber S754_nan => false
  | VNumber _ => true
  | VString [] => false
  | VString _ => true
  | VArray _ | VObject _ => true
  end.

(** [a || b] *)
Definition or_else (a b : value) : value := if ToBoolean a then a else b.

(** [typeof v === "object"] *)
Definition typeof_is_object (v : value) : bool :=
  match v with
  | VNull | VArray _ | VObject _ => true
  | _ => false
  end.

Fixpoint lookup (props : list (jsstring * value)) (key : jsstring) : value :=
  match props with
  | [] => VUndefined
  | (k, v) :: rest => if JSString.eqb k key then v else lookup rest key
  end.

(** [v.key] for a key that is no array index and no built-in property. *)
Definition get (v : value) (key : jsstring) : value :=
  match v with
  | VObject props => lookup props key
  | _ => VUndefined
  end.

Record SentimentData := mkSentimentData {
  sd_sentiment : jsstring;
  sd_label : jsstring;
  sd_score : value;
  sd_rawLabel : jsstring
}.

Section Extraction.

(** Built-ins of the platform that the extraction calls and that are not
    modelled further: [String.prototype.toUpperCase], and the coercion to
    Number of a string and of an object. *)
Variable toUpperCase : jsstring -> jsstring.
Variable StringToNumber : jsstring -> Number.
Variable ObjectToNumber : value -> Number.

Definition ToNumber (v : value) : Number :=
  match v with
  | VUndefined => S754_nan
  | VNull => Number.zero
  | VBoolean true => Number.one
  | VBoolean false => Number.zero
  | VNumber x => x
  | VString s => StringToNumber s
  | VArray _ | VObject _ => ObjectToNumber v
  end.

(** [v > 0.5] with a Number on the right. *)
Definition gt_half (v : value) : bool := Number.ltb Number.lit_0_5 (ToNumber v).

Definition not_a_function : JsError :=
  mkError (str "TypeError") (str "rawLabel.toUpperCase is not a function").

Definition extractSentimentData (result : value) : completion SentimentData :=
  let defaults :=
    mkSentimentData (str "neutral") (str "NEUTRAL") (VNumber Number.lit_0_5) (str "NEUTRAL") in
  match result with
  | VArray (VArray (sentimentData :: _) :: _) =>
    if ToBoolean sentimentData && typeof_is_object sentimentData then
      match or_else (get sentimentData (str "label")) (VString (str "NEUTRAL")) with
      | VString rawLabel =>
        let label := toUpperCase rawLabel in
        let score := or_else (get sentimentData (str "score")) (VNumber Number.lit_0_5) in
        let sentiment :=
          if JSString.eqb label (str "POSITIVE") && gt_half score then str "positive"
          else if JSString.eqb label (str "NEGATIVE") && gt_half score then str "negative"
          else str "neutral" in
        Normal (mkSentimentData sentiment label score rawLabel)
      | _ => Throw not_a_function
      end
    else Normal defaults
  | _ => Normal defaults
  end.

End Extraction.

(** ** JSON texts *)

Module JSON.

(** A JSON value.  A number keeps the text of its token. *)
Inductive json :=
| JNull
| JBool (b : bool)
| JNumber (token : jsstring)
| JString (s : jsstring)
| JArray (elems : list json)
| JObject (members : list (jsstring * json)).

Definition is_high_surrogate (u : N) : bool := (55296 <=? u)%N && (u <=? 56319)%N.
Definition is_low_surrogate (u : N) : bool := (56320 <=? u)%N && (u <=? 57343)%N.

(** One lowercase hexadecimal digit. *)
Definition hex_digit (n : N) : N := if (n <? 10)%N then (48 + n)%N else (87 + n)%N.

(** [\uXXXX] *)
Definition unicode_escape (u : N) : jsstring :=
  [92; 117; hex_digit (u / 4096); hex_digit ((u / 256) mod 16);
   hex_digit ((u / 16) mod 16); hex_digit (u mod 16)]%N.

Definition quote_unit (u : N) : jsstring :=
  if (u =? 8)%N then [92; 98]%N
  else if (u =? 9)%N then [92; 116]%N
  else if (u =? 10)%N then [92; 110]%N
  else if (u =? 12)%N then [92; 102]%N
  else if (u =? 13)%N then [92; 114]%N
  else if (u =? 34)%N then [92; 34]%N
  else if (u =? 92)%N then [92; 92]%N
  else if (u <? 32)%N then unicode_escape u
  else [u].

(** The body of QuoteJSONString: a surrogate pair is kept, a lone surrogate
    and a control character are escaped. *)
Fixpoint quote_units (s : jsstring) : jsstring :=
  match s with
  | [] => []
  | u :: rest =>
    if is_high_surrogate u then
      match rest with
      | l :: rest' =>
        if is_low_surrogate l then u :: l :: quote_units rest'
        else unicode_escape u ++ quote_units rest
      | [] => unicode_escape u
      end
    else if is_low_surrogate u then unicode_escape u ++ quote_units rest
    else quote_unit u ++ quote_units rest
  end.

Definition quote (s : jsstring) : jsstring := (34%N :: quote_units s) ++ [34%N].

Fixpoint join (sep : jsstring) (parts : list jsstring) : jsstring :=
  match parts with
  | [] => []
  | [p] => p
  | p :: rest => p ++ sep ++ join sep rest
  end.

(** The text of one member of an object. *)
Definition member_text (text : json -> jsstring) (kv : jsstring * json) : jsstring :=
  quote (fst kv) ++ str ":" ++ text (snd kv).

(** [JSON.stringify] of a value without indentation. *)
Fixpoint stringify (v : json) : jsstring :=
  match v with
  | JNull => str "null"
  | JBool true => str "true"
  | JBool false => str "false"
  | JNumber token => token
  | JString s => quote s
  | JArray elems => str "[" ++ join (str ",") (List.map stringify elems) ++ str "]"
  | JObject members =>
    str "{" ++
    join (str ",") (List.map (member_text stringify) members)
    ++ str "}"
  end.

(** The number of nodes of a value, each element and member counted once
    more. *)
Fixpoint size (v : json) : nat :=
  match v with
  | JArray elems => S (list_sum (List.map (fun e => S (size e)) elems))
  | JObject members => S (list_sum (List.map (fun kv => S (size (snd kv))) members))
  | _ => 1
  end.

(** *** Reading a JSON text *)

Definition is_ws (u : N) : bool :=
  (u =? 32)%N || (u =? 9)%N || (u =? 10)%N || (u =? 13)%N.

Fixpoint skip_ws (s : jsstring) : jsstring :=
  match s with
  | u :: rest => if is_ws u then skip_ws rest else s
  | [] => []
  end.

Definition hex_value (u : N) : option N :=
  if (48 <=? u)%N && (u <=? 57)%N then Some (u - 48)%N
  else if (97 <=? u)%N && (u <=? 102)%N then Some (u - 87)%N
  else if (65 <=? u)%N && (u <=? 70)%N then Some (u - 55)%N
  else None.

Definition hex4 (a b c d : N) : option N :=
  match hex_value a, hex_value b, hex_value c, hex_value d with
  | Some x, Some y, Some z, Some w => Some (x * 4096 + y * 256 + z * 16 + w)%N
  | _, _, _, _ => None
  end.

Definition simple_escape (e : N) : option N :=
  if (e =? 34)%N then Some 34%N
  else if (e =? 92)%N then Some 92%N
  else if (e =? 47)%N then Some 47%N
  else if (e =? 98)%N then Some 8%N
  else if (e =? 102)%N then Some 12%N
  else if (e =? 110)%N then Some 10%N
  else if (e =? 114)%N then Some 13%N
  else if (e =? 116)%N then Some 9%N
  else None.

(** The characters of a string after its opening quote, up to and including
    the closing quote; returns the decoded string and the rest of the text. *)
Fixpoint parse_string_body (s : jsstring) : option (jsstring * jsstring) :=
  match s with
  | [] => None
  | u :: rest =>
    if (u =? 34)%N then Some ([], rest)
    else if (u =? 92)%N then
      match rest with
      | e :: rest1 =>
        if (e =? 117)%N then
          match rest1 with
          | a :: b :: c :: d :: rest2 =>
            match hex4 a b c d, parse_string_body rest2 with
            | Some x, Some (body, r) => Some (x :: body, r)
            | _, _ => None
            end
          | _ => None
          end
        else
          match simple_escape e, parse_string_body rest1 with
          | Some x, Some (body, r) => Some (x :: body, r)
          | _, _ => None
          end
      | [] => None
      end
    else if (u <? 32)%N then None
    else
      match parse_string_body rest with
      | Some (body, r) => Some (u :: body, r)
      | None => None
      end
  end.

Definition is_digit (u : N) : bool := (48 <=? u)%N && (u <=? 57)%N.

Definition is_number_char (u : N) : bool :=
  is_digit u || (u =? 45)%N || (u =? 43)%N || (u =? 46)%N || (u =? 101)%N || (u =? 69)%N.

Fixpoint span (p : N -> bool) (s : jsstring) : jsstring * jsstring :=
  match s with
  | u :: rest => if p u then let '(a, b) := span p rest in (u :: a, b) else ([], s)
  | [] => ([], [])
  end.

Definition drop_digits (s : jsstring) : jsstring := snd (span is_digit s).

(** At least one digit, then the rest. *)
Definition digits1 (s : jsstring) : option jsstring :=
  match s with
  | u :: rest => if is_digit u then Some (drop_digits rest) else None
  | [] => None
  end.

(** The number grammar: an optional minus sign; then 0, or a nonzero digit
    and any digits; then optionally a point and one or more digits; then
    optionally e or E, an optional sign and one or more digits. *)
Definition number_int (s : jsstring) : option jsstring :=
  let s1 := match s with u :: rest => if (u =? 45)%N then rest else s | [] => s end in
  match s1 with
  | u :: rest => if (u =? 48)%N then Some rest else digits1 s1
  | [] => None
  end.

Definition number_frac (s : jsstring) : option jsstring :=
  match s with
  | u :: rest => if (u =? 46)%N then digits1 rest else Some s
  | [] => Some s
  end.

Definition number_exp (s : jsstring) : option jsstring :=
  match s with
  | u :: rest =>
    if (u =? 101)%N || (u =? 69)%N then
      match rest with
      | sg :: rest' => if (sg =? 43)%N || (sg =? 45)%N then digits1 rest' else digits1 rest
      | [] => None
      end
    else Some s
  | [] => Some s
  end.

Definition is_json_number (s : jsstring) : bool :=
  match number_int s with
  | Some s1 =>
    match number_frac s1 with
    | Some s2 =>
      match number_exp s2 with
      | Some [] => true
      | _ => false
      end
    | None => false
    end
  | None => false
  end.

(** A value all of whose numbers are tokens of the number grammar. *)
Fixpoint well_formed (v : json) : bool :=
  match v with
  | JNumber token => is_json_number token
  | JArray elems => forallb well_formed elems
  | JObject members => forallb (fun kv => well_formed (snd kv)) members
  | _ => true
  end.

Fixpoint strip_prefix (p s : jsstring) : option jsstring :=
  match p, s with
  | [], _ => Some s
  | x :: p', y :: s' => if (x =? y)%N then strip_prefix p' s' else None
  | _ :: _, [] => None
  end.

Definition parse_literal (s : jsstring) : option (json * jsstring) :=
  match strip_prefix (str "null") s with
  | Some r => Some (JNull, r)
  | None =>
    match strip_prefix (str "true") s with
    | Some r => Some (JBool true, r)
    | None =>
      match strip_prefix (str "false") s with
      | Some r => Some (JBool false, r)
      | None =>
        let '(token, r) := span is_number_char s in
        if is_json_number token then Some (JNumber token, r) else None
      end
    end
  end.

Fixpoint parse_value (fuel : nat) (s : jsstring) : option (json * jsstring) :=
  match fuel with
  | O => None
  | S fuel' =>
    match skip_ws s with
    | [] => None
    | u :: rest =>
      if (u =? 34)%N then
        match parse_string_body rest with
        | Some (body, r) => Some (JString body, r)
        | None => None
        end
      else if (u =? 123)%N then
        match skip_ws rest with
        | c :: r => if (c =? 125)%N then Some (JObject [], r)
                    else option_map (fun mr => (JObject (fst mr), snd mr)) (parse_members fuel' rest)
        | [] => None
        end
      else if (u =? 91)%N then
        match skip_ws rest with
        | c :: r => if (c =? 93)%N then Some (JArray [], r)
                    else option_map (fun er => (JArray (fst er), snd er)) (parse_elements fuel' rest)
        | [] => None
        end
      else parse_literal (u :: rest)
    end
  end
with parse_members (fuel : nat) (s : jsstring) : option (list (jsstring * json) * jsstring) :=
  match fuel with
  | O => None
  | S fuel' =>
    match skip_ws s with
    | q :: r0 =>
      if (q =? 34)%N then
        match parse_string_body r0 with
        | Some (key, r1) =>
          match skip_ws r1 with
          | colon :: r2 =>
            if (colon =? 58)%N then
              match parse_value fuel' r2 with
              | Some (v, r3) =>
                match skip_ws r3 with
                | c :: r4 =>
                  if (c =? 125)%N then Some ([(key, v)], r4)
                  else if (c =? 44)%N then
                    match parse_members fuel' r4 with
                    | Some (ms, r5) => Some ((key, v) :: ms, r5)
                    | None => None
                    end
                  else None
                | [] => None
                end
              | None => None
              end
            else None
          | [] => None
          end
        | None => None
        end
      else None
    | [] => None
    end
  end
with parse_elements (fuel : nat) (s : jsstring) : option (list json * jsstring) :=
  match fuel with
  | O => None
  | S fuel' =>
    match parse_value fuel' s with
    | Some (v, r) =>
      match skip_ws r with
      | c :: r1 =>
        if (c =? 93)%N then Some ([v], r1)
        else if (c =? 44)%N then
          match parse_elements fuel' r1 with
          | Some (vs, r2) => Some (v :: vs, r2)
          | None => None
          end
        else None
      | [] => None
      end
    | None => None
    end
  end.

(** [JSON.parse]: one value, then nothing but white space. *)
Definition parse (s : jsstring) : option json :=
  match parse_value (S (List.length s)) s with
  | Some (v, rest) => match skip_ws rest with [] => Some v | _ => None end
  | None => None
  end.

(** The member of an object found under a key. *)
Fixpoint member (key : jsstring) (members : list (jsstring * json)) : option json :=
  match members with
  | [] => None
  | (k, v) :: rest => if JSString.eqb k key then Some v else member key rest
  end.

Definition field (key : jsstring) (v : json) : option json :=
  match v with
  | JObject members => member key members
  | _ => None
  end.

(** *** Notions used to state that the reader inverts [stringify] *)

Local Open Scope N_scope.

(** What a stage of the number grammar consumes. *)
Definition consumes (s r : jsstring) : Prop :=
  exists p, s = p ++ r /\ forallb is_number_char p = true.

(** The first character of a number token. *)
Definition number_start (u : N) : bool := is_digit u || (u =? 45).

(** The text that follows a value: the end, or a character that does not
    continue a number. *)
Definition delimited (rest : jsstring) : bool :=
  match rest with [] => true | c :: _ => negb (is_number_char c) end.

(** The first character of the text of a value. *)
Definition value_start (u : N) : bool :=
  number_start u || (u =? 110) || (u =? 116) || (u =? 102) || (u =? 34) || (u =? 91)
  || (u =? 123).

Definition elems_size (elems : list json) : nat :=
  list_sum (List.map (fun e => S (size e)) elems).

Definition members_size (members : list (jsstring * json)) : nat :=
  list_sum (List.map (fun kv => S (size (snd kv))) members).

Definition reads_value (fuel : nat) : Prop :=
  forall v rest, well_formed v = true -> (size v <= fuel)%nat -> delimited rest = true ->
    parse_value fuel (stringify v ++ rest) = Some (v, rest).

Definition reads_elements (fuel : nat) : Prop :=
  forall v vs rest, forallb well_formed (v :: vs) = true ->
    (elems_size (v :: vs) <= fuel)%nat ->
    parse_elements fuel (join [44] (List.map stringify (v :: vs)) ++ 93 :: rest)
    = Some (v :: vs, rest).

Definition reads_members (fuel : nat) : Prop :=
  forall kv ms rest, forallb (fun kv => well_formed (snd kv)) (kv :: ms) = true ->
    (members_size (kv :: ms) <= fuel)%nat ->
    parse_members fuel (join [44] (List.map (member_text stringify) (kv :: ms)) ++ 125 :: rest)
    = Some (kv :: ms, rest).

End JSON.

(** ** The telemetry emitter *)

(** [URLSearchParams]: an ordered list of name-value pairs. *)
Module Form.

Definition t := list (jsstring * jsstring).

Definition empty : t := [].

Fixpoint remove (name : jsstring) (form : t) : t :=
  match form with
  | [] => []
  | (k, v) :: rest =>
    if JSString.eqb k name then remove name rest else (k, v) :: remove name rest
  end.

(** The conversion of a string to a USVString, which the methods of
    [URLSearchParams] apply to their arguments: every surrogate that is not
    part of a pair becomes U+FFFD. *)
Fixpoint toUSVString (s : jsstring) : jsstring :=
  match s with
  | [] => []
  | u :: rest =>
    if JSON.is_high_surrogate u then
      match rest with
      | l :: rest' =>
        if JSON.is_low_surrogate l then u :: l :: toUSVString rest'
        else 65533%N :: toUSVString rest
      | [] => [65533%N]
      end
    else if JSON.is_low_surrogate u then 65533%N :: toUSVString rest
    else u :: toUSVString rest
  end.

(** The list after [set]: the first pair of that name takes the value and
    the others are removed; without one the pair is appended. *)
Fixpoint replace (form : t) (name value : jsstring) : t :=
  match form with
  | [] => [(name, value)]
  | (k, v) :: rest =>
    if JSString.eqb k name then (name, value) :: remove name rest
    else (k, v) :: replace rest name value
  end.

(** [form.set(name, value)], of the two USVStrings. *)
Definition set (form : t) (name value : jsstring) : t :=
  replace form (toUSVString name) (toUSVString value).

(** The value of the first pair of that name. *)
Fixpoint find (form : t) (name : jsstring) : option jsstring :=
  match form with
  | [] => None
  | (k, v) :: rest => if JSString.eqb k name then Some v else find rest name
  end.

(** [form.get(name)], of the USVString. *)
Definition get (form : t) (name : jsstring) : option jsstring :=
  find form (toUSVString name).

End Form.

(** The [meta] object that [logAnalysis] builds, in the order of its keys. *)
Record Meta := mkMeta {
  user_id : jsstring;
  model : jsstring;
  sentiment_bucket : jsstring;
  label : jsstring;
  confidence : Number;
  user_agent : jsstring;
  timestamp_iso : jsstring;
  review_length : Z;
  business_decision : option jsstring   (* absent in the logging-only variant *)
}.

(** The argument of [sendLogSimple]; a key the caller left out is [None]. *)
Record Payload := mkPayload {
  ts : option Z;
  review : option jsstring;
  sentiment : option jsstring;
  action_taken : option jsstring;
  meta : option Meta
}.

(** What the page reads from the browser while it logs one analysis. *)
Record Env := mkEnv {
  stored_uid : option jsstring;   (* localStorage.getItem("sa_uid") *)
  fresh_uid : jsstring;           (* crypto.randomUUID(), or the fallback id *)
  userAgent : jsstring;           (* navigator.userAgent *)
  now_iso : jsstring;             (* new Date().toISOString() *)
  now_ms : Z                      (* Date.now() *)
}.

Record Request := mkRequest {
  req_url : jsstring;
  req_method : jsstring;
  req_body : Form.t
}.

(** How [await res.text()] ends. *)
Inductive TextOutcome :=
| TextOk (body : jsstring)
| TextFails (e : JsError).

Record Response := mkResponse {
  status : Z;
  text : TextOutcome
}.

(** [res.ok], as the Fetch standard defines it: a status from 200 to 299. *)
Definition ok (res : Response) : bool := (200 <=? status res) && (status res <=? 299).

(** How [await fetch(...)] ends: a rejection (network error) or a response. *)
Inductive FetchOutcome :=
| FetchRejects (e : JsError)
| FetchResponds (res : Response).

(** What an asynchronous function's promise settles to. *)
Inductive Promise (A : Type) :=
| Fulfilled (a : A)
| Rejected (e : JsError).
Arguments Fulfilled {A} a.
Arguments Rejected {A} e.

(** The object [sendLogSimple] resolves to. *)
Record Outcome := mkOutcome {
  success : bool;
  error : option jsstring
}.

(** What the page does that can be observed from outside. *)
Inductive Event :=
| EFetch (req : Request)
| EConsoleLog (msg : jsstring)
| EConsoleError (msg : jsstring) (detail : jsstring)
| EShowError (msg : jsstring)
| ESetItem (key value : jsstring).

Definition GAS_WEB_APP_URL : jsstring :=
  str "https://script.google.com/macros/s/AKfycbxe8UyJXOFRTSadcCOvOVjaFMpLKnb9wHLc9QqapiR08clgfWui14EixT_sRthslZxT/exec".

Definition LS_KEY_UID : jsstring := str "sa_uid".

(** [String(err)] for an error object: [Error.prototype.toString]. *)
Definition error_to_string (e : JsError) : jsstring :=
  match errName e, errMessage e with
  | [], msg => msg
  | name, [] => name
  | name, msg => name ++ str ": " ++ msg
  end.

(** [new Error(message)] *)
Definition new_Error (message : jsstring) : JsError := mkError (str "Error") message.

(** [a || b] on optional strings and numbers: absent, empty and zero are falsy. *)
Definition string_or (a : option jsstring) (b : jsstring) : jsstring :=
  match a with
  | Some (u :: s) => u :: s
  | _ => b
  end.

Definition number_or (a : option Z) (b : Z) : Z :=
  match a with
  | Some 0 | None => b
  | Some z => z
  end.

(** Get or create a stable pseudo user id: the id, and what is written to
    the local storage. *)
Definition getUserId (env : Env) : jsstring * list Event :=
  match stored_uid env with
  | Some (u :: s) => (u :: s, [])
  | _ => (fresh_uid env, [ESetItem LS_KEY_UID (fresh_uid env)])
  end.

Section Telemetry.

(** Built-ins of the platform that are not modelled further: the conversion
    of a Number to a string, and [Number.prototype.toFixed]. *)
Variable Number_toString : Number -> jsstring.
Variable toFixed : Number -> Z -> jsstring.

(** [JSON.stringify] of a Number: its string when finite, [null] otherwise. *)
Definition json_of_number (x : Number) : JSON.json :=
  if Number.is_finite x then JSON.JNumber (Number_toString x) else JSON.JNull.

Definition json_of_meta (m : Meta) : JSON.json :=
  JSON.JObject
    ([ (str "user_id", JSON.JString (user_id m));
       (str "model", JSON.JString (model m));
       (str "sentiment_bucket", JSON.JString (sentiment_bucket m));
       (str "label", JSON.JString (label m));
       (str "confidence", json_of_number (confidence m));
       (str "user_agent", JSON.JString (user_agent m));
       (str "timestamp_iso", JSON.JString (timestamp_iso m));
       (str "review_length", JSON.JNumber (JSString.of_Z (review_length m))) ]
     ++ match business_decision m with
        | Some code => [ (str "business_decision", JSON.JString code) ]
        | None => []
        end).

(** [JSON.stringify(payload.meta || {})] *)
Definition stringify_meta (m : option Meta) : jsstring :=
  match m with
  | Some m => JSON.stringify (json_of_meta m)
  | None => JSON.stringify (JSON.JObject [])
  end.

(** The form that [sendLogSimple] fills in before it sends it; [now] is what
    [Date.now()] returns there. *)
Definition sendLogSimple_form (now : Z) (payload : Payload) : Form.t :=
  let form := Form.empty in
  let form := Form.set form (str "ts") (JSString.of_Z (number_or (ts payload) now)) in
  let form := Form.set form (str "review")
                (JSString.substring (string_or (review payload) []) 0 5000) in
  let form := Form.set form (str "sentiment") (string_or (sentiment payload) []) in
  let form := Form.set form (str "action_taken") (string_or (action_taken payload) []) in
  let form := Form.set form (str "meta") (stringify_meta (meta payload)) in
  form.

(** The body of the [try] block, up to the first throw. *)
Definition try_send (outcome : FetchOutcome) : completion Outcome * list Event :=
  match outcome with
  | FetchRejects e => (Throw e, [])
  | FetchResponds res =>
    if negb (ok res) then
      match text res with
      | TextOk body =>
        (Throw (new_Error (str "HTTP " ++ JSString.of_Z (status res) ++ str ": " ++ body)), [])
      | TextFails e => (Throw e, [])
      end
    else
      (Normal (mkOutcome true None),
       [EConsoleLog (str "Logged to Google Sheets successfully")])
  end.

(** [sendLogSimple(payload)]: the request it makes, then what its promise
    settles to once [fetch] has ended as [outcome]. *)
Definition sendLogSimple (now : Z) (payload : Payload) (outcome : FetchOutcome)
  : Promise Outcome * list Event :=
  let form := sendLogSimple_form now payload in
  let request := EFetch (mkRequest GAS_WEB_APP_URL (str "POST") form) in
  match try_send outcome with
  | (Normal r, events) => (Fulfilled r, request :: events)
  | (Throw err, events) =>
    (Fulfilled (mkOutcome false (Some (error_to_string err))),
     request :: events ++
     [EConsoleError (str "Google Sheets logging failed:") (error_to_string err)])
  end.

(** The payload that [logAnalysis] hands to [sendLogSimple]. *)
Definition logAnalysis_payload (env : Env) (review sentiment label : jsstring)
    (score : Number) (action : Action) : Payload :=
  let userId := fst (getUserId env) in
  let meta := {|
    user_id := userId;
    model := str "Xenova/distilbert-base-uncased-finetuned-sst-2-english";
    sentiment_bucket := sentiment;
    label := label;
    confidence := score;
    user_agent := userAgent env;
    timestamp_iso := now_iso env;
    review_length := Z.of_nat (List.length review);
    business_decision := Some (actionCode action)
  |} in
  {| ts := Some (now_ms env);
     review := Some (JSString.substring review 0 5000);
     sentiment := Some (label ++ str " (" ++ toFixed (Number.mul score (Number.of_Z 100)) 1
                        ++ str "% confidence)");
     action_taken := Some (actionCode action);
     meta := Some meta |}.

(** [logAnalysis(review, sentiment, label, score, action)]: it starts the
    emission and attaches a handler for a rejection; its own promise does
    not wait for the emission. *)
Definition logAnalysis (env : Env) (review sentiment label : jsstring)
    (score : Number) (action : Action) (outcome : FetchOutcome) : list Event :=
  let payload := logAnalysis_payload env review sentiment label score action in
  let '(settled, events) := sendLogSimple (now_ms env) payload outcome in
  snd (getUserId env) ++ events ++
  match settled with
  | Fulfilled _ => []
  | Rejected err => [EConsoleError (str "Background logging error:") (error_to_string err)]
  end.

(** The transport form of a log record. *)
Definition logAnalysis_form (env : Env) (review sentiment label : jsstring)
    (score : Number) (action : Action) : Form.t :=
  sendLogSimple_form (now_ms env) (logAnalysis_payload env review sentiment label score action).

End Telemetry.

(** The logging-only variant of the page: the same emitter without the
    [action_taken] column. *)
Module LoggingOnly.

Definition GAS_WEB_APP_URL : jsstring :=
  str "https://script.google.com/macros/s/AKfycbyMxWeRoRh2f1w153NAQKyzeK0uv8wd37nhjJFFYRLLmcqGtzzlTv7A-hAUJIiOpZIs/exec".

Section Emitter.

Variable Number_toString : Number -> jsstring.

Definition sendLogSimple_form (now : Z) (payload : Payload) : Form.t :=
  let form := Form.empty in
  let form := Form.set form (str "ts") (JSString.of_Z (number_or (ts payload) now)) in
  let form := Form.set form (str "review")
                (JSString.substring (string_or (review payload) []) 0 5000) in
  let form := Form.set form (str "sentiment") (string_or (sentiment payload) []) in
  let form := Form.set form (str "meta") (stringify_meta Number_toString (meta payload)) in
  form.

Definition sendLogSimple (now : Z) (payload : Payload) (outcome : FetchOutcome)
  : Promise Outcome * list Event :=
  let form := sendLogSimple_form now payload in
  let request := EFetch (mkRequest GAS_WEB_APP_URL (str "POST") form) in
  match try_send outcome with
  | (Normal r, events) => (Fulfilled r, request :: events)
  | (Throw err, events) =>
    (Fulfilled (mkOutcome false (Some (error_to_string err))),
     request :: events ++
     [EConsoleError (str "Google Sheets logging failed:") (error_to_string err)])
  end.

End Emitter.

End LoggingOnly.

(** What it means for the emitter to settle without a throw: its promise is
    fulfilled, with [success] exactly for a 2xx response and an [error]
    string otherwise, and nothing is shown to the user. *)
Definition settles_without_throwing (outcome : FetchOutcome)
    (result : Promise Outcome * list Event) : Prop :=
  (exists r,
     fst result = Fulfilled r /\
     (success r = true <->
        exists res, outcome = FetchResponds res /\ 200 <= status res <= 299) /\
     (success r = true -> error r = None) /\
     (success r = false -> exists reason, error r = Some reason)) /\
  (forall msg, ~ In (EShowError msg) (snd result)).

(** A browser environment to run the model on. *)
Definition sample_env : Env := {|
  stored_uid := None;
  fresh_uid := str "3b241101-e2bb-4255-8caf-4136c566a962";
  userAgent := str "Mozilla/5.0 (X11; Linux x86_64)";
  now_iso := str "2024-03-01T12:00:00.000Z";
  now_ms := 1709294400000
|}.

(** ** Binary64 values counted in units of the least exponent *)

Module Binary64.

(** The least exponent of the format; every finite double is an integer
    multiple of [2^emin]. *)
Definition emin : Z := -1074.

(** A finite double counted in units of [2^emin] (0 for the others). *)
Definition scaled (x : Number) : Z :=
  match x with
  | S754_finite s m e => cond_Zopp s (Zpos m * 2 ^ (e - emin))
  | _ => 0
  end.

(** Where the part [rest] that is cut off by a shift of [k] bits lies. *)
Definition location (rest k : Z) : location :=
  if rest =? 0 then loc_Exact else loc_Inexact (2 * rest ?= 2 ^ k).

(** The number of bits that are cut off a scaled value to keep 53. *)
Definition cut (X : Z) : Z := Z.max (Z.log2 X + 1 - 53) 0.

(** Rounding of a non-negative scaled value to 53 significant bits, to
    nearest, ties to even. *)
Definition round_pos (X : Z) : Z :=
  round_nearest_even (X / 2 ^ cut X) (location (X mod 2 ^ cut X) (cut X)) * 2 ^ cut X.

(** The same for a scaled value of either sign. *)
Definition round_scaled (X : Z) : Z :=
  match X with
  | Z0 => 0
  | Zpos _ => round_pos X
  | Zneg _ => - round_pos (- X)
  end.

(** The scaled value of 1, and the first scaled value that overflows. *)
Definition scaled_one : Z := 2 ^ 1074.

Definition overflow : Z := 2 ^ 2098.

(** Rounding after a cut of [k] bits. *)
Definition round_at (k X : Z) : Z :=
  round_nearest_even (X / 2 ^ k) (location (X mod 2 ^ k) k) * 2 ^ k.

(** A finite double of the format (a zero or a canonical finite value). *)
Definition finite_double (x : Number) : Prop :=
  Number.is_double x = true /\ Number.is_finite x = true.

(** The largest scaled value of a double. *)
Definition scaled_max : Z := (2 ^ 53 - 1) * 2 ^ 2045.

(** Subtracting from 1 twice, on scaled values. *)
Definition there_and_back (X : Z) : Z :=
  round_scaled (scaled_one - round_scaled (scaled_one - X)).

(** The doubles next to the thresholds. *)
Definition pred_0_6 : Number := S754_finite false 5404319552844594 (-53).

Definition succ_0_3_plus : Number := S754_finite false 5404319552844598 (-54).

Definition succ_0_4 : Number := S754_finite false 7205759403792795 (-54).

Definition pred_0_7 : Number := S754_finite false 6305039478318693 (-53).

End Binary64.

(** ** The rest of the page: corpus, classifier and orchestration *)

(** [String.prototype.trim]: the code units that are white space or line
    terminators are stripped from both ends. *)
Module WhiteSpace.

Definition is_white_space (u : N) : bool :=
  ((9 <=? u) && (u <=? 13) || (u =? 32) || (u =? 160) || (u =? 5760)
   || (8192 <=? u) && (u <=? 8202) || (u =? 8232) || (u =? 8233)
   || (u =? 8239) || (u =? 8287) || (u =? 12288) || (u =? 65279))%N.

Fixpoint trimStart (s : jsstring) : jsstring :=
  match s with
  | [] => []
  | u :: rest => if is_white_space u then trimStart rest else s
  end.

Definition trimEnd (s : jsstring) : jsstring := rev (trimStart (rev s)).

Definition trim (s : jsstring) : jsstring := trimStart (trimEnd s).

End WhiteSpace.

(** The classifier handle: what [await sentimentPipeline(text)] gives. *)
Definition Pipeline : Type := jsstring -> completion value.

(** The two globals of the page. *)
Record Page := mkPage {
  reviews : list jsstring;
  sentimentPipeline : option Pipeline
}.

(** The globals when the script starts. *)
Definition initial_page : Page := mkPage [] None.

(** What the page shows and calls, at the level of its own functions. *)
Inductive Ui :=
| UpdateStatus (message kind : jsstring)
| ShowError (message : jsstring)
| HideError
| ConsoleError (message detail : jsstring)
| ConsoleLog (message : jsstring)
| ShowReview (selectedReview : jsstring)
| Loading (shown : bool)
| AnalyzeButton (disabled : bool)
| ResetSentiment
| ResetAction
| DisplaySentimentResult (bucket shown_label : jsstring) (score : value)
| DisplayBusinessAction (action : Action)
| LogAnalysis (selectedReview bucket shown_label : jsstring) (score : value)
    (action : Action).

(** The filter of the [complete] callback, on one mapped [row.text]:
    [typeof text === "string" && text.trim() !== ""]. *)
Definition kept (row_text : value) : option jsstring :=
  match row_text with
  | VString s => if JSString.eqb (WhiteSpace.trim s) [] then None else Some s
  | _ => None
  end.

Fixpoint keep_all (texts : list value) : list jsstring :=
  match texts with
  | [] => []
  | t :: rest =>
    match kept t with
    | Some s => s :: keep_all rest
    | None => keep_all rest
    end
  end.

(** The TypeError of reading a property of [null] or [undefined]. *)
Definition cannot_read (key what : jsstring) : JsError :=
  mkError (str "TypeError")
    (str "Cannot read properties of " ++ what ++ str " (reading '" ++ key ++ str "')").

(** [v.key] where [v] may be [null] or [undefined]. *)
Definition read (v : value) (key : jsstring) : completion value :=
  match v with
  | VUndefined => Throw (cannot_read key (str "undefined"))
  | VNull => Throw (cannot_read key (str "null"))
  | _ => Normal (get v key)
  end.

(** [results.data.map(row => row.text)]: the first row that cannot be read
    ends the map with its throw. *)
Fixpoint row_texts (rows : list value) : completion (list value) :=
  match rows with
  | [] => Normal []
  | row :: rest =>
    match read row (str "text") with
    | Throw e => Throw e
    | Normal cell =>
      match row_texts rest with
      | Throw e => Throw e
      | Normal cells => Normal (cell :: cells)
      end
    end
  end.

(** [results.data.map(row => row.text).filter(...)] *)
Definition loaded_reviews (rows : list value) : completion (list jsstring) :=
  match row_texts rows with
  | Throw e => Throw e
  | Normal cells => Normal (keep_all cells)
  end.

(** How [Papa.parse] of the text ends: one of its two callbacks, or a throw. *)
Inductive PapaOutcome :=
| PapaComplete (rows : list value)
| PapaError (e : JsError)
| PapaThrows (e : JsError).

(** [loadReviews()], once the fetch of the corpus has ended as [fetched]. *)
Definition loadReviews (page : Page) (fetched : FetchOutcome)
    (papa : jsstring -> PapaOutcome) : Page * list Ui :=
  let failed e :=
    (page, [ConsoleError (str "TSV load error:") (error_to_string e);
            ShowError (str "Failed to load TSV file: " ++ errMessage e)]) in
  match fetched with
  | FetchRejects e => failed e
  | FetchResponds res =>
    if negb (ok res) then failed (new_Error (str "Failed to load TSV file"))
    else
      match text res with
      | TextFails e => failed e
      | TextOk tsvData =>
        match papa tsvData with
        | PapaComplete rows =>
          match loaded_reviews rows with
          | Throw e => failed e
          | Normal loaded =>
            let count := JSString.of_Z (Z.of_nat (List.length loaded)) in
            (mkPage loaded (sentimentPipeline page),
             [ConsoleLog (str "Loaded " ++ count ++ str " reviews");
              UpdateStatus (str "Loaded " ++ count ++ str " reviews") (str "success")])
          end
        | PapaError e =>
          (page, [ConsoleError (str "TSV parse error:") (error_to_string e);
                  ShowError (str "Failed to parse TSV file: " ++ errMessage e)])
        | PapaThrows e => failed e
        end
      end
  end.

(** [initSentimentModel()], once the load of the model has ended. *)
Definition initSentimentModel (page : Page) (model_load : completion Pipeline)
  : Page * list Ui :=
  match model_load with
  | Normal classify =>
    (mkPage (reviews page) (Some classify),
     [UpdateStatus (str "Loading sentiment model...") (str "info");
      UpdateStatus (str "Sentiment model ready") (str "success")])
  | Throw e =>
    (page,
     [UpdateStatus (str "Loading sentiment model...") (str "info");
      ConsoleError (str "Failed to load sentiment model:") (error_to_string e);
      ShowError (str "Failed to load sentiment model. Please check your network connection and try again.");
      UpdateStatus (str "Model load failed") (str "error")])
  end.

(** [analyzeSentiment(text)] *)
Definition analyzeSentiment (page : Page) (review_text : jsstring) : completion value :=
  match sentimentPipeline page with
  | None => Throw (new_Error (str "Sentiment model is not initialized."))
  | Some classify =>
    match classify review_text with
    | Throw e => Throw e
    | Normal (VArray (first :: others)) => Normal (VArray [VArray (first :: others)])
    | Normal _ => Throw (new_Error (str "Invalid sentiment output."))
    end
  end.

(** [error.message || fallback] *)
Definition message_or (e : JsError) (fallback : jsstring) : jsstring :=
  match errMessage e with
  | [] => fallback
  | message => message
  end.

Section Orchestration.

Variable toUpperCase : jsstring -> jsstring.
Variable StringToNumber : jsstring -> Number.
Variable ObjectToNumber : value -> Number.

(** [determineBusinessAction(score, rawLabel)] on what the extraction
    returned: the score is whatever value the classifier gave, and the
    comparisons and the subtraction coerce it to a Number. *)
Definition actionFor (data : SentimentData) : Action :=
  determineBusinessAction (ToNumber StringToNumber ObjectToNumber (sd_score data))
    (sd_rawLabel data).

(** The [try] block of [analyzeRandomReview] with its [catch]. *)
Definition analyze (page : Page) (selectedReview : jsstring) : list Ui :=
  let caught e :=
    [ConsoleError (str "Error:") (error_to_string e);
     ShowError (message_or e (str "Failed to analyze sentiment."))] in
  match analyzeSentiment page selectedReview with
  | Throw e => caught e
  | Normal result =>
    match extractSentimentData toUpperCase StringToNumber ObjectToNumber result with
    | Throw e => caught e
    | Normal data =>
      let action := actionFor data in
      [DisplaySentimentResult (sd_sentiment data) (sd_label data) (sd_score data);
       DisplayBusinessAction action;
       LogAnalysis selectedReview (sd_sentiment data) (sd_label data) (sd_score data) action]
    end
  end.

(** [analyzeRandomReview()]; [random_index] is what
    [Math.floor(Math.random() * reviews.length)] gives, an index of the
    list: the model has no run for another one. *)
Definition analyzeRandomReview (page : Page) (random_index : nat) : option (list Ui) :=
  match reviews page with
  | [] => Some [HideError; ShowError (str "No reviews available. Please try again later.")]
  | _ :: _ =>
    match sentimentPipeline page with
    | None =>
      Some [HideError;
            ShowError (str "Sentiment model is not ready yet. Please wait a moment.")]
    | Some _ =>
      match nth_error (reviews page) random_index with
      | None => None
      | Some selectedReview =>
        Some ([HideError; ShowReview selectedReview; Loading true; AnalyzeButton true;
               ResetSentiment; ResetAction]
              ++ analyze page selectedReview
              ++ [Loading false; AnalyzeButton false])
      end
    end
  end.

End Orchestration.

(** The calls of [logAnalysis] and of [displayBusinessAction] in a run, and
    the error messages it shows. *)
Definition logged (events : list Ui) : list Action :=
  flat_map (fun ev => match ev with LogAnalysis _ _ _ _ a => [a] | _ => [] end) events.

Definition displayed (events : list Ui) : list Action :=
  flat_map (fun ev => match ev with DisplayBusinessAction a => [a] | _ => [] end) events.

Definition errors_shown (events : list Ui) : list jsstring :=
  flat_map (fun ev => match ev with ShowError m => [m] | _ => [] end) events.

(** The value under [sa_uid] in the local storage after the writes of a run. *)
Definition storage_after (stored : option jsstring) (events : list Event)
  : option jsstring :=
  fold_left
    (fun st ev =>
       match ev with
       | ESetItem key v => if JSString.eqb key LS_KEY_UID then Some v else st
       | _ => st
       end)
    events stored.

(** The requests of a run. *)
Definition requests (events : list Event) : list Request :=
  flat_map (fun ev => match ev with EFetch req => [req] | _ => [] end) events.

(** The extraction of the logging-only variant: no [rawLabel]. *)
Module LoggingOnlyPage.

Section Extraction.

Variable toUpperCase : jsstring -> jsstring.
Variable StringToNumber : jsstring -> Number.
Variable ObjectToNumber : value -> Number.

Definition extractSentimentData (result : value)
  : completion (jsstring * jsstring * value) :=
  let defaults := (str "neutral", str "NEUTRAL", VNumber Number.lit_0_5) in
  match result with
  | VArray (VArray (sentimentData :: _) :: _) =>
    if ToBoolean sentimentData && typeof_is_object sentimentData then
      let raw := get sentimentData (str "label") in
      let label_c :=
        if ToBoolean raw then
          match raw with
          | VString s => Normal (toUpperCase s)
          | _ => Throw (mkError (str "TypeError")
                          (str "sentimentData.label.toUpperCase is not a function"))
          end
        else Normal (str "NEUTRAL") in
      match label_c with
      | Throw e => Throw e
      | Normal shown_label =>
        let score := or_else (get sentimentData (str "score")) (VNumber Number.lit_0_5) in
        let bucket :=
          if JSString.eqb shown_label (str "POSITIVE")
             && gt_half StringToNumber ObjectToNumber score then str "positive"
          else if JSString.eqb shown_label (str "NEGATIVE")
                  && gt_half StringToNumber ObjectToNumber score then str "negative"
          else str "neutral" in
        Normal (bucket, shown_label, score)
      end
    else Normal defaults
  | _ => Normal defaults
  end.

End Extraction.

End LoggingOnlyPage.

(** The corpus arrives: the fetch answers with a 2xx status, its body can
    be read, and the parser calls [complete] with [rows]. *)
Definition corpus_arrives (fetched : FetchOutcome) (papa : jsstring -> PapaOutcome)
    (rows : list value) : Prop :=
  exists res tsvData,
    fetched = FetchResponds res /\ ok res = true /\
    text res = TextOk tsvData /\ papa tsvData = PapaComplete rows.

(** The upper-casing of the ASCII letters, and a coercion that gives NaN,
    to run the models on. *)
Definition ascii_upper (s : jsstring) : jsstring :=
  map (fun u => if ((97 <=? u) && (u <=? 122))%N then (u - 32)%N else u) s.

Definition no_number : jsstring -> Number := fun _ => S754_nan.

Definition no_primitive : value -> Number := fun _ => S754_nan.

(** A page to run the model on: one review, and a classifier that is sure
    of a positive sentiment. *)
Definition sample_classifier : Pipeline :=
  fun _ =>
    Normal (VArray [VObject [(str "label", VString (str "POSITIVE"));
                             (str "score", VNumber Number.one)]]).

Definition sample_page : Page := mkPage [str "great"] (Some sample_classifier).

Definition sample_meta : Meta := {|
  user_id := fresh_uid sample_env;
  model := str "Xenova/distilbert-base-uncased-finetuned-sst-2-english";
  sentiment_bucket := str "positive";
  label := str "POSITIVE";
  confidence := Number.one;
  user_agent := userAgent sample_env;
  timestamp_iso := now_iso sample_env;
  review_length := 5;
  business_decision := None
|}.

(** The doubles with the two infinities, counted in units of the least
    exponent: an infinity lies at the first value that overflows. *)
Definition extended (x : Number) : Z :=
  match x with
  | S754_infinity false => Binary64.overflow
  | S754_infinity true => - Binary64.overflow
  | _ => Binary64.scaled x
  end.

(** * Properties *)

(** ** Strings *)

Lemma jsstring_eqb_eq (a b : jsstring) : JSString.eqb a b = true <-> a = b.
Proof.
  revert b; induction a as [|x a IH]; destruct b as [|y b]; simpl;
    try (split; discriminate); try tauto.
  rewrite andb_true_iff, N.eqb_eq, IH.
  split; [intros [-> ->]; reflexivity | intros [= -> ->]; auto].
Qed.

Lemma jsstring_eqb_neq (a b : jsstring) : JSString.eqb a b = false <-> a <> b.
Proof.
  rewrite <- jsstring_eqb_eq. destruct (JSString.eqb a b); split; congruence.
Qed.

(** ** Comparison of Numbers *)

Lemma SFcompare_antisym (x y : Number) :
  SFcompare y x = option_map CompOpp (SFcompare x y).
Proof.
  destruct x as [sx|sx| |sx mx ex], y as [sy|sy| |sy my ey]; simpl;
    try reflexivity; try (destruct sx; reflexivity); try (destruct sy; reflexivity);
    try (destruct sx, sy; reflexivity).
  destruct sx, sy; simpl; try reflexivity;
    rewrite (Z.compare_antisym ex ey); destruct (ex ?= ey); simpl; try reflexivity;
    fold (Pos.compare my mx); fold (Pos.compare mx my);
    rewrite (Pos.compare_antisym mx my); destruct (mx ?= my)%positive; reflexivity.
Qed.

Lemma ltb_negb_leb (x y : Number) :
  SFcompare x y <> None -> Number.ltb x y = negb (Number.leb y x).
Proof.
  unfold Number.ltb, Number.leb, SFltb, SFleb. rewrite (SFcompare_antisym x y).
  destruct (SFcompare x y) as [[| |]|]; simpl; congruence.
Qed.

(** The source literals denote the doubles nearest to the decimals. *)
Lemma literals_rounded :
  Number.lit_0_4 = Number.of_decimal 2 5 /\
  Number.lit_0_7 = Number.of_decimal 7 10 /\
  Number.lit_0_5 = Number.of_decimal 1 2 /\
  Number.lit_0_3 = Number.of_decimal 3 10 /\
  Number.lit_0_6 = Number.of_decimal 6 10 /\
  Number.lit_0_3_plus = Number.of_decimal 3000000000000001 10000000000000000 /\
  Number.one = Number.of_Z 1.
Proof. repeat split; vm_compute; reflexivity. Qed.

(** Nothing is both at most 0.4 and at least 0.7. *)
Lemma bands_disjoint (c : Number) :
  Number.leb c Number.lit_0_4 = true -> Number.leb Number.lit_0_7 c = false.
Proof.
  unfold Number.leb, SFleb, Number.lit_0_4, Number.lit_0_7.
  destruct c as [s|s| |s m e]; try (destruct s); cbn [SFcompare]; try congruence.
  destruct (Z.compare_spec e (-54)), (Z.compare_spec (-53) e); try lia; congruence.
Qed.

(** ** The decision engine *)

Lemma actions_distinct :
  OFFER_COUPON <> REQUEST_FEEDBACK /\ OFFER_COUPON <> ASK_REFERRAL /\
  REQUEST_FEEDBACK <> ASK_REFERRAL.
Proof. repeat split; intros H; apply (f_equal cssClass) in H; vm_compute in H; discriminate. Qed.

Lemma action_codes_distinct :
  actionCode OFFER_COUPON <> actionCode REQUEST_FEEDBACK /\
  actionCode OFFER_COUPON <> actionCode ASK_REFERRAL /\
  actionCode REQUEST_FEEDBACK <> actionCode ASK_REFERRAL.
Proof. repeat split; intros H; vm_compute in H; discriminate. Qed.

Lemma normalizedScore_positive (c : Number) : normalizedScore c (str "POSITIVE") = c.
Proof. reflexivity. Qed.

Lemma normalizedScore_negative (c : Number) :
  normalizedScore c (str "NEGATIVE") = Number.sub Number.one c.
Proof. reflexivity. Qed.

Lemma normalizedScore_other (c : Number) (label : jsstring) :
  label <> str "POSITIVE" -> label <> str "NEGATIVE" ->
  normalizedScore c label = Number.lit_0_5.
Proof.
  intros Hp Hn. unfold normalizedScore.
  apply jsstring_eqb_neq in Hp, Hn. now rewrite Hp, Hn.
Qed.

Lemma compare_lit_0_7 (x : Number) : x <> S754_nan -> SFcompare x Number.lit_0_7 <> None.
Proof. destruct x; cbn [SFcompare Number.lit_0_7]; congruence. Qed.

(** The three bands of [applyThresholds], for a score that is a number. *)
Lemma applyThresholds_bands (x : Number) :
  x <> S754_nan ->
  (applyThresholds x = OFFER_COUPON <-> Number.leb x Number.lit_0_4 = true) /\
  (applyThresholds x = ASK_REFERRAL <-> Number.leb Number.lit_0_7 x = true) /\
  (applyThresholds x = REQUEST_FEEDBACK <->
     Number.leb x Number.lit_0_4 = false /\ Number.leb Number.lit_0_7 x = false).
Proof.
  intros Hx. destruct actions_distinct as (Hcf & Hcr & Hfr).
  assert (Hlt : Number.ltb x Number.lit_0_7 = negb (Number.leb Number.lit_0_7 x)).
  { apply ltb_negb_leb. now apply compare_lit_0_7. }
  pose proof (bands_disjoint x) as Hd.
  unfold applyThresholds. rewrite Hlt.
  destruct (Number.leb x Number.lit_0_4) eqn:H4.
  - rewrite (Hd eq_refl). 
    split; [split; [reflexivity | intros _; reflexivity]|].
    split; [split; [intros H; exfalso; apply Hcr; exact H | discriminate]|].
    split; [intros H; exfalso; apply Hcf; exact H | intros [H _]; discriminate H].
  - destruct (Number.leb Number.lit_0_7 x) eqn:H7; cbn [negb].
    + split; [split; [intros H; exfalso; apply Hcr; symmetry; exact H | discriminate]|].
      split; [split; reflexivity|].
      split; [intros H; exfalso; apply Hfr; symmetry; exact H | intros [_ H]; discriminate H].
    + split; [split; [intros H; exfalso; apply Hcf; symmetry; exact H | discriminate]|].
      split; [split; [intros H; exfalso; apply Hfr; exact H | discriminate]|].
      split; [intros _; split; reflexivity | reflexivity].
Qed.

(** C1: for a confidence in [0,1] and the label POSITIVE the engine offers
    the coupon exactly when confidence <= 0.40, asks for a referral exactly
    when confidence >= 0.70 and requests feedback exactly in between; 0.40
    itself yields the coupon and 0.70 itself the referral. *)
Theorem positive_bands (confidence : Number) :
  Number.in_unit confidence ->
  (determineBusinessAction confidence (str "POSITIVE") = OFFER_COUPON
     <-> Number.leb confidence Number.lit_0_4 = true) /\
  (determineBusinessAction confidence (str "POSITIVE") = ASK_REFERRAL
     <-> Number.leb Number.lit_0_7 confidence = true) /\
  (determineBusinessAction confidence (str "POSITIVE") = REQUEST_FEEDBACK
     <-> Number.leb confidence Number.lit_0_4 = false /\
         Number.leb Number.lit_0_7 confidence = false) /\
  determineBusinessAction Number.lit_0_4 (str "POSITIVE") = OFFER_COUPON /\
  determineBusinessAction Number.lit_0_7 (str "POSITIVE") = ASK_REFERRAL.
Proof.
  intros [H0 H1].
  assert (Hx : confidence <> S754_nan).
  { intros ->. vm_compute in H0. discriminate. }
  unfold determineBusinessAction. rewrite normalizedScore_positive.
  destruct (applyThresholds_bands confidence Hx) as (Hc & Hr & Hf).
  split; [exact Hc | split; [exact Hr | split; [exact Hf |]]].
  split; vm_compute; reflexivity.
Qed.

(** The neighbours of the two boundaries in the specification's examples. *)
Example positive_near_boundaries :
  determineBusinessAction (Number.of_decimal 4000001 10000000) (str "POSITIVE")
  = REQUEST_FEEDBACK /\
  determineBusinessAction (Number.of_decimal 6999999 10000000) (str "POSITIVE")
  = REQUEST_FEEDBACK /\
  determineBusinessAction (Number.of_decimal 55 100) (str "NEGATIVE") = REQUEST_FEEDBACK.
Proof. split; [|split]; vm_compute; reflexivity. Qed.

Lemma positive_bands_witness :
  Number.in_unit (Number.of_decimal 55 100) /\
  determineBusinessAction (Number.of_decimal 55 100) (str "POSITIVE") = REQUEST_FEEDBACK.
Proof.
  assert (H : Number.in_unit (Number.of_decimal 55 100)) by (split; vm_compute; reflexivity).
  split; [exact H|].
  apply (proj1 (proj2 (proj2 (positive_bands (Number.of_decimal 55 100) H)))).
  split; vm_compute; reflexivity.
Defined.

(** C3: with a label other than exactly POSITIVE and exactly NEGATIVE the
    engine ignores the confidence: the normalized score is 0.5 and the
    action is REQUEST_FEEDBACK. *)
Theorem other_label_requests_feedback (confidence : Number) (label : jsstring) :
  label <> str "POSITIVE" -> label <> str "NEGATIVE" ->
  normalizedScore confidence label = Number.lit_0_5 /\
  determineBusinessAction confidence label = REQUEST_FEEDBACK.
Proof.
  intros Hp Hn. unfold determineBusinessAction.
  rewrite (normalizedScore_other confidence label Hp Hn).
  split; [reflexivity | vm_compute; reflexivity].
Qed.

Lemma other_label_requests_feedback_witness :
  determineBusinessAction S754_nan (str "positive") = REQUEST_FEEDBACK /\
  determineBusinessAction (Number.of_decimal 95 100) (str "UNKNOWN_LABEL") = REQUEST_FEEDBACK.
Proof.
  split.
  - apply (other_label_requests_feedback S754_nan (str "positive"));
      intros H; vm_compute in H; discriminate H.
  - apply (other_label_requests_feedback (Number.of_decimal 95 100) (str "UNKNOWN_LABEL"));
      intros H; vm_compute in H; discriminate H.
Defined.

(** C4: the engine is a total function of its two arguments, and whatever
    the confidence (NaN, infinite and out-of-range ones included) and the
    label, its result is one of the three literal records, which differ in
    their action codes. *)
Theorem decision_is_one_of_three (confidence : Number) (label : jsstring) :
  (determineBusinessAction confidence label = OFFER_COUPON \/
   determineBusinessAction confidence label = REQUEST_FEEDBACK \/
   determineBusinessAction confidence label = ASK_REFERRAL) /\
  actionCode OFFER_COUPON = str "OFFER_COUPON" /\
  actionCode REQUEST_FEEDBACK = str "REQUEST_FEEDBACK" /\
  actionCode ASK_REFERRAL = str "ASK_REFERRAL" /\
  actionCode OFFER_COUPON <> actionCode REQUEST_FEEDBACK /\
  actionCode OFFER_COUPON <> actionCode ASK_REFERRAL /\
  actionCode REQUEST_FEEDBACK <> actionCode ASK_REFERRAL.
Proof.
  split.
  - unfold determineBusinessAction, applyThresholds.
    destruct (Number.leb _ Number.lit_0_4); [now left|].
    destruct (Number.ltb _ Number.lit_0_7); [right; now left | right; now right].
  - split; [reflexivity|]. split; [reflexivity|]. split; [reflexivity|].
    exact action_codes_distinct.
Qed.

(** C5: (0.95, POSITIVE) gives ASK_REFERRAL with a message that contains
    "thrilled"; (0.95, NEGATIVE) gives OFFER_COUPON with a message that
    contains "sorry". *)
Theorem scenarios_0_95 :
  determineBusinessAction (Number.of_decimal 95 100) (str "POSITIVE") = ASK_REFERRAL /\
  JSString.includes (uiMessage ASK_REFERRAL) (str "thrilled") = true /\
  determineBusinessAction (Number.of_decimal 95 100) (str "NEGATIVE") = OFFER_COUPON /\
  JSString.includes (uiMessage OFFER_COUPON) (str "sorry") = true.
Proof. repeat split; vm_compute; reflexivity. Qed.

(** C2 as it is stated fails at the confidence 0.30000000000000004, the
    double that follows 0.3: subtracting it from 1 rounds to 0.7, so the
    label NEGATIVE yields ASK_REFERRAL although the confidence exceeds 0.3. *)
Lemma negative_bands_counterexample :
  ~ (forall confidence : Number,
       Number.is_double confidence = true ->
       Number.in_unit confidence ->
       (determineBusinessAction confidence (str "NEGATIVE") = ASK_REFERRAL
          <-> Number.leb confidence Number.lit_0_3 = true)).
Proof.
  intros H.
  pose (c := S754_finite false 5404319552844596 (-54)).
  assert (Hd : c = Number.of_decimal 30000000000000004 100000000000000000)
    by (vm_compute; reflexivity).
  assert (Hv : Number.is_double c = true) by (vm_compute; reflexivity).
  assert (Hc : Number.in_unit c) by (split; vm_compute; reflexivity).
  assert (Hr : determineBusinessAction c (str "NEGATIVE") = ASK_REFERRAL)
    by (vm_compute; reflexivity).
  apply (H c Hv Hc) in Hr. vm_compute in Hr. discriminate Hr.
Qed.

(** ** The classifier-output extraction *)

Section ExtractionFacts.

Variable toUpperCase : jsstring -> jsstring.
Variable StringToNumber : jsstring -> Number.
Variable ObjectToNumber : value -> Number.

(** C10: whatever the first classification is, a falsy [score] (absent,
    0, -0, NaN, ...) comes back as 0.5 and any other score as it is; a
    non-empty string label comes back unchanged as [rawLabel] and in upper
    case as [label], and a falsy label as the raw label NEUTRAL. The one
    case without a result is a label that is truthy and no string, where
    the extraction throws. *)
Theorem extractSentimentData_defaults (first : value) (others rows : list value) :
  let given_label := get first (str "label") in
  let given_score := get first (str "score") in
  match extractSentimentData toUpperCase StringToNumber ObjectToNumber
          (VArray (VArray (first :: others) :: rows)) with
  | Normal d =>
    (ToBoolean given_score = false -> sd_score d = VNumber Number.lit_0_5) /\
    (ToBoolean given_score = true -> sd_score d = given_score) /\
    (given_score = VUndefined -> sd_score d = VNumber Number.lit_0_5) /\
    (given_score = VNumber Number.zero -> sd_score d = VNumber Number.lit_0_5) /\
    (forall l, given_label = VString l -> l <> [] ->
               sd_rawLabel d = l /\ sd_label d = toUpperCase l) /\
    (ToBoolean given_label = false -> sd_rawLabel d = str "NEUTRAL")
  | Throw e => ToBoolean given_label = true /\ forall l, given_label <> VString l
  end.
Proof.
  cbv zeta. unfold extractSentimentData.
  destruct (ToBoolean first && typeof_is_object first) eqn:Hobj.
  - unfold or_else.
    destruct (ToBoolean (get first (str "label"))) eqn:Hl.
    + destruct (get first (str "label")) as [| |b|x|l|xs|ps] eqn:Hg;
        try discriminate Hl;
        try (split; [reflexivity | discriminate]).
      cbv zeta. cbn [sd_score sd_rawLabel sd_label].
      destruct (ToBoolean (get first (str "score"))) eqn:Hs.
      * split; [discriminate|]. split; [reflexivity|].
        split; [intros H; rewrite H in Hs; discriminate Hs|].
        split; [intros H; rewrite H in Hs; discriminate Hs|].
        split; [intros l' [= <-] _; split; reflexivity | discriminate].
      * split; [reflexivity|]. split; [discriminate|].
        split; [reflexivity|]. split; [reflexivity|].
        split; [intros l' [= <-] _; split; reflexivity | discriminate].
    + cbv zeta. cbn [sd_score sd_rawLabel sd_label].
      assert (Hno : forall l, get first (str "label") = VString l -> l <> [] -> False).
      { intros l H Hne. rewrite H in Hl. destruct l; [now apply Hne | discriminate Hl]. }
      destruct (ToBoolean (get first (str "score"))) eqn:Hs.
      * split; [discriminate|]. split; [reflexivity|].
        split; [intros H; rewrite H in Hs; discriminate Hs|].
        split; [intros H; rewrite H in Hs; discriminate Hs|].
        split; [intros l H Hne; destruct (Hno l H Hne) | reflexivity].
      * split; [reflexivity|]. split; [discriminate|].
        split; [reflexivity|]. split; [reflexivity|].
        split; [intros l H Hne; destruct (Hno l H Hne) | reflexivity].
  - assert (Hg : forall key, get first key = VUndefined).
    { intros key. destruct first as [| |b|x|s|xs|ps]; try reflexivity.
      discriminate Hobj. }
    rewrite !Hg. cbn [sd_score sd_rawLabel sd_label].
    split; [reflexivity|]. split; [discriminate|].
    split; [reflexivity|]. split; [reflexivity|].
    split; [discriminate | reflexivity].
Qed.

End ExtractionFacts.

Lemma extractSentimentData_defaults_witness :
  exists d,
    extractSentimentData (fun s => s) (fun _ => S754_nan) (fun _ => S754_nan)
      (VArray [VArray [VObject [(str "score", VNumber Number.zero)]]]) = Normal d /\
    sd_rawLabel d = str "NEUTRAL" /\
    sd_score d = VNumber Number.lit_0_5.
Proof.
  pose proof (extractSentimentData_defaults (fun s => s) (fun _ => S754_nan)
                (fun _ => S754_nan) (VObject [(str "score", VNumber Number.zero)]) [] [])
    as H.
  cbv zeta in H.
  destruct (extractSentimentData (fun s => s) (fun _ => S754_nan) (fun _ => S754_nan)
              (VArray [VArray [VObject [(str "score", VNumber Number.zero)]]]))
    as [d|e].
  - exists d. destruct H as (Hscore & _ & _ & _ & _ & Hraw).
    split; [reflexivity|]. split; [apply Hraw | apply Hscore]; reflexivity.
  - destruct H as [Hlabel _]. vm_compute in Hlabel. discriminate Hlabel.
Defined.

(** ** The telemetry emitter *)

Lemma substring_prefix (s : jsstring) (n : Z) :
  0 <= n -> JSString.substring s 0 n = firstn (Z.to_nat n) s.
Proof.
  intros Hn. unfold JSString.substring.
  set (len := Z.of_nat (List.length s)).
  assert (Hlen : 0 <= len) by apply Nat2Z.is_nonneg.
  rewrite (Z.max_l 0 0) by lia. rewrite (Z.min_l 0 len) by lia.
  rewrite (Z.max_l n 0) by lia.
  rewrite (Z.min_l 0 (Z.min n len)) by lia.
  rewrite (Z.max_r 0 (Z.min n len)) by lia.
  rewrite Z.sub_0_r. change (Z.to_nat 0) with 0%nat. cbn [skipn].
  destruct (Z.le_ge_cases n len) as [H|H].
  - rewrite Z.min_l by lia. reflexivity.
  - rewrite Z.min_r by lia. unfold len. rewrite Nat2Z.id.
    rewrite firstn_all. symmetry. apply firstn_all2. lia.
Qed.

Lemma string_or_some (s : jsstring) : string_or (Some s) [] = s.
Proof. destruct s; reflexivity. Qed.

(** *** USVStrings *)

(** Induction along the way surrogates are read: a pair, a high surrogate
    that no low one follows, any other code unit. *)
Lemma surrogates_ind (P : jsstring -> Prop) :
  P [] ->
  (forall u l rest,
     JSON.is_high_surrogate u = true -> JSON.is_low_surrogate l = true ->
     P rest -> P (u :: l :: rest)) ->
  (forall u rest,
     JSON.is_high_surrogate u = true ->
     match rest with l :: _ => JSON.is_low_surrogate l = false | [] => True end ->
     P rest -> P (u :: rest)) ->
  (forall u rest, JSON.is_high_surrogate u = false -> P rest -> P (u :: rest)) ->
  forall s, P s.
Proof.
  intros Hnil Hpair Hlone Hplain s.
  assert (H : forall n s, (List.length s <= n)%nat -> P s).
  { clear s. induction n as [|n IH]; intros s Hlen.
    - destruct s; [exact Hnil | cbn in Hlen; lia].
    - destruct s as [|u rest]; [exact Hnil|]. cbn [List.length] in Hlen.
      destruct (JSON.is_high_surrogate u) eqn:Hu.
      + destruct rest as [|l rest'].
        * apply Hlone; [exact Hu | exact I | exact Hnil].
        * destruct (JSON.is_low_surrogate l) eqn:Hl.
          -- apply Hpair; [exact Hu | exact Hl |]. apply IH. cbn [List.length] in Hlen. lia.
          -- apply Hlone; [exact Hu | exact Hl |]. apply IH. lia.
      + apply Hplain; [exact Hu|]. apply IH. lia. }
  apply (H (List.length s)). apply Nat.le_refl.
Qed.

Lemma toUSVString_pair (u l : N) (rest : jsstring) :
  JSON.is_high_surrogate u = true -> JSON.is_low_surrogate l = true ->
  Form.toUSVString (u :: l :: rest) = u :: l :: Form.toUSVString rest.
Proof. intros Hu Hl. cbn [Form.toUSVString]. now rewrite Hu, Hl. Qed.

Lemma toUSVString_lone (u : N) (rest : jsstring) :
  JSON.is_high_surrogate u = true ->
  match rest with l :: _ => JSON.is_low_surrogate l = false | [] => True end ->
  Form.toUSVString (u :: rest) = 65533%N :: Form.toUSVString rest.
Proof.
  intros Hu Hrest. cbn [Form.toUSVString]. rewrite Hu.
  destruct rest as [|l rest']; [reflexivity|]. now rewrite Hrest.
Qed.

Lemma toUSVString_other (u : N) (rest : jsstring) :
  JSON.is_high_surrogate u = false ->
  Form.toUSVString (u :: rest)
  = (if JSON.is_low_surrogate u then 65533%N else u) :: Form.toUSVString rest.
Proof.
  intros Hu. cbn [Form.toUSVString]. rewrite Hu.
  destruct (JSON.is_low_surrogate u); reflexivity.
Qed.

(** The conversion keeps the length. *)
Lemma toUSVString_length (s : jsstring) :
  List.length (Form.toUSVString s) = List.length s.
Proof.
  induction s as [|u l rest Hu Hl IH|u rest Hu Hrest IH|u rest Hu IH] using surrogates_ind.
  - reflexivity.
  - rewrite toUSVString_pair by assumption. cbn [List.length]. now rewrite IH.
  - rewrite toUSVString_lone by assumption. cbn [List.length]. now rewrite IH.
  - rewrite toUSVString_other by assumption. cbn [List.length]. now rewrite IH.
Qed.

(** After a string that the conversion leaves as it is, the conversion goes
    on as from the start. *)
Lemma toUSVString_app (a b : jsstring) :
  Form.toUSVString a = a ->
  Form.toUSVString (a ++ b) = a ++ Form.toUSVString b.
Proof.
  induction a as [|u l rest Hu Hl IH|u rest Hu Hrest IH|u rest Hu IH] using surrogates_ind;
    intros Ha.
  - reflexivity.
  - rewrite toUSVString_pair in Ha by assumption. injection Ha as Ha.
    cbn [app]. rewrite toUSVString_pair by assumption. now rewrite IH.
  - rewrite toUSVString_lone in Ha by assumption. injection Ha as Hx _.
    subst u. discriminate Hu.
  - rewrite toUSVString_other in Ha by assumption. injection Ha as Hx Ha.
    cbn [app]. rewrite toUSVString_other by assumption.
    rewrite Hx. now rewrite IH.
Qed.

Lemma usv_app (a b : jsstring) :
  Form.toUSVString a = a -> Form.toUSVString b = b ->
  Form.toUSVString (a ++ b) = a ++ b.
Proof. intros Ha Hb. now rewrite toUSVString_app, Hb. Qed.

(** A string without surrogates is left as it is. *)
Lemma usv_plain (s : jsstring) :
  forallb (fun u => (u <? 55296)%N) s = true -> Form.toUSVString s = s.
Proof.
  induction s as [|u s IH]; [reflexivity|].
  cbn [forallb]. intros H. apply andb_true_iff in H. destruct H as [Hu Hs].
  apply N.ltb_lt in Hu.
  assert (Hh : JSON.is_high_surrogate u = false).
  { unfold JSON.is_high_surrogate. apply andb_false_iff. left. apply N.leb_gt. lia. }
  assert (Hl : JSON.is_low_surrogate u = false).
  { unfold JSON.is_low_surrogate. apply andb_false_iff. left. apply N.leb_gt. lia. }
  rewrite toUSVString_other by exact Hh. rewrite Hl. now rewrite IH.
Qed.

(** In a string that the conversion leaves as it is, cutting after [n + 1]
    code units can only change the last of them. *)
Lemma toUSVString_firstn (s : jsstring) :
  Form.toUSVString s = s ->
  forall n, firstn n (Form.toUSVString (firstn (S n) s)) = firstn n s.
Proof.
  induction s as [|u l rest Hu Hl IH|u rest Hu Hrest IH|u rest Hu IH] using surrogates_ind;
    intros Hs n.
  - destruct n; reflexivity.
  - rewrite toUSVString_pair in Hs by assumption. injection Hs as Hs.
    destruct n as [|[|n]].
    + reflexivity.
    + cbn [firstn]. rewrite toUSVString_pair by assumption. reflexivity.
    + change (firstn (S (S (S n))) (u :: l :: rest)) with (u :: l :: firstn (S n) rest).
      rewrite toUSVString_pair by assumption. cbn [firstn]. now rewrite IH.
  - rewrite toUSVString_lone in Hs by assumption. injection Hs as Hx _.
    subst u. discriminate Hu.
  - rewrite toUSVString_other in Hs by assumption. injection Hs as Hx Hs.
    destruct n as [|n]; [reflexivity|].
    change (firstn (S (S n)) (u :: rest)) with (u :: firstn (S n) rest).
    rewrite toUSVString_other by assumption. rewrite Hx. cbn [firstn]. now rewrite IH.
Qed.

Section TelemetryFacts.

Variable Number_toString : Number -> jsstring.
Variable toFixed : Number -> Z -> jsstring.

Lemma sendLogSimple_form_review (now : Z) (payload : Payload) :
  Form.get (sendLogSimple_form Number_toString now payload) (str "review")
  = Some (Form.toUSVString (JSString.substring (string_or (review payload) []) 0 5000)).
Proof. reflexivity. Qed.

Lemma sendLogSimple_form_action_taken (now : Z) (payload : Payload) :
  Form.get (sendLogSimple_form Number_toString now payload) (str "action_taken")
  = Some (Form.toUSVString (string_or (action_taken payload) [])).
Proof. reflexivity. Qed.

Lemma sendLogSimple_form_meta (now : Z) (payload : Payload) :
  Form.get (sendLogSimple_form Number_toString now payload) (str "meta")
  = Some (Form.toUSVString (stringify_meta Number_toString (meta payload))).
Proof. reflexivity. Qed.

Lemma logAnalysis_form_review (env : Env) (review_text bucket shown : jsstring)
    (score : Number) (action : Action) :
  Form.get (logAnalysis_form Number_toString toFixed env review_text bucket shown score action)
           (str "review")
  = Some (Form.toUSVString (firstn (Z.to_nat 5000) review_text)).
Proof.
  unfold logAnalysis_form. rewrite sendLogSimple_form_review.
  unfold logAnalysis_payload. cbn [review].
  rewrite string_or_some, !substring_prefix by lia.
  rewrite firstn_firstn, Nat.min_id. reflexivity.
Qed.

(** C7, amended: the [review] field of the transport form is the review cut
    to its first 5000 code units and converted to a USVString, as
    [URLSearchParams.set] does: every surrogate left without its partner
    is U+FFFD there. It is as long as the cut. When the cut holds no such
    surrogate the field is a prefix of the review, and the review itself
    when that is at most 5000 long; and for a review without unpaired
    surrogates the field agrees with the review on its first 4999 code
    units, so only a pair split by the cut makes a difference. *)
Theorem review_field_truncated (env : Env) (text sentiment label : jsstring)
    (score : Number) (action : Action) :
  exists r,
    Form.get (logAnalysis_form Number_toString toFixed env text sentiment label score action)
             (str "review") = Some r /\
    r = Form.toUSVString (firstn (Z.to_nat 5000) text) /\
    List.length r = Nat.min (Z.to_nat 5000) (List.length text) /\
    (List.length r <= Z.to_nat 5000)%nat /\
    (Form.toUSVString (firstn (Z.to_nat 5000) text) = firstn (Z.to_nat 5000) text ->
     (exists rest, text = r ++ rest) /\
     ((List.length text <= Z.to_nat 5000)%nat -> r = text)) /\
    (Form.toUSVString text = text ->
     firstn (Z.to_nat 4999) r = firstn (Z.to_nat 4999) text).
Proof.
  exists (Form.toUSVString (firstn (Z.to_nat 5000) text)).
  split; [apply logAnalysis_form_review|].
  split; [reflexivity|].
  assert (Hlen : List.length (Form.toUSVString (firstn (Z.to_nat 5000) text))
                 = Nat.min (Z.to_nat 5000) (List.length text)).
  { rewrite toUSVString_length. apply length_firstn. }
  split; [exact Hlen|]. split; [rewrite Hlen; apply Nat.le_min_l|]. split.
  - intros Hwf. rewrite Hwf. split.
    + exists (skipn (Z.to_nat 5000) text). symmetry. apply firstn_skipn.
    + intros H. apply firstn_all2. exact H.
  - intros Hwf. change (Z.to_nat 5000) with (S (Z.to_nat 4999)).
    apply toUSVString_firstn. exact Hwf.
Qed.

End TelemetryFacts.

(** C7 as it is stated fails for a review of 5001 code units whose last
    two are a surrogate pair: the review has no unpaired surrogate, the cut
    splits the pair, and the field ends in U+FFFD - it is no prefix of the
    review. *)
Lemma review_field_truncated_counterexample :
  let review_text := repeat 97%N 4999 ++ [55357%N; 56832%N] in
  Form.toUSVString review_text = review_text /\
  exists r,
    Form.get (logAnalysis_form (fun _ => str "1") (fun _ _ => str "100.0") sample_env
                review_text (str "positive") (str "POSITIVE") Number.one ASK_REFERRAL)
             (str "review") = Some r /\
    r = repeat 97%N 4999 ++ [65533%N] /\
    ~ (exists rest, review_text = r ++ rest).
Proof.
  cbv zeta. split; [vm_compute; reflexivity|].
  exists (repeat 97%N 4999 ++ [65533%N]).
  split; [|split; [reflexivity|]].
  - rewrite logAnalysis_form_review. vm_compute. reflexivity.
  - intros [rest H].
    apply (f_equal (fun l => nth 4999 l 0%N)) in H.
    vm_compute in H. discriminate H.
Qed.

Lemma ok_iff_2xx (res : Response) : ok res = true <-> 200 <= status res <= 299.
Proof. unfold ok. rewrite andb_true_iff, !Z.leb_le. tauto. Qed.

(** What the [try] block of the emitter yields: success exactly for a
    response with a 2xx status, a throw otherwise. *)
Lemma try_send_cases (outcome : FetchOutcome) :
  (exists res, outcome = FetchResponds res /\ 200 <= status res <= 299 /\
     try_send outcome =
       (Normal (mkOutcome true None),
        [EConsoleLog (str "Logged to Google Sheets successfully")])) \/
  ((forall res, outcome = FetchResponds res -> ~ 200 <= status res <= 299) /\
   exists err, try_send outcome = (Throw err, [])).
Proof.
  destruct outcome as [e|res]; cbn [try_send].
  - right. split; [discriminate|]. now exists e.
  - destruct (ok res) eqn:Hok; cbn [negb].
    + left. exists res. rewrite <- ok_iff_2xx. auto.
    + right. split.
      * intros res' [= <-]. rewrite <- ok_iff_2xx. congruence.
      * destruct (text res); eexists; reflexivity.
Qed.

Lemma settles_from_try (outcome : FetchOutcome) (request : Event)
    (result : Promise Outcome * list Event) :
  (forall msg, request <> EShowError msg) ->
  result =
    match try_send outcome with
    | (Normal r, events) => (Fulfilled r, request :: events)
    | (Throw err, events) =>
      (Fulfilled (mkOutcome false (Some (error_to_string err))),
       request :: events ++
       [EConsoleError (str "Google Sheets logging failed:") (error_to_string err)])
    end ->
  settles_without_throwing outcome result.
Proof.
  intros Hreq ->.
  destruct (try_send_cases outcome) as [(res & -> & H2xx & ->) | (Hno & err & ->)].
  - split.
    + eexists. split; [reflexivity|]. cbn [success error]. split; [|split].
      * split; [intros _; now exists res | reflexivity].
      * reflexivity.
      * discriminate.
    + intros msg [H|[H|[]]]; [now apply (Hreq msg) | discriminate H].
  - split.
    + eexists. split; [reflexivity|]. cbn [success error]. split; [|split].
      * split; [discriminate | intros (res & Hres & H2xx); exfalso; exact (Hno res Hres H2xx)].
      * discriminate.
      * intros _. eexists; reflexivity.
    + intros msg [H|[H|[]]]; [now apply (Hreq msg) | discriminate H].
Qed.

(** C8: whatever way the transport ends, the promise of [sendLogSimple] (in
    both variants of the page) is fulfilled, never rejected: with
    [success: true] exactly for a response with a 2xx status, and otherwise
    with [success: false] and an [error] string; the failure goes to the
    console only, no error is shown to the user, and [logAnalysis] shows
    none either. *)
Theorem sendLogSimple_settles (Number_toString : Number -> jsstring)
    (toFixed : Number -> Z -> jsstring) (now : Z) (payload : Payload)
    (outcome : FetchOutcome) (env : Env) (review_text sentiment label : jsstring)
    (score : Number) (action : Action) :
  settles_without_throwing outcome (sendLogSimple Number_toString now payload outcome) /\
  settles_without_throwing outcome
    (LoggingOnly.sendLogSimple Number_toString now payload outcome) /\
  (forall msg detail,
     ~ In (EShowError msg)
          (logAnalysis Number_toString toFixed env review_text sentiment label score action outcome) /\
     ~ In (EConsoleError (str "Background logging error:") detail)
          (logAnalysis Number_toString toFixed env review_text sentiment label score action outcome)).
Proof.
  split; [|split].
  - eapply settles_from_try; [|reflexivity]. discriminate.
  - eapply settles_from_try; [|reflexivity]. discriminate.
  - intros msg detail. unfold logAnalysis.
    set (payload' := logAnalysis_payload _ _ _ _ _ _ _).
    pose proof (settles_from_try outcome
                  (EFetch (mkRequest GAS_WEB_APP_URL (str "POST")
                             (sendLogSimple_form Number_toString (now_ms env) payload')))
                  (sendLogSimple Number_toString (now_ms env) payload' outcome)
                  ltac:(discriminate) eq_refl) as [(r & Hr & _) Hshow].
    assert (Hev : forall ev, In ev (snd (getUserId env)) ->
                  exists k v, ev = ESetItem k v).
    { unfold getUserId. destruct (stored_uid env) as [[|u s]|]; cbn [snd];
        intros ev Hin; cbn [In] in Hin; [| contradiction |];
        destruct Hin as [<-|[]]; eauto. }
    destruct (sendLogSimple Number_toString (now_ms env) payload' outcome)
      as [settled events] eqn:Hs.
    cbn [fst snd] in Hr, Hshow. subst settled.
    rewrite app_nil_r.
    split; intros Hin; apply in_app_or in Hin; destruct Hin as [Hin|Hin].
    + apply Hev in Hin. destruct Hin as (k & v & Hin). discriminate Hin.
    + now apply (Hshow msg).
    + apply Hev in Hin. destruct Hin as (k & v & Hin). discriminate Hin.
    + unfold sendLogSimple in Hs.
      destruct (try_send outcome) as [[r'|err] evs] eqn:Ht; injection Hs as _ <-.
      * destruct outcome as [e|res]; cbn [try_send] in Ht.
        { discriminate Ht. }
        destruct (negb (ok res)); [destruct (text res); discriminate Ht|].
        injection Ht as _ <-.
        destruct Hin as [H|[H|[]]]; discriminate H.
      * assert (evs = []) as ->.
        { destruct outcome as [e|res]; cbn [try_send] in Ht; [now injection Ht|].
          destruct (negb (ok res)); [|discriminate Ht].
          destruct (text res); now injection Ht. }
        destruct Hin as [H|[H|[]]]; [discriminate H|].
        injection H as H _. vm_compute in H. discriminate H.
Qed.

(** ** JSON texts: reading back what [stringify] writes *)

Module JSONFacts.
Import JSON.

Local Open Scope N_scope.

Lemma hex_value_digit (n : N) : n < 16 -> hex_value (hex_digit n) = Some n.
Proof.
  intros Hn. unfold hex_digit, hex_value.
  destruct (N.ltb_spec n 10) as [H|H].
  - replace ((48 <=? 48 + n) && (48 + n <=? 57))%bool with true
      by (symmetry; apply andb_true_iff; split; apply N.leb_le; lia).
    f_equal. lia.
  - replace ((48 <=? 87 + n) && (87 + n <=? 57))%bool with false
      by (symmetry; apply andb_false_iff; right; apply N.leb_gt; lia).
    replace ((97 <=? 87 + n) && (87 + n <=? 102))%bool with true
      by (symmetry; apply andb_true_iff; split; apply N.leb_le; lia).
    f_equal. lia.
Qed.

Lemma hex4_escape (u : N) :
  u < 65536 ->
  hex4 (hex_digit (u / 4096)) (hex_digit ((u / 256) mod 16))
       (hex_digit ((u / 16) mod 16)) (hex_digit (u mod 16)) = Some u.
Proof.
  intros Hu. unfold hex4.
  rewrite !hex_value_digit by divmod.
  f_equal. divmod.
Qed.

(** An escape [\uXXXX] is read back as the code unit it stands for. *)
Lemma parse_unicode_escape (u : N) (text body rest : jsstring) :
  u < 65536 ->
  parse_string_body text = Some (body, rest) ->
  parse_string_body (unicode_escape u ++ text) = Some (u :: body, rest).
Proof.
  intros Hu Ht. unfold unicode_escape.
  cbn [app parse_string_body].
  change (92 =? 34) with false. change (92 =? 92) with true.
  change (117 =? 117) with true. cbn iota.
  rewrite (hex4_escape u Hu), Ht. reflexivity.
Qed.

(** A code unit that is written as it is. *)
Lemma parse_plain_unit (u : N) (text body rest : jsstring) :
  u <> 34 -> u <> 92 -> 32 <= u ->
  parse_string_body text = Some (body, rest) ->
  parse_string_body (u :: text) = Some (u :: body, rest).
Proof.
  intros H34 H92 H32 Ht. cbn [parse_string_body].
  apply N.eqb_neq in H34, H92. rewrite H34, H92.
  replace (u <? 32) with false by (symmetry; apply N.ltb_ge; exact H32).
  rewrite Ht. reflexivity.
Qed.

Lemma parse_quote_unit (u : N) (text body rest : jsstring) :
  parse_string_body text = Some (body, rest) ->
  parse_string_body (quote_unit u ++ text) = Some (u :: body, rest).
Proof.
  intros Ht. unfold quote_unit.
  destruct (N.eqb_spec u 8) as [->|H8]; [cbn; now rewrite Ht|].
  destruct (N.eqb_spec u 9) as [->|H9]; [cbn; now rewrite Ht|].
  destruct (N.eqb_spec u 10) as [->|H10]; [cbn; now rewrite Ht|].
  destruct (N.eqb_spec u 12) as [->|H12]; [cbn; now rewrite Ht|].
  destruct (N.eqb_spec u 13) as [->|H13]; [cbn; now rewrite Ht|].
  destruct (N.eqb_spec u 34) as [->|H34]; [cbn; now rewrite Ht|].
  destruct (N.eqb_spec u 92) as [->|H92]; [cbn; now rewrite Ht|].
  destruct (N.ltb_spec u 32) as [H32|H32].
  - apply parse_unicode_escape; [lia | exact Ht].
  - now apply parse_plain_unit.
Qed.

Lemma surrogate_range (u : N) :
  (is_high_surrogate u || is_low_surrogate u)%bool = true ->
  u < 65536 /\ u <> 34 /\ u <> 92 /\ 32 <= u.
Proof.
  unfold is_high_surrogate, is_low_surrogate.
  rewrite orb_true_iff, !andb_true_iff, !N.leb_le. lia.
Qed.

Lemma parse_quote_units_bounded (n : nat) :
  forall s rest, (List.length s <= n)%nat ->
  parse_string_body (quote_units s ++ 34 :: rest) = Some (s, rest).
Proof.
  induction n as [|n IH]; intros s rest Hlen.
  - destruct s; [reflexivity | cbn in Hlen; lia].
  - destruct s as [|u s]; [reflexivity|].
    cbn [List.length] in Hlen. cbn [quote_units].
    destruct (is_high_surrogate u) eqn:Hhi.
    + destruct (surrogate_range u) as (Hu & H34 & H92 & H32); [now rewrite Hhi|].
      destruct s as [|l s].
      * apply parse_unicode_escape; [exact Hu | reflexivity].
      * destruct (is_low_surrogate l) eqn:Hlo.
        -- destruct (surrogate_range l) as (Hl & Hl34 & Hl92 & Hl32);
             [rewrite Hlo; apply orb_true_r|].
           cbn [app]. apply parse_plain_unit; trivial.
           apply parse_plain_unit; trivial.
           apply IH. cbn [List.length] in Hlen. lia.
        -- rewrite <- app_assoc. apply parse_unicode_escape; trivial.
           apply IH. lia.
    + destruct (is_low_surrogate u) eqn:Hlo.
      * destruct (surrogate_range u) as (Hu & _); [rewrite Hlo; apply orb_true_r|].
        rewrite <- app_assoc. apply parse_unicode_escape; trivial. apply IH. lia.
      * rewrite <- app_assoc.
        apply parse_quote_unit. apply IH. lia.
Qed.

(** A quoted string is read back as the string. *)
Lemma parse_quote (s rest : jsstring) :
  parse_string_body (quote_units s ++ 34 :: rest) = Some (s, rest).
Proof. now apply (parse_quote_units_bounded (List.length s)). Qed.

(** *** Number tokens *)

Lemma span_app (p : N -> bool) (s : jsstring) :
  s = fst (span p s) ++ snd (span p s) /\ forallb p (fst (span p s)) = true.
Proof.
  induction s as [|u s [IH1 IH2]]; [now split|].
  cbn [span]. destruct (p u) eqn:Hp.
  - destruct (span p s) as [a b]. cbn [fst snd app forallb] in *.
    rewrite Hp, IH2. split; [now f_equal | reflexivity].
  - now split.
Qed.

Lemma span_exact (p : N -> bool) (token rest : jsstring) :
  forallb p token = true ->
  match rest with [] => true | c :: _ => negb (p c) end = true ->
  span p (token ++ rest) = (token, rest).
Proof.
  intros Ht Hr. induction token as [|u token IH]; cbn [app].
  - destruct rest as [|c rest]; [reflexivity|]. cbn [span].
    apply negb_true_iff in Hr. now rewrite Hr.
  - cbn [forallb] in Ht. apply andb_true_iff in Ht. destruct Ht as [Hu Ht].
    cbn [span]. rewrite Hu, (IH Ht). reflexivity.
Qed.

Lemma consumes_refl (s : jsstring) : consumes s s.
Proof. now exists []. Qed.

Lemma consumes_cons (u : N) (s r : jsstring) :
  is_number_char u = true -> consumes s r -> consumes (u :: s) r.
Proof.
  intros Hu (p & -> & Hp). exists (u :: p). split; [reflexivity|].
  cbn [forallb]. now rewrite Hu, Hp.
Qed.

Lemma consumes_trans (a b c : jsstring) : consumes a b -> consumes b c -> consumes a c.
Proof.
  intros (p & -> & Hp) (q & -> & Hq). exists (p ++ q).
  split; [apply app_assoc | rewrite forallb_app, Hp, Hq; reflexivity].
Qed.

Lemma digit_number_char (u : N) : is_digit u = true -> is_number_char u = true.
Proof. unfold is_number_char. now intros ->. Qed.

Lemma consumes_drop_digits (s : jsstring) : consumes s (drop_digits s).
Proof.
  unfold drop_digits. destruct (span_app is_digit s) as [H1 H2].
  exists (fst (span is_digit s)). split; [exact H1|].
  apply forallb_forall. intros u Hu.
  apply digit_number_char. rewrite forallb_forall in H2. now apply H2.
Qed.

Lemma consumes_digits1 (s r : jsstring) : digits1 s = Some r -> consumes s r.
Proof.
  destruct s as [|u s]; [discriminate|]. cbn [digits1].
  destruct (is_digit u) eqn:Hu; [|discriminate]. intros [= <-].
  apply consumes_cons; [now apply digit_number_char | apply consumes_drop_digits].
Qed.

Lemma consumes_number_int (s r : jsstring) : number_int s = Some r -> consumes s r.
Proof.
  unfold number_int. destruct s as [|u s]; [discriminate|].
  destruct (N.eqb_spec u 45) as [->|Hu].
  - intros H. apply consumes_cons; [reflexivity|].
    destruct s as [|d s]; [discriminate|].
    destruct (N.eqb_spec d 48) as [->|Hd].
    + injection H as <-. apply consumes_cons; [reflexivity | apply consumes_refl].
    + now apply consumes_digits1.
  - destruct (N.eqb_spec u 48) as [->|Hd].
    + intros [= <-]. apply consumes_cons; [reflexivity | apply consumes_refl].
    + apply consumes_digits1.
Qed.

Lemma consumes_number_frac (s r : jsstring) : number_frac s = Some r -> consumes s r.
Proof.
  unfold number_frac. destruct s as [|u s]; [intros [= <-]; apply consumes_refl|].
  destruct (N.eqb_spec u 46) as [->|Hu].
  - intros H. apply consumes_cons; [reflexivity | now apply consumes_digits1].
  - intros [= <-]. apply consumes_refl.
Qed.

Lemma consumes_number_exp (s r : jsstring) : number_exp s = Some r -> consumes s r.
Proof.
  unfold number_exp. destruct s as [|u s]; [intros [= <-]; apply consumes_refl|].
  destruct ((u =? 101) || (u =? 69))%bool eqn:He.
  - assert (Hu : is_number_char u = true).
    { unfold is_number_char. apply orb_true_iff in He. destruct He as [-> | ->];
        rewrite ?orb_true_r; reflexivity. }
    destruct s as [|sg s]; [discriminate|].
    destruct ((sg =? 43) || (sg =? 45))%bool eqn:Hs.
    + intros H. apply consumes_cons; [exact Hu|].
      apply consumes_cons; [|now apply consumes_digits1].
      unfold is_number_char. apply orb_true_iff in Hs. destruct Hs as [-> | ->];
        rewrite ?orb_true_r; reflexivity.
    + intros H. apply consumes_cons; [exact Hu | now apply consumes_digits1].
  - intros [= <-]. apply consumes_refl.
Qed.

Lemma json_number_chars (token : jsstring) :
  is_json_number token = true ->
  forallb is_number_char token = true /\
  exists u tail, token = u :: tail /\ number_start u = true.
Proof.
  unfold is_json_number. intros H. split.
  - destruct (number_int token) as [s1|] eqn:H1; [|discriminate].
    destruct (number_frac s1) as [s2|] eqn:H2; [|discriminate].
    destruct (number_exp s2) as [[|? ?]|] eqn:H3; try discriminate.
    apply consumes_number_int in H1. apply consumes_number_frac in H2.
    apply consumes_number_exp in H3.
    destruct (consumes_trans _ _ _ (consumes_trans _ _ _ H1 H2) H3) as (p & -> & Hp).
    now rewrite app_nil_r.
  - destruct token as [|u tail]; [discriminate|]. exists u, tail. split; [reflexivity|].
    unfold number_int in H. unfold number_start.
    destruct (N.eqb_spec u 45) as [->|Hu]; [reflexivity|].
    destruct (N.eqb_spec u 48) as [->|Hd]; [reflexivity|].
    cbn [digits1] in H. destruct (is_digit u); [reflexivity | discriminate].
Qed.

Lemma number_start_cases (u : N) :
  number_start u = true -> (48 <= u <= 57) \/ u = 45.
Proof.
  unfold number_start, is_digit.
  rewrite orb_true_iff, andb_true_iff, !N.leb_le, N.eqb_eq. tauto.
Qed.

Lemma parse_literal_number (token rest : jsstring) :
  is_json_number token = true -> delimited rest = true ->
  parse_literal (token ++ rest) = Some (JNumber token, rest).
Proof.
  intros Hn Hr. destruct (json_number_chars token Hn) as (Hall & u & tail & -> & Hu).
  apply number_start_cases in Hu.
  unfold parse_literal.
  assert (Hne : forall c p, c <> u -> strip_prefix (c :: p) ((u :: tail) ++ rest) = None).
  { intros c p Hc. cbn [app strip_prefix]. apply N.eqb_neq in Hc. now rewrite Hc. }
  change (str "null") with [110; 117; 108; 108].
  change (str "true") with [116; 114; 117; 101].
  change (str "false") with [102; 97; 108; 115; 101].
  rewrite !Hne by lia.
  rewrite (span_exact is_number_char (u :: tail) rest Hall Hr), Hn. reflexivity.
Qed.

(** *** Values *)

Lemma value_start_cases (u : N) :
  value_start u = true ->
  48 <= u <= 57 \/ u = 45 \/ u = 110 \/ u = 116 \/ u = 102 \/ u = 34 \/ u = 91 \/ u = 123.
Proof.
  unfold value_start. rewrite !orb_true_iff, !N.eqb_eq.
  intros [[[[[[H|H]|H]|H]|H]|H]|H]; try tauto.
  apply number_start_cases in H. tauto.
Qed.

Lemma value_start_not_ws (u : N) : value_start u = true -> is_ws u = false.
Proof.
  intros H. apply value_start_cases in H. unfold is_ws.
  rewrite !orb_false_iff, !N.eqb_neq. lia.
Qed.

Lemma stringify_start (v : json) :
  well_formed v = true -> exists u tail, stringify v = u :: tail /\ value_start u = true.
Proof.
  destruct v as [|[|]|token|s|elems|members]; cbn [well_formed]; intros Hwf;
    try (do 2 eexists; split; reflexivity).
  destruct (json_number_chars token Hwf) as (_ & u & tail & -> & Hu).
  exists u, tail. split; [reflexivity|]. unfold value_start. now rewrite Hu.
Qed.

Lemma size_positive (v : json) : (1 <= size v)%nat.
Proof. destruct v; cbn [size]; lia. Qed.

Lemma parse_value_step (fuel : nat) (u : N) (tail : jsstring) :
  is_ws u = false ->
  parse_value (S fuel) (u :: tail) =
    if u =? 34 then
      match parse_string_body tail with
      | Some (body, r) => Some (JString body, r)
      | None => None
      end
    else if u =? 123 then
      match skip_ws tail with
      | c :: r => if c =? 125 then Some (JObject [], r)
                  else option_map (fun mr => (JObject (fst mr), snd mr)) (parse_members fuel tail)
      | [] => None
      end
    else if u =? 91 then
      match skip_ws tail with
      | c :: r => if c =? 93 then Some (JArray [], r)
                  else option_map (fun er => (JArray (fst er), snd er)) (parse_elements fuel tail)
      | [] => None
      end
    else parse_literal (u :: tail).
Proof. intros H. cbn [parse_value skip_ws]. rewrite H. reflexivity. Qed.

Lemma skip_ws_start (u : N) (tail : jsstring) : is_ws u = false -> skip_ws (u :: tail) = u :: tail.
Proof. intros H. cbn [skip_ws]. now rewrite H. Qed.

Lemma join_cons2 (sep p q : jsstring) (rest : list jsstring) :
  join sep (p :: q :: rest) = p ++ sep ++ join sep (q :: rest).
Proof. reflexivity. Qed.

Lemma elems_size_cons (v : json) (vs : list json) :
  elems_size (v :: vs) = (S (size v) + elems_size vs)%nat.
Proof. reflexivity. Qed.

Lemma members_size_cons (kv : jsstring * json) (ms : list (jsstring * json)) :
  members_size (kv :: ms) = (S (size (snd kv)) + members_size ms)%nat.
Proof. reflexivity. Qed.

Lemma reads_value_step (fuel : nat) :
  reads_elements fuel -> reads_members fuel -> reads_value (S fuel).
Proof.
  intros IHe IHm v rest Hwf Hsize Hrest.
  destruct v as [|[|]|token|s|[|e elems]|[|kv members]]; try reflexivity.
  - (* number *)
    cbn [well_formed stringify] in *.
    destruct (json_number_chars token Hwf) as (_ & u & tail & Htok & Hu).
    pose proof (number_start_cases u Hu) as Hcases.
    rewrite Htok at 1. cbn [app].
    rewrite parse_value_step
      by (apply value_start_not_ws; unfold value_start; now rewrite Hu).
    replace (u =? 34) with false by (symmetry; apply N.eqb_neq; lia).
    replace (u =? 123) with false by (symmetry; apply N.eqb_neq; lia).
    replace (u =? 91) with false by (symmetry; apply N.eqb_neq; lia).
    change (u :: tail ++ rest) with ((u :: tail) ++ rest). rewrite <- Htok.
    now apply parse_literal_number.
  - (* string *)
    cbn [stringify]. unfold quote. rewrite <- app_assoc. cbn [app].
    rewrite parse_value_step by reflexivity.
    change (34 =? 34) with true. cbv iota.
    change ([34] ++ rest) with (34 :: rest). now rewrite parse_quote.
  - (* non-empty array *)
    change (stringify (JArray (e :: elems)))
      with (91 :: join [44] (List.map stringify (e :: elems)) ++ [93]).
    cbn [app]. rewrite <- app_assoc. cbn [app].
    rewrite parse_value_step by reflexivity.
    change (91 =? 34) with false. change (91 =? 123) with false.
    change (91 =? 91) with true. cbv iota.
    cbn [well_formed] in Hwf. cbn [size] in Hsize. fold (elems_size (e :: elems)) in Hsize.
    rewrite (IHe e elems rest Hwf) by lia.
    assert (Hstart : exists u tail,
               join [44] (List.map stringify (e :: elems)) ++ 93 :: rest = u :: tail /\
               value_start u = true).
    { cbn [forallb] in Hwf. apply andb_true_iff in Hwf. destruct Hwf as [He _].
      destruct (stringify_start e He) as (u & tail & Hu & Hv).
      destruct elems as [|e' elems]; cbn [List.map]; [cbn [join]|rewrite join_cons2];
        rewrite Hu; cbn [app]; eauto. }
    destruct Hstart as (u & tail & -> & Hv).
    rewrite skip_ws_start by now apply value_start_not_ws.
    apply value_start_cases in Hv.
    replace (u =? 93) with false by (symmetry; apply N.eqb_neq; lia).
    reflexivity.
  - (* non-empty object *)
    change (stringify (JObject (kv :: members)))
      with (123 :: join [44] (List.map (member_text stringify) (kv :: members)) ++ [125]).
    cbn [app]. rewrite <- app_assoc. cbn [app].
    rewrite parse_value_step by reflexivity.
    change (123 =? 34) with false. change (123 =? 123) with true. cbv iota.
    cbn [well_formed] in Hwf. cbn [size] in Hsize.
    fold (members_size (kv :: members)) in Hsize.
    rewrite (IHm kv members rest Hwf) by lia.
    assert (Hstart : exists tail,
               join [44] (List.map (member_text stringify) (kv :: members)) ++ 125 :: rest
               = 34 :: tail).
    { destruct members as [|kv' members]; cbn [List.map]; [cbn [join]|rewrite join_cons2];
        unfold member_text at 1, quote; cbn [app]; eauto. }
    destruct Hstart as (tail & ->).
    rewrite skip_ws_start by reflexivity. reflexivity.
Qed.

Lemma reads_elements_step (fuel : nat) :
  reads_value fuel -> reads_elements fuel -> reads_elements (S fuel).
Proof.
  intros IHv IHe v vs rest Hwf Hsize.
  cbn [forallb] in Hwf. apply andb_true_iff in Hwf. destruct Hwf as [Hv Hvs].
  rewrite elems_size_cons in Hsize.
  cbn [parse_elements].
  destruct vs as [|v' vs].
  - cbn [List.map join].
    rewrite (IHv v (93 :: rest) Hv) by (try reflexivity; lia).
    reflexivity.
  - cbn [List.map]. rewrite join_cons2, <- !app_assoc. cbn [app].
    rewrite (IHv v (44 :: _) Hv) by (try reflexivity; lia).
    rewrite skip_ws_start by reflexivity.
    change (44 =? 93) with false. change (44 =? 44) with true. cbv iota.
    change (stringify v' :: List.map stringify vs) with (List.map stringify (v' :: vs)).
    rewrite (IHe v' vs rest Hvs) by lia.
    reflexivity.
Qed.

Lemma parse_members_step (fuel : nat) (tail : jsstring) :
  parse_members (S fuel) (34 :: tail) =
    match parse_string_body tail with
    | Some (key, r1) =>
      match skip_ws r1 with
      | colon :: r2 =>
        if colon =? 58 then
          match parse_value fuel r2 with
          | Some (v, r3) =>
            match skip_ws r3 with
            | c :: r4 =>
              if c =? 125 then Some ([(key, v)], r4)
              else if c =? 44 then
                match parse_members fuel r4 with
                | Some (ms, r5) => Some ((key, v) :: ms, r5)
                | None => None
                end
              else None
            | [] => None
            end
          | None => None
          end
        else None
      | [] => None
      end
    | None => None
    end.
Proof. reflexivity. Qed.

Lemma reads_members_step (fuel : nat) :
  reads_value fuel -> reads_members fuel -> reads_members (S fuel).
Proof.
  intros IHv IHm [key v] ms rest Hwf Hsize.
  cbn [forallb snd] in Hwf. apply andb_true_iff in Hwf. destruct Hwf as [Hv Hms].
  rewrite members_size_cons in Hsize. cbn [snd] in Hsize.
  assert (Hkey : forall tail,
             member_text stringify (key, v) ++ tail
             = 34 :: quote_units key ++ 34 :: 58 :: stringify v ++ tail).
  { intros tail. unfold member_text, quote. cbn [fst snd].
    change (str ":") with [58]. cbn [app]. rewrite <- !app_assoc. reflexivity. }
  destruct ms as [|kv' ms].
  - cbn [List.map join]. rewrite Hkey.
    rewrite parse_members_step, parse_quote. rewrite skip_ws_start by reflexivity.
    change (58 =? 58) with true. cbv iota.
    rewrite (IHv v (125 :: rest) Hv) by (try reflexivity; lia).
    reflexivity.
  - cbn [List.map]. rewrite join_cons2, <- !app_assoc, Hkey.
    rewrite parse_members_step, parse_quote. rewrite skip_ws_start by reflexivity.
    change (58 =? 58) with true. cbv iota. cbn [app].
    rewrite (IHv v (44 :: _) Hv) by (try reflexivity; lia).
    rewrite skip_ws_start by reflexivity.
    change (44 =? 125) with false. change (44 =? 44) with true. cbv iota.
    change (member_text stringify kv' :: List.map (member_text stringify) ms)
      with (List.map (member_text stringify) (kv' :: ms)).
    rewrite (IHm kv' ms rest Hms) by lia.
    reflexivity.
Qed.

Lemma reads_all (fuel : nat) : reads_value fuel /\ reads_elements fuel /\ reads_members fuel.
Proof.
  induction fuel as [|fuel (IHv & IHe & IHm)].
  - split; [|split].
    + intros v rest _ Hsize. pose proof (size_positive v). lia.
    + intros v vs rest _ Hsize. rewrite elems_size_cons in Hsize. lia.
    + intros kv ms rest _ Hsize. rewrite members_size_cons in Hsize. lia.
  - split; [|split].
    + now apply reads_value_step.
    + now apply reads_elements_step.
    + now apply reads_members_step.
Qed.

Lemma length_join_cons2 (sep p q : jsstring) (rest : list jsstring) :
  List.length (join sep (p :: q :: rest))
  = (List.length p + List.length sep + List.length (join sep (q :: rest)))%nat.
Proof. rewrite join_cons2, !length_app. lia. Qed.

Lemma size_bounded (n : nat) :
  forall v, (size v <= n)%nat -> well_formed v = true ->
  (size v <= List.length (stringify v))%nat.
Proof.
  induction n as [|n IH]; intros v Hn Hwf.
  - pose proof (size_positive v). lia.
  - destruct v as [|[|]|token|s|elems|members]; cbn [size] in *;
      try (cbn; lia).
    + cbn [well_formed stringify] in *.
      destruct (json_number_chars token Hwf) as (_ & u & tail & -> & _). cbn; lia.
    + change (stringify (JArray elems))
        with (91 :: join [44] (List.map stringify elems) ++ [93]).
      cbn [List.length]. rewrite length_app. cbn [List.length].
      fold (elems_size elems) in Hn |- *. cbn [well_formed] in Hwf.
      enough (elems_size elems <= List.length (join [44%N] (List.map stringify elems)) + 1)%nat
        by lia.
      assert (Hn' : (elems_size elems <= n)%nat) by lia. clear Hn.
      induction elems as [|e elems IHl]; [cbn; lia|].
      rewrite elems_size_cons in *. cbn [forallb] in Hwf.
      apply andb_true_iff in Hwf. destruct Hwf as [He Hwf].
      assert (Hse : (size e <= List.length (stringify e))%nat) by (apply IH; [lia | exact He]).
      destruct elems as [|e' elems].
      * cbn [List.map join]. change (elems_size []) with 0%nat. lia.
      * cbn [List.map]. rewrite length_join_cons2. cbn [List.length].
        specialize (IHl Hwf ltac:(lia)). cbn [List.map] in IHl. lia.
    + change (stringify (JObject members))
        with (123 :: join [44] (List.map (member_text stringify) members) ++ [125]).
      cbn [List.length]. rewrite length_app. cbn [List.length].
      fold (members_size members) in Hn |- *. cbn [well_formed] in Hwf.
      enough (members_size members
              <= List.length (join [44%N] (List.map (member_text stringify) members)) + 1)%nat
        by lia.
      assert (Hn' : (members_size members <= n)%nat) by lia. clear Hn.
      induction members as [|kv members IHl]; [cbn; lia|].
      rewrite members_size_cons in *. cbn [forallb] in Hwf.
      apply andb_true_iff in Hwf. destruct Hwf as [He Hwf].
      assert (Hse : (size (snd kv) <= List.length (member_text stringify kv))%nat).
      { unfold member_text. rewrite !length_app.
        specialize (IH (snd kv) ltac:(lia) He). lia. }
      destruct members as [|kv' members].
      * cbn [List.map join]. change (members_size []) with 0%nat. lia.
      * cbn [List.map]. rewrite length_join_cons2. cbn [List.length].
        specialize (IHl Hwf ltac:(lia)). cbn [List.map] in IHl. lia.
Qed.

(** Reading the text of a value gives the value back. *)
Theorem parse_stringify (v : json) :
  well_formed v = true -> parse (stringify v) = Some v.
Proof.
  intros Hwf. unfold parse.
  pose proof (size_bounded (size v) v (le_n _) Hwf) as Hsize.
  destruct (reads_all (S (List.length (stringify v)))) as (Hv & _ & _).
  specialize (Hv v [] Hwf ltac:(lia) eq_refl).
  rewrite app_nil_r in Hv. rewrite Hv. reflexivity.
Qed.

End JSONFacts.

(** ** Decimal strings of integers *)

Module DecimalText.
Import JSON.

Local Open Scope N_scope.

Lemma str_string_of_uint (d : Decimal.uint) :
  str (NilEmpty.string_of_uint d) = JSString.units_of_uint d.
Proof.
  induction d; cbn [NilEmpty.string_of_uint JSString.units_of_uint]; try reflexivity;
    unfold str in *; cbn [list_ascii_of_string List.map]; now rewrite IHd.
Qed.

Lemma units_all_digits (d : Decimal.uint) : forallb is_digit (JSString.units_of_uint d) = true.
Proof. induction d; cbn [JSString.units_of_uint forallb]; try reflexivity; now rewrite IHd. Qed.

Lemma drop_all_digits (s : jsstring) : forallb is_digit s = true -> drop_digits s = [].
Proof.
  intros H. unfold drop_digits.
  rewrite <- (app_nil_r s) at 1. now rewrite (JSONFacts.span_exact is_digit s []).
Qed.

Lemma digits_json_number (u : N) (s : jsstring) :
  is_digit u = true -> u <> 48 -> forallb is_digit s = true ->
  is_json_number (u :: s) = true.
Proof.
  intros Hu H48 Hs. unfold is_json_number, number_int.
  assert (H45 : u <> 45).
  { unfold is_digit in Hu. rewrite andb_true_iff, !N.leb_le in Hu. lia. }
  apply N.eqb_neq in H45, H48. rewrite H45, H48.
  cbn [digits1]. rewrite Hu, (drop_all_digits s Hs). reflexivity.
Qed.

(** A numeral without a leading zero, and the numeral 0, are JSON numbers. *)
Lemma uint_is_json_number (d : Decimal.uint) :
  Decimal.unorm d = d -> is_json_number (JSString.units_of_uint d) = true.
Proof.
  intros Hnorm.
  assert (Hd : d = Decimal.zero \/ (d <> Decimal.Nil /\ forall d', d <> Decimal.D0 d')).
  { unfold Decimal.unorm in Hnorm. destruct (Decimal.nzhead d) eqn:Hh;
      try (right; split; [intros ->; discriminate Hnorm |
                          intros d' ->; rewrite Hnorm in Hh;
                          now apply (DecimalFacts.nzhead_nonzero (Decimal.D0 d') d')]).
    left. now symmetry. }
  destruct Hd as [->|[Hnil Hd0]]; [reflexivity|].
  destruct d as [|d|d|d|d|d|d|d|d|d|d]; try contradiction;
    try (now contradiction (Hd0 d));
    cbn [JSString.units_of_uint];
    (apply digits_json_number; [reflexivity | discriminate | apply units_all_digits]).
Qed.

Lemma to_uint_is_json_number (p : positive) :
  is_json_number (str (NilZero.string_of_uint (Pos.to_uint p))) = true /\
  exists u tail, str (NilZero.string_of_uint (Pos.to_uint p)) = u :: tail /\ u <> 45.
Proof.
  pose proof (DecimalPos.Unsigned.to_of (Pos.to_uint p)) as Hnorm.
  rewrite DecimalPos.Unsigned.of_to in Hnorm. cbn [N.to_uint] in Hnorm.
  pose proof (DecimalPos.Unsigned.to_uint_nonnil p) as Hnil.
  assert (Hs : str (NilZero.string_of_uint (Pos.to_uint p)) = JSString.units_of_uint (Pos.to_uint p)).
  { rewrite <- str_string_of_uint. destruct (Pos.to_uint p); [contradiction | reflexivity ..]. }
  rewrite Hs. split; [apply uint_is_json_number; now symmetry|].
  destruct (Pos.to_uint p); [contradiction | ..]; cbn [JSString.units_of_uint];
    do 2 eexists; (split; [reflexivity | discriminate]).
Qed.

Lemma minus_json_number (u : N) (tail : jsstring) :
  u <> 45 -> is_json_number (u :: tail) = true -> is_json_number (45 :: u :: tail) = true.
Proof.
  intros Hu. apply N.eqb_neq in Hu.
  unfold is_json_number, number_int. change (45 =? 45) with true. cbv iota.
  now rewrite Hu.
Qed.

(** [String(n)] of an integer is a token of the number grammar. *)
Lemma of_Z_is_json_number (z : Z) : is_json_number (JSString.of_Z z) = true.
Proof.
  unfold JSString.of_Z. destruct z as [|p|p]; [reflexivity| |].
  - apply to_uint_is_json_number.
  - cbn [Z.to_int NilZero.string_of_int].
    destruct (to_uint_is_json_number p) as (Hn & u & tail & Hs & Hu).
    change (str (String "-" (NilZero.string_of_uint (Pos.to_uint p))))
      with (45 :: str (NilZero.string_of_uint (Pos.to_uint p))).
    rewrite Hs in *. now apply minus_json_number.
Qed.

End DecimalText.

(** ** JSON texts and decimal numbers as USVStrings *)

Module USVFacts.
Import JSON.

Local Open Scope N_scope.

Lemma hex_digit_plain (n : N) : n < 16 -> (hex_digit n <? 55296) = true.
Proof. intros Hn. unfold hex_digit. apply N.ltb_lt. destruct (n <? 10); lia. Qed.

Lemma unicode_escape_usv (u : N) :
  u < 65536 -> Form.toUSVString (unicode_escape u) = unicode_escape u.
Proof.
  intros Hu. apply usv_plain. unfold unicode_escape. cbn [forallb].
  rewrite !hex_digit_plain; [reflexivity | | | |].
  - apply N.mod_lt. discriminate.
  - apply N.mod_lt. discriminate.
  - apply N.mod_lt. discriminate.
  - apply N.Div0.div_lt_upper_bound. exact Hu.
Qed.

Lemma quote_unit_usv (u : N) :
  is_high_surrogate u = false -> is_low_surrogate u = false ->
  Form.toUSVString (quote_unit u) = quote_unit u.
Proof.
  intros Hh Hl. unfold quote_unit.
  repeat (match goal with |- context [if ?c then _ else _] => destruct c eqn:? end;
          [try reflexivity|]).
  - apply unicode_escape_usv. apply N.ltb_lt in Heqb6. lia.
  - rewrite toUSVString_other by exact Hh. now rewrite Hl.
Qed.

Lemma quote_units_usv (s : jsstring) :
  Form.toUSVString (quote_units s) = quote_units s.
Proof.
  induction s as [|u l rest Hu Hl IH|u rest Hu Hrest IH|u rest Hu IH] using surrogates_ind.
  - reflexivity.
  - cbn [quote_units]. rewrite Hu, Hl. rewrite toUSVString_pair by assumption.
    now rewrite IH.
  - assert (Hesc : Form.toUSVString (unicode_escape u) = unicode_escape u).
    { apply unicode_escape_usv.
      destruct (JSONFacts.surrogate_range u) as [H _]; [now rewrite Hu | exact H]. }
    cbn [quote_units]. rewrite Hu. destruct rest as [|l rest']; [exact Hesc|].
    rewrite Hrest. now apply usv_app.
  - cbn [quote_units]. rewrite Hu. destruct (is_low_surrogate u) eqn:Hl.
    + apply usv_app; [|exact IH]. apply unicode_escape_usv.
      destruct (JSONFacts.surrogate_range u) as [H _];
        [rewrite Hl; apply orb_true_r | exact H].
    + apply usv_app; [|exact IH]. now apply quote_unit_usv.
Qed.

Lemma quote_usv (s : jsstring) : Form.toUSVString (quote s) = quote s.
Proof.
  unfold quote. change (34 :: quote_units s) with ([34] ++ quote_units s).
  apply usv_app; [|reflexivity]. apply usv_app; [reflexivity|]. apply quote_units_usv.
Qed.

Lemma join_usv (sep : jsstring) (parts : list jsstring) :
  Form.toUSVString sep = sep ->
  Forall (fun p => Form.toUSVString p = p) parts ->
  Form.toUSVString (join sep parts) = join sep parts.
Proof.
  intros Hsep Hparts. induction Hparts as [|p parts Hp Hparts IH]; [reflexivity|].
  destruct parts as [|q parts]; [exact Hp|].
  change (join sep (p :: q :: parts)) with (p ++ sep ++ join sep (q :: parts)).
  apply usv_app; [exact Hp|]. apply usv_app; [exact Hsep | exact IH].
Qed.

Lemma number_char_plain (u : N) : is_number_char u = true -> (u <? 55296) = true.
Proof.
  unfold is_number_char, is_digit.
  rewrite !orb_true_iff, andb_true_iff, !N.leb_le, !N.eqb_eq, N.ltb_lt. lia.
Qed.

Lemma json_number_usv (token : jsstring) :
  is_json_number token = true -> Form.toUSVString token = token.
Proof.
  intros H. destruct (JSONFacts.json_number_chars token H) as [Hall _].
  apply usv_plain. rewrite forallb_forall in *.
  intros u Hin. apply number_char_plain, Hall, Hin.
Qed.

(** The text of a JSON value holds no unpaired surrogate: [URLSearchParams]
    stores it as it is. *)
Lemma stringify_usv :
  forall v, well_formed v = true -> Form.toUSVString (stringify v) = stringify v.
Proof.
  fix IH 1. intros v Hwf. destruct v as [|[|]|token|s|elems|members]; try reflexivity.
  - now apply json_number_usv.
  - apply quote_usv.
  - change (stringify (JArray elems))
      with ([91] ++ join [44] (List.map stringify elems) ++ [93]).
    apply usv_app; [reflexivity|]. apply usv_app; [|reflexivity].
    apply join_usv; [reflexivity|]. cbn [well_formed] in Hwf.
    induction elems as [|e elems IHl]; [constructor|].
    cbn [forallb] in Hwf. apply andb_true_iff in Hwf. destruct Hwf as [He Hwf].
    cbn [List.map]. constructor; [apply IH, He | apply IHl, Hwf].
  - change (stringify (JObject members))
      with ([123] ++ join [44] (List.map (member_text stringify) members) ++ [125]).
    apply usv_app; [reflexivity|]. apply usv_app; [|reflexivity].
    apply join_usv; [reflexivity|]. cbn [well_formed] in Hwf.
    induction members as [|kv members IHl]; [constructor|].
    cbn [forallb] in Hwf. apply andb_true_iff in Hwf. destruct Hwf as [He Hwf].
    cbn [List.map]. constructor; [|apply IHl, Hwf].
    unfold member_text. apply usv_app; [apply quote_usv|].
    apply usv_app; [reflexivity|]. destruct kv as [k e]. apply IH, He.
Qed.

Lemma of_Z_usv (z : Z) : Form.toUSVString (JSString.of_Z z) = JSString.of_Z z.
Proof. apply json_number_usv, DecimalText.of_Z_is_json_number. Qed.

End USVFacts.


(** ** The log record *)

Section LogRecord.

Variable Number_toString : Number -> jsstring.
Variable toFixed : Number -> Z -> jsstring.

Lemma json_of_meta_well_formed (m : Meta) :
  (Number.is_finite (confidence m) = true ->
   JSON.is_json_number (Number_toString (confidence m)) = true) ->
  JSON.well_formed (json_of_meta Number_toString m) = true.
Proof.
  intros Hc. unfold json_of_meta. cbn [JSON.well_formed].
  rewrite forallb_app. cbn [forallb snd JSON.well_formed].
  rewrite DecimalText.of_Z_is_json_number.
  unfold json_of_number.
  destruct (Number.is_finite (confidence m)); cbn [JSON.well_formed];
    [rewrite Hc by reflexivity|]; destruct (business_decision m); reflexivity.
Qed.

Lemma meta_text_parses (m : Meta) :
  (Number.is_finite (confidence m) = true ->
   JSON.is_json_number (Number_toString (confidence m)) = true) ->
  JSON.parse (Form.toUSVString (stringify_meta Number_toString (Some m)))
  = Some (json_of_meta Number_toString m).
Proof.
  intros Hc. cbn [stringify_meta].
  pose proof (json_of_meta_well_formed m Hc) as Hwf.
  rewrite (USVFacts.stringify_usv _ Hwf). now apply JSONFacts.parse_stringify.
Qed.

(** Every log record carries the chosen action code twice: as the field
    [action_taken] of the form, and as [business_decision] in the object
    that the text of the field [meta] denotes. *)
Lemma log_record_decision (env : Env) (text sentiment label : jsstring)
    (score : Number) (action : Action) :
  (Number.is_finite score = true -> JSON.is_json_number (Number_toString score) = true) ->
  let form := logAnalysis_form Number_toString toFixed env text sentiment label score action in
  Form.get form (str "action_taken") = Some (Form.toUSVString (actionCode action)) /\
  exists meta_text parsed,
    Form.get form (str "meta") = Some meta_text /\
    JSON.parse meta_text = Some parsed /\
    JSON.field (str "business_decision") parsed = Some (JSON.JString (actionCode action)).
Proof.
  intros Hscore form. subst form. unfold logAnalysis_form.
  rewrite sendLogSimple_form_action_taken, sendLogSimple_form_meta.
  unfold logAnalysis_payload. cbn [action_taken meta].
  rewrite string_or_some. split; [reflexivity|].
  do 2 eexists. split; [reflexivity|].
  split.
  - apply meta_text_parses. exact Hscore.
  - reflexivity.
Qed.

(** C6: the log record of the review "great", label POSITIVE, confidence
    0.99 and action ASK_REFERRAL has [action_taken] equal to ASK_REFERRAL,
    and its [meta] field is a JSON text whose parsed form has
    [business_decision] equal to ASK_REFERRAL. *)
Theorem great_review_record (env : Env) (sentiment : jsstring) :
  Number_toString (Number.of_decimal 99 100) = str "0.99" ->
  let form :=
    logAnalysis_form Number_toString toFixed env (str "great") sentiment (str "POSITIVE")
      (Number.of_decimal 99 100) ASK_REFERRAL in
  Form.get form (str "action_taken") = Some (str "ASK_REFERRAL") /\
  exists meta_text parsed,
    Form.get form (str "meta") = Some meta_text /\
    JSON.parse meta_text = Some parsed /\
    JSON.field (str "business_decision") parsed
    = Some (JSON.JString (str "ASK_REFERRAL")).
Proof.
  intros Hrender.
  apply (log_record_decision env (str "great") sentiment (str "POSITIVE")
           (Number.of_decimal 99 100) ASK_REFERRAL).
  intros _. rewrite Hrender. reflexivity.
Qed.

End LogRecord.

Lemma great_review_record_witness :
  let form :=
    logAnalysis_form (fun _ => str "0.99") (fun _ _ => str "99.0") sample_env
      (str "great") (str "positive") (str "POSITIVE") (Number.of_decimal 99 100) ASK_REFERRAL in
  Form.get form (str "action_taken") = Some (str "ASK_REFERRAL") /\
  exists meta_text parsed,
    Form.get form (str "meta") = Some meta_text /\
    JSON.parse meta_text = Some parsed /\
    JSON.field (str "business_decision") parsed
    = Some (JSON.JString (str "ASK_REFERRAL")).
Proof.
  exact (great_review_record (fun _ => str "0.99") (fun _ _ => str "99.0")
           sample_env (str "positive") eq_refl).
Defined.

(** ** Binary64 arithmetic: what subtraction from 1 computes *)

Module Binary64Facts.
Import Binary64.

Local Open Scope Z_scope.

Lemma digits_log2 (m : positive) : Zpos (digits2_pos m) = Z.log2 (Zpos m) + 1.
Proof.
  assert (H : forall p, digits2_pos p = Pos.size p) by (induction p; cbn; congruence).
  destruct m; cbn [digits2_pos Z.log2]; rewrite ?H; lia.
Qed.

Lemma digits_bounds (m : positive) :
  2 ^ (Zpos (digits2_pos m) - 1) <= Zpos m < 2 ^ Zpos (digits2_pos m).
Proof.
  rewrite digits_log2. replace (Z.log2 (Zpos m) + 1 - 1) with (Z.log2 (Zpos m)) by lia.
  replace (Z.log2 (Zpos m) + 1) with (Z.succ (Z.log2 (Zpos m))) by lia.
  apply Z.log2_spec. lia.
Qed.

Lemma log2_bounds (X d : Z) : 2 ^ (d - 1) <= X < 2 ^ d -> 0 < d -> Z.log2 X + 1 = d.
Proof.
  intros H Hd.
  assert (Z.log2 X = d - 1); [|lia].
  apply Z.log2_unique; [lia|]. now replace (Z.succ (d - 1)) with d by lia.
Qed.

Lemma pow2_pos (k : Z) : 0 <= k -> 0 < 2 ^ k.
Proof. intros. apply Z.pow_pos_nonneg; lia. Qed.

Lemma pow2_split (a b : Z) : 0 <= a -> 0 <= b -> 2 ^ (a + b) = 2 ^ a * 2 ^ b.
Proof. intros. now apply Z.pow_add_r. Qed.

Lemma pow2_le (a b : Z) : 0 <= a <= b -> 2 ^ a <= 2 ^ b.
Proof. intros. apply Z.pow_le_mono_r; lia. Qed.

Lemma log2_shift (X j : Z) : 0 < X -> 0 <= j -> Z.log2 (X * 2 ^ j) = Z.log2 X + j.
Proof. intros. rewrite Z.log2_mul_pow2 by lia. lia. Qed.

Lemma iter_xO (m p : positive) : Zpos (Pos.iter xO m p) = Zpos m * 2 ^ Zpos p.
Proof.
  induction p using Pos.peano_ind.
  - cbn [Pos.iter]. lia.
  - rewrite Pos.iter_succ, Pos2Z.inj_xO, IHp, Pos2Z.inj_succ, Z.pow_succ_r; lia.
Qed.

Lemma iter_pos_nat {A : Type} (f : A -> A) (p : positive) (x : A) :
  iter_pos f p x = Nat.iter (Pos.to_nat p) f x.
Proof.
  assert (Hc : forall n y, Nat.iter n f (f y) = f (Nat.iter n f y)).
  { induction n; intros y; simpl; [reflexivity | now rewrite IHn]. }
  revert x. induction p; intros x; cbn [iter_pos].
  - rewrite !IHp, Pos2Nat.inj_xI, <- Nat.iter_add, Hc.
    replace (S (2 * Pos.to_nat p)) with (S (Pos.to_nat p + Pos.to_nat p)) by lia.
    reflexivity.
  - rewrite !IHp, Pos2Nat.inj_xO, <- Nat.iter_add. f_equal. lia.
  - reflexivity.
Qed.

(** *** Shifting right with a round bit and a sticky bit *)

Lemma location_cases (rest k : Z) (r s : bool) :
  0 <= rest -> 0 <= k ->
  loc_of_shr_record (Build_shr_record 0 r s) = location rest k ->
  (r = false /\ s = false /\ rest = 0) \/
  (r = false /\ s = true /\ 0 < rest /\ 2 * rest < 2 ^ k) \/
  (r = true /\ s = false /\ 2 * rest = 2 ^ k) \/
  (r = true /\ s = true /\ 2 ^ k < 2 * rest).
Proof.
  intros Hrest Hk. unfold location.
  destruct (Z.eqb_spec rest 0) as [->|Hne].
  - destruct r, s; cbn [loc_of_shr_record]; try discriminate. tauto.
  - destruct (Z.compare_spec (2 * rest) (2 ^ k)) as [H|H|H];
      destruct r, s; cbn [loc_of_shr_record]; try discriminate; intros _.
    + do 2 right. left. tauto.
    + right. left. repeat split; lia.
    + do 3 right. repeat split; lia.
Qed.

Lemma loc_of_shr_record_m (m m' : Z) (r s : bool) :
  loc_of_shr_record (Build_shr_record m r s) = loc_of_shr_record (Build_shr_record m' r s).
Proof. reflexivity. Qed.

Lemma shr_1_spec (q : Z) (r s : bool) (rest k : Z) :
  0 <= q -> 0 <= k -> 0 <= rest < 2 ^ k ->
  loc_of_shr_record (Build_shr_record q r s) = location rest k ->
  shr_m (shr_1 (Build_shr_record q r s)) = q / 2 /\
  loc_of_shr_record (shr_1 (Build_shr_record q r s))
  = location (rest + (q mod 2) * 2 ^ k) (k + 1).
Proof.
  intros Hq Hk Hrest Hloc.
  rewrite (loc_of_shr_record_m q 0) in Hloc.
  apply location_cases in Hloc; [|lia|lia].
  pose proof (pow2_pos k Hk) as Hp.
  assert (Hp1 : 2 ^ (k + 1) = 2 * 2 ^ k) by (rewrite pow2_split by lia; lia).
  assert (Hshape : exists b, (b = 0 \/ b = 1) /\ q mod 2 = b /\
            shr_1 (Build_shr_record q r s)
            = Build_shr_record (q / 2) (if b =? 0 then false else true) (r || s)).
  { destruct q as [|[p|p|]|p]; try lia; cbn [shr_1].
    - exists 0. repeat split; auto.
    - exists 1. rewrite Pos2Z.inj_xI. repeat split; auto.
      + rewrite Z.add_comm, Z.mul_comm, Z.mod_add by lia. reflexivity.
      + do 2 f_equal. apply (Z.div_unique _ _ _ 1); lia.
    - exists 0. rewrite Pos2Z.inj_xO. repeat split; auto.
      + rewrite Z.mul_comm, Z.mod_mul by lia. reflexivity.
      + do 2 f_equal. symmetry. rewrite Z.mul_comm. apply Z.div_mul. lia.
    - exists 1. repeat split; auto. }
  destruct Hshape as (b & Hb & Hmod & ->). rewrite Hmod. cbn [shr_m].
  split; [reflexivity|]. unfold location. rewrite Hp1.
  destruct Hb as [-> | ->]; cbn [Z.eqb]; rewrite ?Z.mul_0_l, ?Z.mul_1_l, ?Z.add_0_r;
    destruct Hloc as [(-> & -> & ->) | [(-> & -> & H1 & H2) | [(-> & -> & H1) | (-> & -> & H1)]]];
    cbn [orb loc_of_shr_record].
  - reflexivity.
  - destruct (Z.eqb_spec rest 0); [lia|]. f_equal. symmetry. apply Z.compare_lt_iff. lia.
  - destruct (Z.eqb_spec rest 0); [lia|]. f_equal. symmetry. apply Z.compare_lt_iff. lia.
  - destruct (Z.eqb_spec rest 0); [lia|]. f_equal. symmetry. apply Z.compare_lt_iff. lia.
  - destruct (Z.eqb_spec (0 + 2 ^ k) 0); [lia|]. f_equal. symmetry.
    apply Z.compare_eq_iff. lia.
  - destruct (Z.eqb_spec (rest + 2 ^ k) 0); [lia|]. f_equal. symmetry.
    apply Z.compare_gt_iff. lia.
  - destruct (Z.eqb_spec (rest + 2 ^ k) 0); [lia|]. f_equal. symmetry.
    apply Z.compare_gt_iff. lia.
  - destruct (Z.eqb_spec (rest + 2 ^ k) 0); [lia|]. f_equal. symmetry.
    apply Z.compare_gt_iff. lia.
Qed.

Lemma shr_iter (M : Z) (n : nat) :
  0 <= M ->
  shr_m (Nat.iter n shr_1 (Build_shr_record M false false)) = M / 2 ^ Z.of_nat n /\
  loc_of_shr_record (Nat.iter n shr_1 (Build_shr_record M false false))
  = location (M mod 2 ^ Z.of_nat n) (Z.of_nat n).
Proof.
  intros HM. induction n as [|n [IHm IHl]].
  - cbn [Nat.iter nat_rect Z.of_nat shr_m loc_of_shr_record].
    change (2 ^ 0) with 1. rewrite Z.div_1_r, Z.mod_1_r. split; reflexivity.
  - change (Nat.iter (S n) shr_1 (Build_shr_record M false false))
      with (shr_1 (Nat.iter n shr_1 (Build_shr_record M false false))).
    destruct (Nat.iter n shr_1 (Build_shr_record M false false)) as [q r s].
    cbn [shr_m] in IHm.
    pose proof (pow2_pos (Z.of_nat n) (Nat2Z.is_nonneg n)) as Hp.
    assert (Hq : 0 <= q) by (subst q; apply Z.div_pos; lia).
    destruct (shr_1_spec q r s (M mod 2 ^ Z.of_nat n) (Z.of_nat n) Hq
                (Nat2Z.is_nonneg n) (Z.mod_pos_bound M _ Hp) IHl) as [Hm Hl].
    rewrite Hm, Hl, Nat2Z.inj_succ.
    replace (Z.succ (Z.of_nat n)) with (Z.of_nat n + 1) by lia.
    rewrite pow2_split by lia. change (2 ^ 1) with 2.
    split.
    + subst q. rewrite Z.div_div by lia. reflexivity.
    + f_equal. subst q. rewrite Z.rem_mul_r by lia. lia.
Qed.

(** [shr] by [n] bits: the quotient, and where the remainder lies. *)
Lemma shr_spec (M e n : Z) :
  0 <= M -> 0 < n ->
  snd (shr (Build_shr_record M false false) e n) = e + n /\
  shr_m (fst (shr (Build_shr_record M false false) e n)) = M / 2 ^ n /\
  loc_of_shr_record (fst (shr (Build_shr_record M false false) e n))
  = location (M mod 2 ^ n) n.
Proof.
  intros HM Hn. destruct n as [|p|p]; try lia.
  cbn [shr fst snd]. rewrite iter_pos_nat.
  destruct (shr_iter M (Pos.to_nat p) HM) as [Hm Hl].
  rewrite positive_nat_Z in Hm, Hl. auto.
Qed.

(** *** Rounding a mantissa and an exponent to the format *)

Lemma fexp_eq (x : Z) : fexp Number.prec Number.emax x = Z.max (x - 53) emin.
Proof. reflexivity. Qed.

Lemma Zdigits2_log2 (m : positive) : Zdigits2 (Zpos m) = Z.log2 (Zpos m) + 1.
Proof. cbn [Zdigits2]. apply digits_log2. Qed.

Lemma bounded_iff (m : positive) (e : Z) :
  bounded Number.prec Number.emax m e = true <->
  Z.max (Z.log2 (Zpos m) + 1 + e - 53) emin = e /\ e <= 971.
Proof.
  unfold bounded, canonical_mantissa. rewrite fexp_eq, digits_log2.
  rewrite andb_true_iff, Z.eqb_eq, Z.leb_le. reflexivity.
Qed.

(** A mantissa that is already in place is kept. *)
Lemma binary_round_aux_exact (s : bool) (m : positive) (e : Z) :
  Z.max (Z.log2 (Zpos m) + 1 + e - 53) emin = e ->
  binary_round_aux Number.prec Number.emax s (Zpos m) e loc_Exact
  = if e <=? 971 then S754_finite s m e else S754_infinity s.
Proof.
  intros Hcanon. unfold binary_round_aux, shr_fexp.
  rewrite Zdigits2_log2, fexp_eq, Hcanon, Z.sub_diag.
  cbn [shr_record_of_loc shr shr_m loc_of_shr_record round_nearest_even].
  rewrite Zdigits2_log2, fexp_eq, Hcanon, Z.sub_diag.
  cbn [shr_record_of_loc shr shr_m]. reflexivity.
Qed.

Lemma round_nearest_even_cases (q : Z) (l : SpecFloat.location) :
  round_nearest_even q l = q \/ round_nearest_even q l = q + 1.
Proof.
  destruct l as [|[| |]]; cbn [round_nearest_even]; auto.
  destruct (Z.even q); auto.
Qed.

Lemma location_scale (rest n j : Z) :
  0 <= n -> 0 <= j -> location (rest * 2 ^ j) (n + j) = location rest n.
Proof.
  intros Hn Hj. unfold location. pose proof (pow2_pos j Hj) as Hp.
  rewrite pow2_split by lia.
  destruct (Z.eqb_spec rest 0) as [->|Hne].
  - reflexivity.
  - destruct (Z.eqb_spec (rest * 2 ^ j) 0) as [H0|_]; [nia|].
    f_equal. rewrite Z.mul_assoc. symmetry. apply Zmult_compare_compat_r. lia.
Qed.

Lemma pow2_lt_inv (a b : Z) : 0 <= a -> 0 <= b -> 2 ^ a < 2 ^ b -> a < b.
Proof. intros Ha Hb H. apply (Z.pow_lt_mono_r_iff 2); lia. Qed.

(** A mantissa of more than 53 bits is cut to 53 bits and rounded; when the
    rounding carries into a 54th bit the exponent moves up by one. *)
Lemma binary_round_aux_round (s : bool) (m : positive) (e : Z) :
  let n := Z.log2 (Zpos m) + 1 - 53 in
  let m1 := round_nearest_even (Zpos m / 2 ^ n) (location (Zpos m mod 2 ^ n) n) in
  0 < n -> emin <= e ->
  m1 * 2 ^ (e + n - emin) < overflow ->
  exists m' e',
    binary_round_aux Number.prec Number.emax s (Zpos m) e loc_Exact = S754_finite s m' e' /\
    bounded Number.prec Number.emax m' e' = true /\
    Zpos m' * 2 ^ (e' - emin) = m1 * 2 ^ (e + n - emin).
Proof.
  intros n m1 Hn He Hover.
  pose proof (digits_bounds m) as Hd. rewrite digits_log2 in Hd.
  replace (Z.log2 (Zpos m) + 1) with (n + 53) in Hd by (unfold n; lia).
  replace (n + 53 - 1) with (52 + n) in Hd by lia.
  rewrite !pow2_split in Hd by lia. rewrite (Z.mul_comm (2 ^ n)) in Hd.
  pose proof (pow2_pos n ltac:(lia)) as Hpn.
  assert (Hq : 2 ^ 52 <= Zpos m / 2 ^ n < 2 ^ 53).
  { split; [apply Z.div_le_lower_bound | apply Z.div_lt_upper_bound]; lia. }
  assert (Hm1 : 2 ^ 52 <= m1 <= 2 ^ 53).
  { unfold m1. destruct (round_nearest_even_cases (Zpos m / 2 ^ n)
                           (location (Zpos m mod 2 ^ n) n)) as [-> | ->]; lia. }
  assert (Hemin : emin = -1074) by reflexivity.
  assert (Hk : e + n < 972 /\ (m1 = 2 ^ 53 -> e + n < 971)).
  { unfold overflow in Hover.
    pose proof (pow2_pos (e + n - emin) ltac:(lia)) as Hp.
    split.
    - assert (H : 2 ^ (52 + (e + n - emin)) < 2 ^ 2098)
        by (rewrite pow2_split by lia; nia).
      apply pow2_lt_inv in H; lia.
    - intros Heq. rewrite Heq in Hover.
      assert (H : 2 ^ (53 + (e + n - emin)) < 2 ^ 2098)
        by (rewrite pow2_split by lia; lia).
      apply pow2_lt_inv in H; lia. }
  unfold binary_round_aux, shr_fexp.
  rewrite Zdigits2_log2, fexp_eq.
  replace (Z.max (Z.log2 (Zpos m) + 1 + e - 53) emin - e) with n by (unfold n; lia).
  cbn [shr_record_of_loc].
  destruct (shr_spec (Zpos m) e n ltac:(lia) Hn) as (He' & Hm & Hl).
  destruct (shr (Build_shr_record (Zpos m) false false) e n) as [mrs' e'].
  cbn [fst snd] in He', Hm, Hl. subst e'. rewrite Hm, Hl. fold m1.
  destruct (Z.eq_dec m1 (2 ^ 53)) as [Heq|Hne].
  - rewrite Heq. exists 4503599627370496%positive, (e + n + 1).
    change (Zdigits2 (2 ^ 53)) with 54. rewrite fexp_eq.
    replace (Z.max (54 + (e + n) - 53) emin - (e + n)) with 1 by lia.
    cbn [shr iter_pos]. change (2 ^ 53) with 9007199254740992.
    cbn [shr_1 shr_m].
    replace (e + n + 1 <=? Number.emax - Number.prec) with true
      by (symmetry; apply Z.leb_le; change (Number.emax - Number.prec) with 971; lia).
    split; [reflexivity|]. split.
    + apply bounded_iff. change (Z.log2 (Zpos 4503599627370496)) with 52. lia.
    + replace (e + n + 1 - emin) with (1 + (e + n - emin)) by lia.
      rewrite pow2_split by lia. change (2 ^ 1) with 2.
      change (Zpos 4503599627370496) with (2 ^ 52). lia.
  - assert (Hlt : 2 ^ 52 <= m1 < 2 ^ 53) by lia.
    destruct m1 as [|p|p] eqn:Hp; try lia.
    exists p, (e + n).
    assert (Hlog : Z.log2 (Zpos p) + 1 = 53) by (apply log2_bounds; lia).
    rewrite Zdigits2_log2, fexp_eq, Hlog.
    replace (Z.max (53 + (e + n) - 53) emin - (e + n)) with 0 by lia.
    cbn [shr shr_m].
    replace (e + n <=? Number.emax - Number.prec) with true
      by (symmetry; apply Z.leb_le; change (Number.emax - Number.prec) with 971; lia).
    split; [reflexivity|]. split; [|reflexivity].
    apply bounded_iff. lia.
Qed.

Lemma shl_align_spec (m : positive) (e t : Z) :
  t <= e ->
  exists mz, shl_align m e t = (mz, t) /\ Zpos mz = Zpos m * 2 ^ (e - t).
Proof.
  intros Ht. unfold shl_align. destruct (t - e) as [|p|p] eqn:Hte; try lia.
  - exists m. replace t with e by lia. rewrite Z.sub_diag. split; [reflexivity | lia].
  - exists (Pos.iter xO m p). split; [reflexivity|].
    rewrite iter_xO. f_equal. f_equal. lia.
Qed.

Lemma shl_align_none (m : positive) (e t : Z) : e < t -> shl_align m e t = (m, e).
Proof. intros Ht. unfold shl_align. destruct (t - e) eqn:Hte; try lia; reflexivity. Qed.

Lemma cut_scaled (m : positive) (j : Z) :
  0 <= j -> cut (Zpos m * 2 ^ j) = Z.max (Z.log2 (Zpos m) + 1 + j - 53) 0.
Proof. intros Hj. unfold cut. rewrite log2_shift by lia. f_equal. lia. Qed.

Lemma round_pos_exact (X k : Z) : cut (X * 2 ^ k) = k -> round_pos (X * 2 ^ k) = X * 2 ^ k.
Proof.
  intros Hk. unfold round_pos. rewrite Hk.
  assert (0 <= k) by (unfold cut in Hk; lia).
  pose proof (pow2_pos k ltac:(lia)).
  rewrite Z.div_mul, Z.mod_mul by lia. reflexivity.
Qed.

(** What [binary_round] computes, in scaled values. *)
Lemma binary_round_correct (s : bool) (m : positive) (e : Z) :
  emin <= e ->
  round_pos (Zpos m * 2 ^ (e - emin)) < overflow ->
  exists m' e',
    binary_round Number.prec Number.emax s m e = S754_finite s m' e' /\
    bounded Number.prec Number.emax m' e' = true /\
    Zpos m' * 2 ^ (e' - emin) = round_pos (Zpos m * 2 ^ (e - emin)).
Proof.
  intros He Hover. assert (Hemin : emin = -1074) by reflexivity.
  pose proof (Z.log2_nonneg (Zpos m)) as Hlog.
  unfold binary_round. rewrite digits_log2, fexp_eq.
  set (d := Z.log2 (Zpos m) + 1) in *.
  destruct (Z.le_gt_cases d 53) as [Hd|Hd].
  - (* at most 53 bits: the value is representable *)
    set (t := Z.max (d + e - 53) emin).
    destruct (shl_align_spec m e t ltac:(lia)) as (mz & -> & Hmz).
    assert (Hlz : Z.log2 (Zpos mz) + 1 = d + (e - t))
      by (rewrite Hmz, log2_shift by lia; unfold d; lia).
    assert (HX : Zpos m * 2 ^ (e - emin) = Zpos mz * 2 ^ (t - emin)).
    { rewrite Hmz, <- Z.mul_assoc, <- pow2_split by lia. do 2 f_equal. lia. }
    rewrite HX in *.
    rewrite round_pos_exact in *
      by (rewrite cut_scaled by lia; rewrite Hlz; lia).
    rewrite binary_round_aux_exact by (rewrite Hlz; lia).
    assert (Ht : t <= 971).
    { destruct (Z.le_gt_cases t 971) as [H|H]; [exact H|exfalso].
      assert (Hlz' : Z.log2 (Zpos mz) = 52) by lia.
      pose proof (Z.log2_spec (Zpos mz) ltac:(lia)) as [Hlo _]. rewrite Hlz' in Hlo.
      unfold overflow in Hover.
      assert (H2 : 2 ^ 2098 <= 2 ^ 52 * 2 ^ (t - emin)).
      { rewrite <- pow2_split by lia. apply pow2_le. lia. }
      pose proof (pow2_pos (t - emin) ltac:(lia)). nia. }
    replace (t <=? 971) with true by (symmetry; apply Z.leb_le; exact Ht).
    exists mz, t. split; [reflexivity|]. split; [|reflexivity].
    apply bounded_iff. rewrite Hlz. lia.
  - (* more than 53 bits: rounding *)
    rewrite shl_align_none by lia.
    set (n := d - 53).
    set (m1 := round_nearest_even (Zpos m / 2 ^ n) (location (Zpos m mod 2 ^ n) n)).
    assert (HX : round_pos (Zpos m * 2 ^ (e - emin)) = m1 * 2 ^ (e + n - emin)).
    { unfold round_pos. rewrite cut_scaled by lia. fold d.
      replace (Z.max (d + (e - emin) - 53) 0) with (n + (e - emin)) by (unfold n; lia).
      pose proof (pow2_pos n ltac:(unfold n; lia)).
      pose proof (pow2_pos (e - emin) ltac:(lia)).
      rewrite (pow2_split n) by (unfold n; lia).
      rewrite Z.div_mul_cancel_r, Z.mul_mod_distr_r by lia.
      rewrite <- (pow2_split n) by (unfold n; lia).
      rewrite location_scale by (unfold n; lia).
      fold m1. do 2 f_equal. lia. }
    rewrite HX in *.
    apply (binary_round_aux_round s m e); [unfold d in *; lia | lia | exact Hover].
Qed.

(** *** Rounding is monotone *)

Lemma round_pos_at (X : Z) : round_pos X = round_at (cut X) X.
Proof. reflexivity. Qed.

Lemma round_location (q rest k : Z) :
  0 <= rest -> 0 <= k ->
  round_nearest_even q (location rest k)
  = if (2 ^ k <? 2 * rest) || ((2 * rest =? 2 ^ k) && Z.odd q) then q + 1 else q.
Proof.
  intros Hrest Hk. unfold location. pose proof (pow2_pos k Hk) as Hp.
  destruct (Z.eqb_spec rest 0) as [->|Hne].
  - cbn [round_nearest_even]. change (2 * 0) with 0.
    destruct (Z.ltb_spec (2 ^ k) 0); [lia|].
    destruct (Z.eqb_spec 0 (2 ^ k)); [lia|]. reflexivity.
  - destruct (Z.compare_spec (2 * rest) (2 ^ k)) as [H|H|H]; cbn [round_nearest_even].
    + destruct (Z.ltb_spec (2 ^ k) (2 * rest)); [lia|].
      destruct (Z.eqb_spec (2 * rest) (2 ^ k)); [|lia].
      cbn [orb andb]. rewrite <- Z.negb_even. destruct (Z.even q); reflexivity.
    + destruct (Z.ltb_spec (2 ^ k) (2 * rest)); [lia|].
      destruct (Z.eqb_spec (2 * rest) (2 ^ k)); [lia|]. reflexivity.
    + destruct (Z.ltb_spec (2 ^ k) (2 * rest)); [|lia]. reflexivity.
Qed.

Lemma round_at_bounds (k X : Z) :
  0 <= k -> 0 <= X -> X / 2 ^ k * 2 ^ k <= round_at k X <= (X / 2 ^ k + 1) * 2 ^ k.
Proof.
  intros Hk HX. unfold round_at. pose proof (pow2_pos k Hk) as Hp.
  destruct (round_nearest_even_cases (X / 2 ^ k) (location (X mod 2 ^ k) k)) as [-> | ->];
    nia.
Qed.

Lemma round_at_multiple (k X : Z) : 0 <= k -> round_at k (X * 2 ^ k) = X * 2 ^ k.
Proof.
  intros Hk. unfold round_at. pose proof (pow2_pos k Hk).
  rewrite Z.div_mul, Z.mod_mul by lia. reflexivity.
Qed.

Lemma round_at_mono (k X Y : Z) :
  0 <= k -> 0 <= X <= Y -> round_at k X <= round_at k Y.
Proof.
  intros Hk HXY. pose proof (pow2_pos k Hk) as Hp.
  pose proof (Z.div_le_mono X Y (2 ^ k) Hp ltac:(lia)) as Hq.
  destruct (Z.eq_dec (X / 2 ^ k) (Y / 2 ^ k)) as [Heq|Hne].
  - unfold round_at. rewrite <- Heq.
    pose proof (Z.mod_pos_bound X (2 ^ k) Hp) as HrX.
    pose proof (Z.mod_pos_bound Y (2 ^ k) Hp) as HrY.
    assert (Hr : X mod 2 ^ k <= Y mod 2 ^ k).
    { pose proof (Z.div_mod X (2 ^ k) ltac:(lia)).
      pose proof (Z.div_mod Y (2 ^ k) ltac:(lia)). nia. }
    rewrite !round_location by lia.
    apply Z.mul_le_mono_nonneg_r; [lia|].
    destruct (Z.ltb_spec (2 ^ k) (2 * (X mod 2 ^ k)));
      destruct (Z.ltb_spec (2 ^ k) (2 * (Y mod 2 ^ k)));
      destruct (Z.eqb_spec (2 * (X mod 2 ^ k)) (2 ^ k));
      destruct (Z.eqb_spec (2 * (Y mod 2 ^ k)) (2 ^ k));
      destruct (Z.odd (X / 2 ^ k)); cbn [orb andb]; lia.
  - pose proof (round_at_bounds k X Hk ltac:(lia)).
    pose proof (round_at_bounds k Y Hk ltac:(lia)). nia.
Qed.

Lemma cut_nonneg (X : Z) : 0 <= cut X.
Proof. unfold cut. lia. Qed.

Lemma cut_mono (X Y : Z) : X <= Y -> cut X <= cut Y.
Proof. intros H. unfold cut. pose proof (Z.log2_le_mono X Y H). lia. Qed.

Lemma below_next_power (X : Z) : 0 <= X -> X < 2 ^ (Z.log2 X + 1).
Proof.
  intros HX. destruct (Z.eq_dec X 0) as [->|Hne]; [reflexivity|].
  replace (Z.log2 X + 1) with (Z.succ (Z.log2 X)) by lia. apply Z.log2_spec. lia.
Qed.

Lemma power_multiple (a k : Z) : 0 <= k <= a -> 2 ^ a = 2 ^ (a - k) * 2 ^ k.
Proof. intros H. rewrite <- pow2_split by lia. f_equal. lia. Qed.

Lemma round_pos_mono (X Y : Z) : 0 <= X <= Y -> round_pos X <= round_pos Y.
Proof.
  intros HXY. rewrite !round_pos_at.
  pose proof (cut_mono X Y ltac:(lia)) as Hc.
  pose proof (cut_nonneg X) as HcX.
  destruct (Z.eq_dec (cut X) (cut Y)) as [Heq|Hne].
  - rewrite Heq. apply round_at_mono; [rewrite <- Heq|]; lia.
  - (* the cuts differ: a power of two separates the roundings *)
    pose proof (Z.log2_nonneg X) as HlX.
    assert (HdY : 53 < Z.log2 Y + 1 /\ Z.log2 X + 1 < Z.log2 Y + 1 /\
                  cut Y = Z.log2 Y + 1 - 53 /\ cut X <= Z.log2 X + 1)
      by (unfold cut in *; lia).
    remember (Z.log2 X + 1) as dX eqn:EdX. remember (Z.log2 Y + 1) as dY eqn:EdY.
    destruct HdY as (HdY & Hlt & HcY & HcX').
    assert (H1 : round_at (cut X) X <= 2 ^ dX).
    { rewrite (power_multiple dX (cut X)) by lia.
      rewrite <- (round_at_multiple (cut X) (2 ^ (dX - cut X))) by lia.
      apply round_at_mono; [lia|]. rewrite <- power_multiple by lia.
      pose proof (below_next_power X ltac:(lia)) as H. rewrite <- EdX in H. lia. }
    assert (H2 : 2 ^ (dY - 1) <= round_at (cut Y) Y).
    { rewrite (power_multiple (dY - 1) (cut Y)) by lia.
      rewrite <- (round_at_multiple (cut Y) (2 ^ (dY - 1 - cut Y))) by lia.
      apply round_at_mono; [lia|]. rewrite <- power_multiple by lia.
      assert (HY : 0 < Y).
      { destruct (Z.eq_dec Y 0) as [HY0|HY0]; [|lia].
        rewrite HY0 in EdY. cbn in EdY. lia. }
      pose proof (Z.log2_spec Y HY) as [Hlo _].
      replace (dY - 1) with (Z.log2 Y) by lia.
      pose proof (pow2_pos (Z.log2 Y) (Z.log2_nonneg Y)). lia. }
    pose proof (pow2_le dX (dY - 1) ltac:(lia)). lia.
Qed.

Lemma round_pos_nonneg (X : Z) : 0 <= X -> 0 <= round_pos X.
Proof.
  intros HX. rewrite round_pos_at.
  pose proof (round_at_bounds (cut X) X (cut_nonneg X) HX).
  pose proof (pow2_pos (cut X) (cut_nonneg X)).
  pose proof (Z.div_pos X (2 ^ cut X) HX ltac:(lia)). nia.
Qed.

Lemma round_scaled_mono (X Y : Z) : X <= Y -> round_scaled X <= round_scaled Y.
Proof.
  intros HXY.
  destruct X as [|x|x], Y as [|y|y]; cbn [round_scaled]; try lia.
  - apply round_pos_nonneg. lia.
  - apply (round_pos_mono (Zpos x) (Zpos y)). lia.
  - pose proof (round_pos_nonneg (- Zneg x) ltac:(lia)). lia.
  - pose proof (round_pos_nonneg (- Zneg x) ltac:(lia)).
    pose proof (round_pos_nonneg (Zpos y) ltac:(lia)). lia.
  - pose proof (round_pos_mono (- Zneg y) (- Zneg x) ltac:(lia)). lia.
Qed.

(** *** The order of doubles is the order of their scaled values *)

Lemma bounded_range (m : positive) (e : Z) :
  bounded Number.prec Number.emax m e = true ->
  emin <= e <= 971 /\ Zpos m < 2 ^ 53 /\ (emin < e -> 2 ^ 52 <= Zpos m).
Proof.
  intros H. apply bounded_iff in H. destruct H as [Hc He].
  pose proof (Z.log2_spec (Zpos m) ltac:(lia)) as [Hlo Hhi].
  pose proof (Z.log2_nonneg (Zpos m)) as Hlog.
  split; [lia|]. split.
  - assert (Hl : Z.succ (Z.log2 (Zpos m)) <= 53) by lia.
    pose proof (pow2_le (Z.succ (Z.log2 (Zpos m))) 53 ltac:(lia)). lia.
  - intros Hne. assert (Hl : Z.log2 (Zpos m) = 52) by lia. now rewrite Hl in Hlo.
Qed.

Lemma compare_mantissas (m1 m2 : positive) (e1 e2 : Z) :
  bounded Number.prec Number.emax m1 e1 = true ->
  bounded Number.prec Number.emax m2 e2 = true ->
  match e1 ?= e2 with
  | Lt => Lt
  | Gt => Gt
  | Eq => Pos.compare_cont Eq m1 m2
  end = (Zpos m1 * 2 ^ (e1 - emin) ?= Zpos m2 * 2 ^ (e2 - emin)).
Proof.
  intros H1 H2. apply bounded_range in H1, H2.
  destruct H1 as (He1 & Hm1 & Hn1), H2 as (He2 & Hm2 & Hn2).
  assert (Hstep : forall ma mb ea eb, emin <= ea < eb -> Zpos ma < 2 ^ 53 ->
            2 ^ 52 <= Zpos mb -> Zpos ma * 2 ^ (ea - emin) < Zpos mb * 2 ^ (eb - emin)).
  { intros ma mb ea eb Hab Ha Hb.
    replace (eb - emin) with ((eb - ea - 1) + 1 + (ea - emin)) by lia.
    rewrite !pow2_split by lia. change (2 ^ 1) with 2.
    pose proof (pow2_pos (ea - emin) ltac:(lia)) as HP.
    pose proof (pow2_pos (eb - ea - 1) ltac:(lia)) as HQ.
    change (2 ^ 53) with (2 * 2 ^ 52) in Ha.
    assert (HA : 0 < 2 ^ 52) by reflexivity.
    revert Ha Hb HP HQ HA.
    generalize (2 ^ 52) (2 ^ (ea - emin)) (2 ^ (eb - ea - 1)) (Zpos ma) (Zpos mb).
    intros A P Q a b Ha Hb HP HQ HA.
    assert (H1 : a * P < 2 * A * P) by nia.
    assert (H2 : 2 * A * P <= 2 * b * P) by nia.
    assert (H3 : 0 <= b * P) by nia.
    assert (H4 : 2 * b * P <= b * (Q * 2 * P)) by nia.
    lia. }
  destruct (Z.compare_spec e1 e2) as [Heq|Hlt|Hgt]; symmetry.
  - subst e2. rewrite <- Zmult_compare_compat_r
      by (pose proof (pow2_pos (e1 - emin) ltac:(lia)); lia).
    reflexivity.
  - apply Z.compare_lt_iff. apply Hstep; lia.
  - apply Z.compare_gt_iff. apply Hstep; lia.
Qed.

Lemma compare_scaled (x y : Number) :
  finite_double x -> finite_double y ->
  SFcompare x y = Some (scaled x ?= scaled y).
Proof.
  intros [Hvx Hfx] [Hvy Hfy].
  destruct x as [sx|sx| |sx mx ex], y as [sy|sy| |sy my ey]; try discriminate;
    cbn [SFcompare scaled]; unfold Number.is_double in *; cbn [valid_binary] in *.
  - reflexivity.
  - pose proof (pow2_pos (ey - emin) ltac:(apply bounded_range in Hvy; lia)).
    destruct sy; cbn [cond_Zopp]; f_equal; symmetry;
      [apply Z.compare_gt_iff | apply Z.compare_lt_iff]; lia.
  - pose proof (pow2_pos (ex - emin) ltac:(apply bounded_range in Hvx; lia)).
    destruct sx; cbn [cond_Zopp]; f_equal; symmetry;
      [apply Z.compare_lt_iff | apply Z.compare_gt_iff]; lia.
  - pose proof (pow2_pos (ex - emin) ltac:(apply bounded_range in Hvx; lia)).
    pose proof (pow2_pos (ey - emin) ltac:(apply bounded_range in Hvy; lia)).
    f_equal. destruct sx, sy; cbn [cond_Zopp].
    + rewrite Z.compare_opp. rewrite <- (compare_mantissas my mx ey ex Hvy Hvx).
      rewrite (Z.compare_antisym ex ey).
      destruct (ex ?= ey); cbn [CompOpp]; try reflexivity.
      fold (Pos.compare mx my). fold (Pos.compare my mx).
      now rewrite (Pos.compare_antisym mx my).
    + symmetry. apply Z.compare_lt_iff. lia.
    + symmetry. apply Z.compare_gt_iff. lia.
    + now apply compare_mantissas.
Qed.

Lemma leb_scaled (x y : Number) :
  finite_double x -> finite_double y ->
  Number.leb x y = true <-> scaled x <= scaled y.
Proof.
  intros Hx Hy. unfold Number.leb, SFleb. rewrite (compare_scaled x y Hx Hy).
  destruct (Z.compare_spec (scaled x) (scaled y)); split; intros; try lia; try reflexivity;
    discriminate.
Qed.

(** *** Subtraction from 1 *)

Lemma scaled_max_pos : 0 <= scaled_max.
Proof. vm_compute. discriminate. Qed.

Lemma scaled_bound (x : Number) : finite_double x -> - scaled_max <= scaled x <= scaled_max.
Proof.
  intros [Hv Hf]. pose proof scaled_max_pos as Hmax.
  destruct x as [sx|sx| |sx mx ex]; try discriminate; cbn [scaled]; [lia|].
  unfold Number.is_double in Hv. cbn [valid_binary] in Hv.
  apply bounded_range in Hv. destruct Hv as (He & Hm & _).
  assert (Hemin : emin = -1074) by reflexivity.
  pose proof (pow2_le (ex - emin) 2045 ltac:(lia)) as Hp.
  pose proof (pow2_pos (ex - emin) ltac:(lia)) as Hp0.
  assert (H : Zpos mx * 2 ^ (ex - emin) <= scaled_max).
  { unfold scaled_max. apply Z.mul_le_mono_nonneg; lia. }
  destruct sx; cbn [cond_Zopp]; lia.
Qed.

Lemma round_pos_no_overflow (X : Z) :
  0 <= X <= scaled_one + scaled_max -> round_pos X < overflow.
Proof.
  intros HX.
  pose proof (round_pos_mono X (scaled_one + scaled_max) HX) as H.
  assert (Hmax : round_pos (scaled_one + scaled_max) < overflow) by (vm_compute; reflexivity).
  lia.
Qed.

Lemma round_scaled_pos (X : Z) : 0 < X -> round_scaled X = round_pos X.
Proof. destruct X; try lia. reflexivity. Qed.

Lemma round_scaled_neg (X : Z) : X < 0 -> round_scaled X = - round_pos (- X).
Proof. destruct X; try lia. reflexivity. Qed.

(** What [binary_normalize] computes for a nonzero or zero integer at an
    exponent of the format. *)
Lemma binary_normalize_correct (D e : Z) :
  emin <= e ->
  - (scaled_one + scaled_max) <= D * 2 ^ (e - emin) <= scaled_one + scaled_max ->
  finite_double (binary_normalize Number.prec Number.emax D e false) /\
  scaled (binary_normalize Number.prec Number.emax D e false)
  = round_scaled (D * 2 ^ (e - emin)).
Proof.
  intros He HD. pose proof (pow2_pos (e - emin) ltac:(lia)) as Hp.
  destruct D as [|p|p]; cbn [binary_normalize].
  - split; [split; reflexivity | reflexivity].
  - destruct (binary_round_correct false p e He) as (m' & e' & -> & Hb & Hs).
    { apply round_pos_no_overflow. lia. }
    split; [split; [exact Hb | reflexivity]|].
    cbn [scaled cond_Zopp]. rewrite Hs. symmetry. apply round_scaled_pos. lia.
  - destruct (binary_round_correct true p e He) as (m' & e' & -> & Hb & Hs).
    { apply round_pos_no_overflow. lia. }
    split; [split; [exact Hb | reflexivity]|].
    cbn [scaled cond_Zopp]. rewrite Hs. symmetry.
    rewrite round_scaled_neg by lia. do 2 f_equal. lia.
Qed.

(** Subtracting a finite double from 1 gives the finite double that the
    exact difference rounds to. *)
Theorem sub_one_correct (c : Number) :
  finite_double c ->
  finite_double (Number.sub Number.one c) /\
  scaled (Number.sub Number.one c) = round_scaled (scaled_one - scaled c).
Proof.
  intros Hc. pose proof (scaled_bound c Hc) as Hbound. destruct Hc as [Hv Hf].
  destruct c as [s|s| |s m e]; try discriminate.
  - split; [split; reflexivity | vm_compute; reflexivity].
  - unfold Number.is_double in Hv. cbn [valid_binary] in Hv.
    pose proof (bounded_range m e Hv) as (He & _ & _).
    assert (Hemin : emin = -1074) by reflexivity.
    unfold Number.sub, Number.one. cbn [SFsub].
    set (ez := Z.min (-52) e).
    destruct (shl_align_spec 4503599627370496 (-52) ez ltac:(lia)) as (mo & -> & Hmo).
    destruct (shl_align_spec m e ez ltac:(lia)) as (mz & -> & Hmz).
    cbn [fst cond_Zopp].
    assert (Hone : Zpos mo * 2 ^ (ez - emin) = scaled_one).
    { rewrite Hmo. change (Zpos 4503599627370496) with (2 ^ 52).
      rewrite <- !pow2_split by lia. unfold scaled_one. f_equal. lia. }
    assert (Hsc : cond_Zopp s (Zpos mz) * 2 ^ (ez - emin)
                  = scaled (S754_finite s m e)).
    { cbn [scaled]. replace (e - emin) with ((e - ez) + (ez - emin)) by lia.
      rewrite pow2_split by lia.
      destruct s; cbn [cond_Zopp]; rewrite Hmz; ring. }
    assert (HD : (Zpos mo - cond_Zopp s (Zpos mz)) * 2 ^ (ez - emin)
                 = scaled_one - scaled (S754_finite s m e)).
    { rewrite Z.mul_sub_distr_r, Hone, Hsc. reflexivity. }
    rewrite <- HD.
    apply binary_normalize_correct; [lia|].
    rewrite HD. assert (0 < scaled_one) by reflexivity. lia.
Qed.

(** Subtraction from 1 reverses the order. *)
Lemma sub_one_antitone (a b : Number) :
  finite_double a -> finite_double b ->
  scaled a <= scaled b ->
  scaled (Number.sub Number.one b) <= scaled (Number.sub Number.one a).
Proof.
  intros Ha Hb Hab.
  destruct (sub_one_correct a Ha) as [_ ->]. destruct (sub_one_correct b Hb) as [_ ->].
  apply round_scaled_mono. lia.
Qed.

(** *** Neighbours in the order *)

Lemma above_neighbour (m0 : positive) (e0 : Z) (c : Number) :
  Number.is_finite c = true ->
  Number.leb c (S754_finite false m0 e0) = false ->
  Number.leb (S754_finite false (Pos.succ m0) e0) c = true.
Proof.
  intros Hf. unfold Number.leb, SFleb.
  destruct c as [s|s| |s m e]; try discriminate Hf; cbn [SFcompare].
  - intros Hx; discriminate Hx.
  - destruct s; [intros Hx; discriminate Hx|].
    rewrite (Z.compare_antisym e e0).
    destruct (e ?= e0); cbn [CompOpp]; try (intros Hx; discriminate Hx); try reflexivity.
    fold (Pos.compare m m0). fold (Pos.compare (Pos.succ m0) m).
    destruct (Pos.compare_spec m m0); try (intros Hx; discriminate Hx). intros _.
    destruct (Pos.compare_spec (Pos.succ m0) m); try reflexivity. exfalso. lia.
Qed.

Lemma below_neighbour (m0 : positive) (e0 : Z) (c : Number) :
  Number.is_finite c = true -> m0 <> 1%positive ->
  Number.leb (S754_finite false m0 e0) c = false ->
  Number.leb c (S754_finite false (Pos.pred m0) e0) = true.
Proof.
  intros Hf Hm0. unfold Number.leb, SFleb.
  destruct c as [s|s| |s m e]; try discriminate Hf; cbn [SFcompare].
  - reflexivity.
  - destruct s; [reflexivity|].
    rewrite (Z.compare_antisym e e0).
    destruct (e ?= e0); cbn [CompOpp]; try (intros Hx; discriminate Hx); try reflexivity.
    fold (Pos.compare m0 m). fold (Pos.compare m (Pos.pred m0)).
    destruct (Pos.compare_spec m0 m); try (intros Hx; discriminate Hx). intros _.
    destruct (Pos.compare_spec m (Pos.pred m0)); try reflexivity. exfalso. lia.
Qed.

Lemma in_unit_finite (c : Number) :
  Number.is_double c = true -> Number.in_unit c -> finite_double c.
Proof.
  intros Hv [H0 H1]. split; [exact Hv|].
  destruct c as [s|s| |s m e]; try reflexivity.
  - destruct s; [discriminate H0 | discriminate H1].
  - discriminate H0.
Qed.

Lemma finite_double_not_nan (x : Number) : finite_double x -> x <> S754_nan.
Proof. intros [_ Hf] ->. discriminate Hf. Qed.

(** *** The thresholds of the decision engine, seen through [1 - x] *)

Lemma there_and_back_mono (X Y : Z) : X <= Y -> there_and_back X <= there_and_back Y.
Proof.
  intros H. unfold there_and_back. apply round_scaled_mono.
  pose proof (round_scaled_mono (scaled_one - Y) (scaled_one - X) ltac:(lia)). lia.
Qed.

Lemma sub_one_twice (c : Number) :
  finite_double c ->
  finite_double (Number.sub Number.one (Number.sub Number.one c)) /\
  scaled (Number.sub Number.one (Number.sub Number.one c)) = there_and_back (scaled c).
Proof.
  intros Hc. destruct (sub_one_correct c Hc) as [Hr Hs].
  destruct (sub_one_correct _ Hr) as [Hr' Hs'].
  split; [exact Hr'|]. rewrite Hs', Hs. reflexivity.
Qed.

Lemma constants_finite :
  finite_double Number.lit_0_3 /\ finite_double Number.lit_0_3_plus /\
  finite_double succ_0_3_plus /\ finite_double Number.lit_0_4 /\
  finite_double succ_0_4 /\ finite_double pred_0_6 /\ finite_double Number.lit_0_6 /\
  finite_double pred_0_7 /\ finite_double Number.lit_0_7.
Proof. unfold finite_double. repeat split; vm_compute; reflexivity. Qed.

Lemma coupon_edge :
  round_scaled (scaled_one - scaled Number.lit_0_6) = scaled Number.lit_0_4 /\
  scaled Number.lit_0_4 < round_scaled (scaled_one - scaled pred_0_6).
Proof. split; vm_compute; reflexivity. Qed.

Lemma referral_edge :
  round_scaled (scaled_one - scaled Number.lit_0_3_plus) = scaled Number.lit_0_7 /\
  round_scaled (scaled_one - scaled succ_0_3_plus) < scaled Number.lit_0_7.
Proof. split; vm_compute; reflexivity. Qed.

Lemma there_and_back_edges :
  there_and_back (scaled Number.lit_0_4) = scaled Number.lit_0_4 /\
  scaled Number.lit_0_4 < there_and_back (scaled succ_0_4) /\
  there_and_back (scaled Number.lit_0_7) = scaled Number.lit_0_7 /\
  there_and_back (scaled pred_0_7) < scaled Number.lit_0_7.
Proof. split; [|split; [|split]]; vm_compute; reflexivity. Qed.

(** With the label NEGATIVE the coupon band is [confidence >= 0.6]. *)
Lemma coupon_band_negative (c : Number) :
  finite_double c ->
  Number.leb (Number.sub Number.one c) Number.lit_0_4 = true
  <-> Number.leb Number.lit_0_6 c = true.
Proof.
  intros Hc. destruct (sub_one_correct c Hc) as [Hr Hs].
  destruct constants_finite as (_ & _ & _ & H04 & _ & Hp06 & H06 & _ & _).
  destruct coupon_edge as [E1 E2].
  rewrite (leb_scaled _ _ Hr H04), Hs. split.
  - intros Hle. destruct (Number.leb Number.lit_0_6 c) eqn:H; [reflexivity|exfalso].
    apply (below_neighbour _ _ c (proj2 Hc)) in H; [|discriminate].
    apply (leb_scaled c pred_0_6 Hc Hp06) in H.
    pose proof (round_scaled_mono (scaled_one - scaled pred_0_6) (scaled_one - scaled c)
                  ltac:(lia)). lia.
  - intros Hle. apply (leb_scaled _ _ H06 Hc) in Hle.
    pose proof (round_scaled_mono (scaled_one - scaled c) (scaled_one - scaled Number.lit_0_6)
                  ltac:(lia)). lia.
Qed.

(** With the label NEGATIVE the referral band is
    [confidence <= 0.3000000000000001]. *)
Lemma referral_band_negative (c : Number) :
  finite_double c ->
  Number.leb Number.lit_0_7 (Number.sub Number.one c) = true
  <-> Number.leb c Number.lit_0_3_plus = true.
Proof.
  intros Hc. destruct (sub_one_correct c Hc) as [Hr Hs].
  destruct constants_finite as (_ & H03p & Hs03 & _ & _ & _ & _ & _ & H07).
  destruct referral_edge as [E1 E2].
  rewrite (leb_scaled _ _ H07 Hr), Hs. split.
  - intros Hle. destruct (Number.leb c Number.lit_0_3_plus) eqn:H; [reflexivity|exfalso].
    apply (above_neighbour _ _ c (proj2 Hc)) in H.
    apply (leb_scaled succ_0_3_plus c Hs03 Hc) in H.
    pose proof (round_scaled_mono (scaled_one - scaled c) (scaled_one - scaled succ_0_3_plus)
                  ltac:(lia)). lia.
  - intros Hle. apply (leb_scaled _ _ Hc H03p) in Hle.
    pose proof (round_scaled_mono (scaled_one - scaled Number.lit_0_3_plus)
                  (scaled_one - scaled c) ltac:(lia)). lia.
Qed.

(** Subtracting from 1 twice moves no double across a threshold. *)
Lemma thresholds_there_and_back (c : Number) :
  finite_double c ->
  Number.leb (Number.sub Number.one (Number.sub Number.one c)) Number.lit_0_4
  = Number.leb c Number.lit_0_4 /\
  Number.ltb (Number.sub Number.one (Number.sub Number.one c)) Number.lit_0_7
  = Number.ltb c Number.lit_0_7.
Proof.
  intros Hc. destruct (sub_one_twice c Hc) as [Hc' Hs].
  destruct constants_finite as (_ & _ & _ & H04 & Hs04 & _ & _ & Hp07 & H07).
  destruct there_and_back_edges as (E1 & E2 & E3 & E4).
  split.
  - apply eq_true_iff_eq. rewrite (leb_scaled _ _ Hc' H04), Hs. split.
    + intros Hle. destruct (Number.leb c Number.lit_0_4) eqn:H; [reflexivity|exfalso].
      apply (above_neighbour _ _ c (proj2 Hc)) in H.
      apply (leb_scaled succ_0_4 c Hs04 Hc) in H.
      pose proof (there_and_back_mono _ _ H). lia.
    + intros Hle. apply (leb_scaled _ _ Hc H04) in Hle.
      pose proof (there_and_back_mono _ _ Hle). lia.
  - rewrite !ltb_negb_leb
      by (rewrite compare_scaled by assumption; discriminate).
    f_equal. apply eq_true_iff_eq. rewrite (leb_scaled _ _ H07 Hc'), Hs. split.
    + intros Hle. destruct (Number.leb Number.lit_0_7 c) eqn:H; [reflexivity|exfalso].
      apply (below_neighbour _ _ c (proj2 Hc)) in H; [|discriminate].
      apply (leb_scaled c pred_0_7 Hc Hp07) in H.
      pose proof (there_and_back_mono _ _ H). lia.
    + intros Hle. apply (leb_scaled _ _ H07 Hc) in Hle.
      pose proof (there_and_back_mono _ _ Hle). lia.
Qed.

End Binary64Facts.

(** ** The decision engine on the label NEGATIVE *)

(** C2, as the code has it: for a double confidence in [0,1] and the label
    NEGATIVE, where the score is 1 - confidence rounded to the nearest
    double, the engine offers the coupon exactly when confidence >= 0.6,
    asks for a referral exactly when confidence <= 0.3000000000000001 (the
    second double above 0.3), hence whenever confidence <= 0.3, and
    requests feedback exactly in between. *)
Theorem negative_bands (confidence : Number) :
  Number.is_double confidence = true ->
  Number.in_unit confidence ->
  (determineBusinessAction confidence (str "NEGATIVE") = OFFER_COUPON
     <-> Number.leb Number.lit_0_6 confidence = true) /\
  (determineBusinessAction confidence (str "NEGATIVE") = ASK_REFERRAL
     <-> Number.leb confidence Number.lit_0_3_plus = true) /\
  (determineBusinessAction confidence (str "NEGATIVE") = REQUEST_FEEDBACK
     <-> Number.leb Number.lit_0_6 confidence = false /\
         Number.leb confidence Number.lit_0_3_plus = false) /\
  (Number.leb confidence Number.lit_0_3 = true ->
   determineBusinessAction confidence (str "NEGATIVE") = ASK_REFERRAL).
Proof.
  intros Hv Hu.
  pose proof (Binary64Facts.in_unit_finite confidence Hv Hu) as Hc.
  destruct (Binary64Facts.sub_one_correct confidence Hc) as [Hr _].
  unfold determineBusinessAction. rewrite normalizedScore_negative.
  destruct (applyThresholds_bands _ (Binary64Facts.finite_double_not_nan _ Hr))
    as (Hcoupon & Hreferral & Hfeedback).
  pose proof (Binary64Facts.coupon_band_negative confidence Hc) as E1.
  pose proof (Binary64Facts.referral_band_negative confidence Hc) as E2.
  assert (Hno : forall a b : bool, (a = true <-> b = true) -> (a = false <-> b = false)).
  { intros [|] [|] [H1 H2]; split; intros H; try reflexivity; try discriminate H;
      [discriminate (H1 eq_refl) | discriminate (H2 eq_refl)]. }
  split; [|split; [|split]].
  - rewrite Hcoupon. exact E1.
  - rewrite Hreferral. exact E2.
  - rewrite Hfeedback, (Hno _ _ E1), (Hno _ _ E2). reflexivity.
  - intros H03. apply Hreferral, E2.
    destruct Binary64Facts.constants_finite as (H03f & H03p & _).
    apply (Binary64Facts.leb_scaled _ _ Hc H03f) in H03.
    apply (Binary64Facts.leb_scaled _ _ Hc H03p).
    assert (Binary64.scaled Number.lit_0_3 <= Binary64.scaled Number.lit_0_3_plus)
      by (vm_compute; discriminate).
    lia.
Qed.

Lemma negative_bands_witness :
  determineBusinessAction (Number.of_decimal 55 100) (str "NEGATIVE") = REQUEST_FEEDBACK.
Proof.
  apply (proj1 (proj2 (proj2 (negative_bands (Number.of_decimal 55 100) eq_refl
                                (conj eq_refl eq_refl))))).
  split; vm_compute; reflexivity.
Defined.

(** ** Polarity symmetry *)

(** C9: for every double (finite or not) the engine gives the same action
    for [c] with the label POSITIVE and for [1 - c] with the label NEGATIVE.
    The two normalized scores, [c] and [1 - (1 - c)], may differ in the
    last bits, but never lie on different sides of a threshold. *)
Theorem polarity_symmetry (c : Number) :
  Number.is_double c = true ->
  determineBusinessAction c (str "POSITIVE")
  = determineBusinessAction (Number.sub Number.one c) (str "NEGATIVE").
Proof.
  intros Hv. unfold determineBusinessAction.
  rewrite normalizedScore_positive, normalizedScore_negative.
  destruct c as [s|s| |s m e] eqn:Hc.
  - destruct (Binary64Facts.thresholds_there_and_back (S754_zero s)) as [H4 H7];
      [split; [exact Hv | reflexivity]|].
    unfold applyThresholds. now rewrite H4, H7.
  - destruct s; vm_compute; reflexivity.
  - vm_compute; reflexivity.
  - destruct (Binary64Facts.thresholds_there_and_back (S754_finite s m e)) as [H4 H7];
      [split; [exact Hv | reflexivity]|].
    unfold applyThresholds. now rewrite H4, H7.
Qed.

(** The two scores themselves differ already for a confidence of 2^-60:
    [1 - (1 - c)] is 0 there. *)
Example scores_may_differ :
  let c := S754_finite false 4503599627370496 (-112) in
  Number.is_double c = true /\
  normalizedScore (Number.sub Number.one c) (str "NEGATIVE") = S754_zero false /\
  normalizedScore c (str "POSITIVE") = c.
Proof. repeat split. Qed.

Lemma polarity_symmetry_witness :
  determineBusinessAction (Number.of_decimal 4 10) (str "POSITIVE")
  = determineBusinessAction (Number.sub Number.one (Number.of_decimal 4 10)) (str "NEGATIVE").
Proof. exact (polarity_symmetry (Number.of_decimal 4 10) eq_refl). Defined.

(** * More of the page *)

(** ** The decision over all doubles *)

Module OrderFacts.
Import Binary64.

Lemma overflow_above_max : scaled_max < overflow.
Proof. vm_compute. reflexivity. Qed.

Lemma double_cases (x : Number) :
  Number.is_double x = true ->
  x = S754_nan \/ (exists s, x = S754_infinity s) \/ finite_double x.
Proof.
  intros Hv. destruct x as [s|s| |s m e].
  - right; right. split; [exact Hv | reflexivity].
  - right; left. now exists s.
  - now left.
  - right; right. split; [exact Hv | reflexivity].
Qed.

Lemma extended_finite (x : Number) : finite_double x -> extended x = scaled x.
Proof. intros [_ Hf]. destruct x; try discriminate Hf; reflexivity. Qed.

Lemma extended_finite_bounds (x : Number) :
  finite_double x -> - overflow < extended x < overflow.
Proof.
  intros Hx. rewrite (extended_finite x Hx).
  pose proof (Binary64Facts.scaled_bound x Hx). pose proof overflow_above_max. lia.
Qed.

Lemma overflow_pos : 0 < overflow.
Proof. vm_compute. reflexivity. Qed.

Lemma extended_bounds (x : Number) :
  Number.is_double x = true -> - overflow <= extended x <= overflow.
Proof.
  intros Hv. pose proof overflow_pos.
  destruct (double_cases x Hv) as [-> | [[s ->] | Hf]].
  - cbn [extended scaled]. lia.
  - destruct s; cbn [extended]; lia.
  - pose proof (extended_finite_bounds x Hf). lia.
Qed.

(** Comparison of doubles is comparison of their extended values. *)
Lemma compare_extended (x y : Number) :
  Number.is_double x = true -> Number.is_double y = true ->
  x <> S754_nan -> y <> S754_nan ->
  SFcompare x y = Some (extended x ?= extended y).
Proof.
  intros Hx Hy Nx Ny. pose proof overflow_pos as Hpos.
  destruct (double_cases x Hx) as [-> | [[s ->] | Fx]]; [congruence | |];
    (destruct (double_cases y Hy) as [-> | [[s' ->] | Fy]]; [congruence | |]).
  - destruct s, s'; cbn [SFcompare extended]; apply f_equal; symmetry;
      first [apply Z.compare_refl | apply Z.compare_lt_iff; lia
            | apply Z.compare_gt_iff; lia].
  - pose proof (extended_finite_bounds y Fy) as By.
    destruct Fy as [_ Fy].
    destruct y as [sy|sy| |sy my ey]; try discriminate Fy;
      destruct s; cbn [SFcompare]; apply f_equal; symmetry;
      change (extended (S754_infinity true)) with (- overflow);
      change (extended (S754_infinity false)) with overflow;
      first [apply Z.compare_lt_iff; lia | apply Z.compare_gt_iff; lia].
  - pose proof (extended_finite_bounds x Fx) as Bx.
    destruct Fx as [_ Fx].
    destruct x as [sx|sx| |sx mx ex]; try discriminate Fx;
      destruct s'; cbn [SFcompare]; apply f_equal; symmetry;
      change (extended (S754_infinity true)) with (- overflow);
      change (extended (S754_infinity false)) with overflow;
      first [apply Z.compare_lt_iff; lia | apply Z.compare_gt_iff; lia].
  - rewrite (extended_finite x Fx), (extended_finite y Fy).
    apply Binary64Facts.compare_scaled; assumption.
Qed.

Lemma leb_extended (x y : Number) :
  Number.is_double x = true -> Number.is_double y = true ->
  x <> S754_nan -> y <> S754_nan ->
  Number.leb x y = true <-> extended x <= extended y.
Proof.
  intros Hx Hy Nx Ny. unfold Number.leb, SFleb.
  rewrite (compare_extended x y Hx Hy Nx Ny).
  destruct (Z.compare_spec (extended x) (extended y)); split; intros H0;
    try reflexivity; try discriminate H0; lia.
Qed.

Lemma leb_not_nan (x y : Number) :
  Number.leb x y = true -> x <> S754_nan /\ y <> S754_nan.
Proof.
  unfold Number.leb, SFleb. intros H.
  split; intros ->; [|destruct x]; cbn [SFcompare] in H; discriminate H.
Qed.

(** [1 - c] of a double that is no NaN is again a double that is no NaN. *)
Lemma sub_one_double (c : Number) :
  Number.is_double c = true -> c <> S754_nan ->
  Number.is_double (Number.sub Number.one c) = true /\
  Number.sub Number.one c <> S754_nan.
Proof.
  intros Hv Hn.
  destruct (double_cases c Hv) as [-> | [[s ->] | Hf]]; [congruence | |].
  - destruct s; split; try reflexivity; discriminate.
  - destruct (Binary64Facts.sub_one_correct c Hf) as [Hd _].
    split; [apply Hd | apply Binary64Facts.finite_double_not_nan, Hd].
Qed.

(** Subtraction from 1 reverses the order, on all doubles that are no NaN. *)
Lemma sub_one_extended_antitone (a b : Number) :
  Number.is_double a = true -> Number.is_double b = true ->
  a <> S754_nan -> b <> S754_nan ->
  extended a <= extended b ->
  extended (Number.sub Number.one b) <= extended (Number.sub Number.one a).
Proof.
  intros Ha Hb Na Nb Hab. pose proof overflow_pos as Hpos.
  destruct (sub_one_double a Ha Na) as [Va _].
  destruct (sub_one_double b Hb Nb) as [Vb _].
  pose proof (extended_bounds _ Va) as Ba. pose proof (extended_bounds _ Vb) as Bb.
  destruct (double_cases a Ha) as [-> | [[s ->] | Fa]]; [congruence | |].
  - destruct s.
    + change (Number.sub Number.one (S754_infinity true)) with (S754_infinity false).
      change (extended (S754_infinity false)) with overflow. lia.
    + change (extended (S754_infinity false)) with overflow in Hab.
      destruct (double_cases b Hb) as [-> | [[s' ->] | Fb]]; [congruence | |].
      * destruct s'; [|lia].
        change (extended (S754_infinity true)) with (- overflow) in Hab. lia.
      * pose proof (extended_finite_bounds b Fb). lia.
  - destruct (double_cases b Hb) as [-> | [[s' ->] | Fb]]; [congruence | |].
    + destruct s'.
      * change (extended (S754_infinity true)) with (- overflow) in Hab.
        pose proof (extended_finite_bounds a Fa). lia.
      * change (Number.sub Number.one (S754_infinity false)) with (S754_infinity true).
        change (extended (S754_infinity true)) with (- overflow). lia.
    + destruct (Binary64Facts.sub_one_correct a Fa) as [Fa' _].
      destruct (Binary64Facts.sub_one_correct b Fb) as [Fb' _].
      rewrite (extended_finite _ Fa'), (extended_finite _ Fb').
      rewrite (extended_finite _ Fa), (extended_finite _ Fb) in Hab.
      apply Binary64Facts.sub_one_antitone; assumption.
Qed.

Lemma thresholds_double :
  Number.is_double Number.lit_0_4 = true /\ Number.is_double Number.lit_0_7 = true /\
  Number.lit_0_4 <> S754_nan /\ Number.lit_0_7 <> S754_nan.
Proof. split; [|split; [|split]]; try reflexivity; discriminate. Qed.

(** The thresholds respect the order of the scores. *)
Lemma thresholds_monotone (x y : Number) :
  Number.is_double x = true -> Number.is_double y = true ->
  x <> S754_nan -> y <> S754_nan ->
  extended x <= extended y ->
  (applyThresholds y = OFFER_COUPON -> applyThresholds x = OFFER_COUPON) /\
  (applyThresholds x = ASK_REFERRAL -> applyThresholds y = ASK_REFERRAL).
Proof.
  intros Hx Hy Nx Ny Hxy.
  destruct thresholds_double as (V4 & V7 & N4 & N7).
  destruct (applyThresholds_bands x Nx) as (Cx & Rx & _).
  destruct (applyThresholds_bands y Ny) as (Cy & Ry & _).
  split; intros H.
  - apply Cx. apply Cy in H.
    apply (leb_extended _ _ Hy V4 Ny N4) in H.
    apply (leb_extended _ _ Hx V4 Nx N4). lia.
  - apply Ry. apply Rx in H.
    apply (leb_extended _ _ V7 Hx N7 Nx) in H.
    apply (leb_extended _ _ V7 Hy N7 Ny). lia.
Qed.

Lemma positive_monotone (a b : Number) :
  Number.is_double a = true -> Number.is_double b = true ->
  Number.leb a b = true ->
  (determineBusinessAction b (str "POSITIVE") = OFFER_COUPON ->
   determineBusinessAction a (str "POSITIVE") = OFFER_COUPON) /\
  (determineBusinessAction a (str "POSITIVE") = ASK_REFERRAL ->
   determineBusinessAction b (str "POSITIVE") = ASK_REFERRAL).
Proof.
  intros Ha Hb Hab. destruct (leb_not_nan a b Hab) as [Na Nb].
  unfold determineBusinessAction. rewrite !normalizedScore_positive.
  apply thresholds_monotone; try assumption.
  now apply leb_extended.
Qed.

Lemma negative_antitone (a b : Number) :
  Number.is_double a = true -> Number.is_double b = true ->
  Number.leb a b = true ->
  (determineBusinessAction a (str "NEGATIVE") = OFFER_COUPON ->
   determineBusinessAction b (str "NEGATIVE") = OFFER_COUPON) /\
  (determineBusinessAction b (str "NEGATIVE") = ASK_REFERRAL ->
   determineBusinessAction a (str "NEGATIVE") = ASK_REFERRAL).
Proof.
  intros Ha Hb Hab. destruct (leb_not_nan a b Hab) as [Na Nb].
  unfold determineBusinessAction. rewrite !normalizedScore_negative.
  destruct (sub_one_double a Ha Na) as [Va Na'].
  destruct (sub_one_double b Hb Nb) as [Vb Nb'].
  apply thresholds_monotone; try assumption.
  apply sub_one_extended_antitone; try assumption.
  now apply leb_extended.
Qed.

End OrderFacts.

(** X1: with the label POSITIVE the decision is monotone in the confidence,
    over all doubles, infinities included: if the larger confidence still
    gets the coupon so does the smaller one, and if the smaller one gets
    the referral so does the larger one. *)
Theorem decision_monotone_positive (a b : Number) :
  Number.is_double a = true -> Number.is_double b = true ->
  Number.leb a b = true ->
  (determineBusinessAction b (str "POSITIVE") = OFFER_COUPON ->
   determineBusinessAction a (str "POSITIVE") = OFFER_COUPON) /\
  (determineBusinessAction a (str "POSITIVE") = ASK_REFERRAL ->
   determineBusinessAction b (str "POSITIVE") = ASK_REFERRAL).
Proof. exact (OrderFacts.positive_monotone a b). Qed.

Lemma decision_monotone_positive_witness :
  (determineBusinessAction Number.lit_0_4 (str "POSITIVE") = OFFER_COUPON ->
   determineBusinessAction Number.lit_0_3 (str "POSITIVE") = OFFER_COUPON) /\
  (determineBusinessAction Number.lit_0_3 (str "POSITIVE") = ASK_REFERRAL ->
   determineBusinessAction Number.lit_0_4 (str "POSITIVE") = ASK_REFERRAL).
Proof.
  exact (decision_monotone_positive Number.lit_0_3 Number.lit_0_4 eq_refl eq_refl eq_refl).
Defined.

(** X2: with the label NEGATIVE the decision is antitone in the confidence,
    although the score [1.0 - confidence] is rounded: if the smaller
    confidence already gets the coupon so does the larger one, and if the
    larger one still gets the referral so does the smaller one. *)
Theorem decision_antitone_negative (a b : Number) :
  Number.is_double a = true -> Number.is_double b = true ->
  Number.leb a b = true ->
  (determineBusinessAction a (str "NEGATIVE") = OFFER_COUPON ->
   determineBusinessAction b (str "NEGATIVE") = OFFER_COUPON) /\
  (determineBusinessAction b (str "NEGATIVE") = ASK_REFERRAL ->
   determineBusinessAction a (str "NEGATIVE") = ASK_REFERRAL).
Proof. exact (OrderFacts.negative_antitone a b). Qed.

Lemma decision_antitone_negative_witness :
  (determineBusinessAction Number.lit_0_6 (str "NEGATIVE") = OFFER_COUPON ->
   determineBusinessAction Number.lit_0_7 (str "NEGATIVE") = OFFER_COUPON) /\
  (determineBusinessAction Number.lit_0_7 (str "NEGATIVE") = ASK_REFERRAL ->
   determineBusinessAction Number.lit_0_6 (str "NEGATIVE") = ASK_REFERRAL).
Proof.
  exact (decision_antitone_negative Number.lit_0_6 Number.lit_0_7 eq_refl eq_refl eq_refl).
Defined.

(** X3: the confidence is not clamped, and outside [0,1] the decision is
    still one of the two outer bands: a confidence of 0 or below (down to
    minus infinity) gets the coupon with POSITIVE and the referral with
    NEGATIVE, a confidence of 1 or above (up to infinity) the referral with
    POSITIVE and the coupon with NEGATIVE; a NaN fails both comparisons and
    gets the referral with either label. *)
Theorem decision_outside_unit_interval (c : Number) :
  Number.is_double c = true ->
  (Number.leb c Number.zero = true ->
   determineBusinessAction c (str "POSITIVE") = OFFER_COUPON /\
   determineBusinessAction c (str "NEGATIVE") = ASK_REFERRAL) /\
  (Number.leb Number.one c = true ->
   determineBusinessAction c (str "POSITIVE") = ASK_REFERRAL /\
   determineBusinessAction c (str "NEGATIVE") = OFFER_COUPON) /\
  (c = S754_nan ->
   determineBusinessAction c (str "POSITIVE") = ASK_REFERRAL /\
   determineBusinessAction c (str "NEGATIVE") = ASK_REFERRAL).
Proof.
  intros Hc. split; [|split].
  - intros H0.
    destruct (OrderFacts.positive_monotone c Number.zero Hc eq_refl H0) as [Hp _].
    destruct (OrderFacts.negative_antitone c Number.zero Hc eq_refl H0) as [_ Hn].
    split; [apply Hp | apply Hn]; vm_compute; reflexivity.
  - intros H1.
    destruct (OrderFacts.positive_monotone Number.one c eq_refl Hc H1) as [_ Hp].
    destruct (OrderFacts.negative_antitone Number.one c eq_refl Hc H1) as [Hn _].
    split; [apply Hp | apply Hn]; vm_compute; reflexivity.
  - intros ->. split; vm_compute; reflexivity.
Qed.

Lemma decision_outside_unit_interval_witness :
  let minus_one := S754_finite true 4503599627370496 (-52) in
  determineBusinessAction minus_one (str "POSITIVE") = OFFER_COUPON /\
  determineBusinessAction minus_one (str "NEGATIVE") = ASK_REFERRAL.
Proof.
  exact (proj1 (decision_outside_unit_interval
                  (S754_finite true 4503599627370496 (-52)) eq_refl) eq_refl).
Defined.

(** ** From the classifier output to the decision *)

Lemma half_requests_feedback (label : jsstring) :
  determineBusinessAction Number.lit_0_5 label = REQUEST_FEEDBACK.
Proof.
  unfold determineBusinessAction, normalizedScore.
  destruct (JSString.eqb label (str "POSITIVE")); [vm_compute; reflexivity|].
  destruct (JSString.eqb label (str "NEGATIVE")); vm_compute; reflexivity.
Qed.

Lemma other_label_feedback (c : Number) (label : jsstring) :
  label <> str "POSITIVE" -> label <> str "NEGATIVE" ->
  determineBusinessAction c label = REQUEST_FEEDBACK.
Proof.
  intros Hp Hn. unfold determineBusinessAction.
  rewrite (normalizedScore_other c label Hp Hn). vm_compute. reflexivity.
Qed.

Lemma or_else_falsy (a b : value) : ToBoolean a = false -> or_else a b = b.
Proof. unfold or_else. now intros ->. Qed.

Lemma or_else_truthy (a b : value) : ToBoolean a = true -> or_else a b = a.
Proof. unfold or_else. now intros ->. Qed.

Section PipelineFacts.

Variable toUpperCase : jsstring -> jsstring.
Variable StringToNumber : jsstring -> Number.
Variable ObjectToNumber : value -> Number.

Local Abbreviation extract := (extractSentimentData toUpperCase StringToNumber ObjectToNumber).
Local Abbreviation action_of := (actionFor StringToNumber ObjectToNumber).
Local Abbreviation above_half := (gt_half StringToNumber ObjectToNumber).

Lemma half_not_above_half : above_half (VNumber Number.lit_0_5) = false.
Proof. reflexivity. Qed.

Lemma extract_object (props : list (jsstring * value)) (others rest : list value) :
  extract (VArray (VArray (VObject props :: others) :: rest)) =
  match or_else (lookup props (str "label")) (VString (str "NEUTRAL")) with
  | VString rawLabel =>
    let shown := toUpperCase rawLabel in
    let score := or_else (lookup props (str "score")) (VNumber Number.lit_0_5) in
    Normal (mkSentimentData
              (if JSString.eqb shown (str "POSITIVE") && above_half score then str "positive"
               else if JSString.eqb shown (str "NEGATIVE") && above_half score
                    then str "negative"
               else str "neutral")
              shown score rawLabel)
  | _ => Throw not_a_function
  end.
Proof. reflexivity. Qed.

Lemma extract_defaults (result : value) :
  (forall props others rest,
     result <> VArray (VArray (VObject props :: others) :: rest)) ->
  exists shown,
    extract result =
    Normal (mkSentimentData (str "neutral") shown (VNumber Number.lit_0_5) (str "NEUTRAL")).
Proof.
  intros Hshape. unfold extractSentimentData.
  destruct result as [| | | | |rows|]; try (eexists; reflexivity).
  destruct rows as [|row rest]; try (eexists; reflexivity).
  destruct row as [| | | | |elems|]; try (eexists; reflexivity).
  destruct elems as [|first others]; try (eexists; reflexivity).
  destruct first as [| |b|x|s|xs|props].
  - eexists; reflexivity.
  - eexists; reflexivity.
  - destruct b; eexists; reflexivity.
  - destruct x; eexists; reflexivity.
  - destruct s; eexists; reflexivity.
  - exists (toUpperCase (str "NEUTRAL")).
    cbn [ToBoolean typeof_is_object andb get or_else].
    rewrite half_not_above_half, !andb_false_r. reflexivity.
  - destruct (Hshape props others rest eq_refl).
Qed.

Lemma extract_label_no_string (props : list (jsstring * value)) (others rest : list value) :
  ToBoolean (lookup props (str "label")) = true ->
  (forall s, lookup props (str "label") <> VString s) ->
  extract (VArray (VArray (VObject props :: others) :: rest)) = Throw not_a_function.
Proof.
  intros Hb Hs. rewrite extract_object. rewrite (or_else_truthy _ _ Hb).
  destruct (lookup props (str "label")) as [| |b|x|s|xs|ps];
    try reflexivity.
  destruct (Hs s eq_refl).
Qed.

(** X4: the extraction does not always fall back to its defaults: it throws
    a TypeError exactly when the first entry of the first row is an object
    whose [label] is truthy and no string (a number, [true], an array, an
    object), and for no other result. *)
Theorem extraction_throws_iff (result : value) (e : JsError) :
  extract result = Throw e <->
  e = not_a_function /\
  exists props others rest,
    result = VArray (VArray (VObject props :: others) :: rest) /\
    ToBoolean (lookup props (str "label")) = true /\
    forall s, lookup props (str "label") <> VString s.
Proof.
  split.
  - intros H.
    assert (Hobj : exists props others rest,
               result = VArray (VArray (VObject props :: others) :: rest)).
    { destruct result as [| | | | |rows|]; try discriminate H.
      destruct rows as [|row rest]; try discriminate H.
      destruct row as [| | | | |elems|]; try discriminate H.
      destruct elems as [|first others]; try discriminate H.
      destruct first as [| |b|x|s|xs|props].
      - discriminate H.
      - discriminate H.
      - destruct b; discriminate H.
      - destruct x; discriminate H.
      - destruct s; discriminate H.
      - exfalso. revert H. unfold extractSentimentData.
        cbn [ToBoolean typeof_is_object andb get or_else]. discriminate.
      - now exists props, others, rest. }
    destruct Hobj as (props & others & rest & ->).
    rewrite extract_object in H. unfold or_else in H.
    destruct (ToBoolean (lookup props (str "label"))) eqn:Hb; [|discriminate H].
    destruct (lookup props (str "label")) as [| |b|x|s|xs|ps] eqn:Hl;
      try discriminate Hb; try discriminate H;
      (split; [congruence|]); exists props, others, rest;
      (split; [reflexivity|]); rewrite Hl; (split; [exact Hb|]); discriminate.
  - intros (-> & props & others & rest & -> & Hb & Hs).
    now apply extract_label_no_string.
Qed.

(** X5: a result that the extraction cannot read - anything but an array
    whose first row starts with an object with own keys - is not rejected:
    it gives the defaults (bucket neutral, score 0.5, raw label NEUTRAL),
    and the decision made on them is REQUEST_FEEDBACK. *)
Theorem unreadable_result_requests_feedback (result : value) :
  (forall props others rest,
     result <> VArray (VArray (VObject props :: others) :: rest)) ->
  exists data,
    extract result = Normal data /\
    sd_sentiment data = str "neutral" /\
    sd_score data = VNumber Number.lit_0_5 /\
    sd_rawLabel data = str "NEUTRAL" /\
    action_of data = REQUEST_FEEDBACK.
Proof.
  intros Hshape. destruct (extract_defaults result Hshape) as [shown ->].
  eexists. split; [reflexivity|]. repeat split.
Qed.

(** X6: a score that is falsy - missing, 0, NaN, null, the empty string -
    is replaced by 0.5 before the decision: whenever the extraction returns
    - the label is missing, falsy or any string, POSITIVE and NEGATIVE
    included - the result gets the bucket neutral and REQUEST_FEEDBACK
    (whereas [determineBusinessAction(0, "POSITIVE")] itself is
    OFFER_COUPON); it throws only for a label that is truthy and no
    string. *)
Theorem falsy_score_requests_feedback (props : list (jsstring * value))
    (others rest : list value) :
  ToBoolean (lookup props (str "score")) = false ->
  match extract (VArray (VArray (VObject props :: others) :: rest)) with
  | Normal data =>
    sd_score data = VNumber Number.lit_0_5 /\
    sd_sentiment data = str "neutral" /\
    action_of data = REQUEST_FEEDBACK
  | Throw e =>
    ToBoolean (lookup props (str "label")) = true /\
    forall s, lookup props (str "label") <> VString s
  end /\
  determineBusinessAction Number.zero (str "POSITIVE") = OFFER_COUPON.
Proof.
  intros Hs. split; [|reflexivity].
  rewrite extract_object, (or_else_falsy _ _ Hs). unfold or_else at 1.
  destruct (ToBoolean (lookup props (str "label"))) eqn:Hl.
  - destruct (lookup props (str "label")) as [| |b|x|raw|xs|ps];
      try discriminate Hl; try (split; [reflexivity | discriminate]).
    cbv zeta. rewrite half_not_above_half, !andb_false_r.
    split; [reflexivity|]. split; [reflexivity|].
    unfold actionFor. cbn [sd_score sd_rawLabel ToNumber]. apply half_requests_feedback.
  - cbv zeta. rewrite half_not_above_half, !andb_false_r.
    split; [reflexivity|]. split; [reflexivity|].
    unfold actionFor. cbn [sd_score sd_rawLabel ToNumber]. apply half_requests_feedback.
Qed.

(** X7: the decision is made on the label as the classifier spelled it,
    the bucket on its upper-cased form: for a label other than the exact
    strings POSITIVE and NEGATIVE (say [positive]) the action is
    REQUEST_FEEDBACK whatever the score, also when the bucket that is shown
    and logged is positive or negative. *)
Theorem raw_label_decides (props : list (jsstring * value))
    (others rest : list value) (raw : jsstring) :
  lookup props (str "label") = VString raw ->
  raw <> [] -> raw <> str "POSITIVE" -> raw <> str "NEGATIVE" ->
  exists data,
    extract (VArray (VArray (VObject props :: others) :: rest)) = Normal data /\
    sd_rawLabel data = raw /\
    sd_label data = toUpperCase raw /\
    action_of data = REQUEST_FEEDBACK /\
    (toUpperCase raw = str "POSITIVE" -> above_half (sd_score data) = true ->
     sd_sentiment data = str "positive") /\
    (toUpperCase raw = str "NEGATIVE" -> above_half (sd_score data) = true ->
     sd_sentiment data = str "negative").
Proof.
  intros Hl Hne Hp Hn. rewrite extract_object, Hl.
  assert (Hraw : or_else (VString raw) (VString (str "NEUTRAL")) = VString raw).
  { destruct raw; [congruence | reflexivity]. }
  rewrite Hraw. cbv zeta.
  eexists. split; [reflexivity|]. cbn [sd_rawLabel sd_label sd_score sd_sentiment].
  split; [reflexivity|]. split; [reflexivity|]. split; [|split].
  - unfold actionFor. cbn [sd_score sd_rawLabel]. now apply other_label_feedback.
  - intros -> ->. reflexivity.
  - intros -> ->. reflexivity.
Qed.

(** X8: the extraction of the logging-only page and the one of the page
    with the business logic agree on every result - the same bucket, label
    and score, or a TypeError from both - given that upper-casing leaves
    the string NEUTRAL as it is. *)
Theorem extraction_variants_agree (result : value) :
  toUpperCase (str "NEUTRAL") = str "NEUTRAL" ->
  match extract result,
        LoggingOnlyPage.extractSentimentData toUpperCase StringToNumber ObjectToNumber result
  with
  | Normal data, Normal (bucket, shown, score) =>
    bucket = sd_sentiment data /\ shown = sd_label data /\ score = sd_score data
  | Throw e, Throw e' => errName e = errName e'
  | _, _ => False
  end.
Proof.
  intros Hup.
  unfold extractSentimentData, LoggingOnlyPage.extractSentimentData.
  destruct result as [| | | | |rows|]; try (repeat split).
  destruct rows as [|row rest]; try (repeat split).
  destruct row as [| | | | |elems|]; try (repeat split).
  destruct elems as [|first others]; try (repeat split).
  destruct (ToBoolean first && typeof_is_object first); [|repeat split].
  unfold or_else at 1 4.
  destruct (ToBoolean (get first (str "label"))) eqn:Hb.
  - destruct (get first (str "label")) as [| |b|x|s|xs|ps]; try reflexivity.
    cbv zeta. repeat split.
  - rewrite Hup. cbv zeta. repeat split.
Qed.

End PipelineFacts.

Lemma unreadable_result_requests_feedback_witness :
  exists data,
    extractSentimentData ascii_upper no_number no_primitive (VArray [])
    = Normal data /\
    sd_sentiment data = str "neutral" /\
    sd_score data = VNumber Number.lit_0_5 /\
    sd_rawLabel data = str "NEUTRAL" /\
    actionFor no_number no_primitive data = REQUEST_FEEDBACK.
Proof.
  apply (unreadable_result_requests_feedback ascii_upper no_number
           no_primitive (VArray [])).
  intros props others rest. discriminate.
Defined.

Lemma falsy_score_requests_feedback_witness :
  exists data,
    extractSentimentData ascii_upper no_number no_primitive
      (VArray [VArray [VObject [(str "score", VNumber Number.zero)]]]) = Normal data /\
    sd_score data = VNumber Number.lit_0_5 /\
    sd_sentiment data = str "neutral" /\
    actionFor no_number no_primitive data = REQUEST_FEEDBACK.
Proof.
  pose proof (falsy_score_requests_feedback ascii_upper no_number no_primitive
                [(str "score", VNumber Number.zero)] [] [] eq_refl) as [H _].
  destruct (extractSentimentData ascii_upper no_number no_primitive
              (VArray [VArray [VObject [(str "score", VNumber Number.zero)]]]))
    as [data|e].
  - exists data. split; [reflexivity | exact H].
  - destruct H as [Hlabel _]. vm_compute in Hlabel. discriminate Hlabel.
Defined.

Lemma raw_label_decides_witness :
  let props := [(str "label", VString (str "positive")); (str "score", VNumber Number.one)] in
  exists data,
    extractSentimentData ascii_upper no_number no_primitive
      (VArray [VArray [VObject props]]) = Normal data /\
    sd_sentiment data = str "positive" /\
    actionFor no_number no_primitive data = REQUEST_FEEDBACK.
Proof.
  destruct (raw_label_decides ascii_upper no_number no_primitive
              [(str "label", VString (str "positive")); (str "score", VNumber Number.one)]
              [] [] (str "positive") eq_refl)
    as (data & Hd & Hraw & Hshown & Hact & Hpos & _);
    [discriminate | discriminate | discriminate |].
  exists data. split; [exact Hd|]. split; [|exact Hact].
  apply Hpos; [reflexivity|].
  rewrite extract_object in Hd. injection Hd as <-. reflexivity.
Defined.

Lemma extraction_variants_agree_witness :
  match extractSentimentData ascii_upper no_number no_primitive
          (VArray [VArray [VObject [(str "score", VNumber Number.one)]]]),
        LoggingOnlyPage.extractSentimentData ascii_upper no_number
          no_primitive
          (VArray [VArray [VObject [(str "score", VNumber Number.one)]]])
  with
  | Normal data, Normal (bucket, shown, score) =>
    bucket = sd_sentiment data /\ shown = sd_label data /\ score = sd_score data
  | Throw e, Throw e' => errName e = errName e'
  | _, _ => False
  end.
Proof.
  exact (extraction_variants_agree ascii_upper no_number no_primitive
           (VArray [VArray [VObject [(str "score", VNumber Number.one)]]]) eq_refl).
Defined.

(** ** The corpus *)

Lemma trimStart_split (s : jsstring) :
  exists w, s = w ++ WhiteSpace.trimStart s /\ forallb WhiteSpace.is_white_space w = true.
Proof.
  induction s as [|u s IH].
  - exists []. split; reflexivity.
  - cbn [WhiteSpace.trimStart].
    destruct (WhiteSpace.is_white_space u) eqn:Hu.
    + destruct IH as (w & Hs & Hw). exists (u :: w). split.
      * cbn [app]. now rewrite <- Hs.
      * cbn [forallb]. now rewrite Hu, Hw.
    + exists []. split; reflexivity.
Qed.

Lemma trimStart_nil_iff (s : jsstring) :
  WhiteSpace.trimStart s = [] <-> forallb WhiteSpace.is_white_space s = true.
Proof.
  induction s as [|u s IH]; [split; reflexivity|].
  cbn [WhiteSpace.trimStart forallb].
  destruct (WhiteSpace.is_white_space u); cbn [andb]; [exact IH|].
  split; discriminate.
Qed.

Lemma forallb_rev (p : N -> bool) (s : jsstring) : forallb p (rev s) = forallb p s.
Proof.
  induction s as [|u s IH]; [reflexivity|].
  cbn [rev forallb]. rewrite forallb_app, IH. cbn [forallb].
  rewrite andb_true_r. apply andb_comm.
Qed.

(** [text.trim() !== ""] holds when some code unit is no white space. *)
Lemma trim_nil_iff (s : jsstring) :
  WhiteSpace.trim s = [] <-> forallb WhiteSpace.is_white_space s = true.
Proof.
  unfold WhiteSpace.trim. rewrite trimStart_nil_iff.
  unfold WhiteSpace.trimEnd.
  assert (He : forallb WhiteSpace.is_white_space (rev (WhiteSpace.trimStart (rev s)))
               = forallb WhiteSpace.is_white_space s).
  { destruct (trimStart_split (rev s)) as (w & Hs & Hw).
    rewrite forallb_rev, <- (forallb_rev _ s).
    rewrite Hs at 2. now rewrite forallb_app, Hw. }
  now rewrite He.
Qed.

Lemma forallb_false_exists (p : N -> bool) (s : jsstring) :
  forallb p s = false <-> exists u, In u s /\ p u = false.
Proof.
  induction s as [|u s IH]; cbn [forallb In].
  - split; [discriminate | intros (u & [] & _)].
  - destruct (p u) eqn:Hu; cbn [andb].
    + rewrite IH. split.
      * intros (v & Hin & Hv). exists v. auto.
      * intros (v & [<- | Hin] & Hv); [congruence | exists v; auto].
    + split; [|reflexivity]. intros _. exists u. auto.
Qed.

Lemma kept_spec (t : value) (s : jsstring) :
  kept t = Some s <->
  t = VString s /\ exists u, In u s /\ WhiteSpace.is_white_space u = false.
Proof.
  rewrite <- forallb_false_exists. unfold kept.
  destruct t as [| |b|x|s'|xs|ps];
    try (split; [discriminate | intros [Ht _]; discriminate Ht]).
  destruct (JSString.eqb (WhiteSpace.trim s') []) eqn:He.
  - apply jsstring_eqb_eq, trim_nil_iff in He.
    split; [discriminate | intros [[= ->] Hf]; congruence].
  - assert (Hne : forallb WhiteSpace.is_white_space s' = false).
    { destruct (forallb WhiteSpace.is_white_space s') eqn:Hf; [|reflexivity].
      apply trim_nil_iff, jsstring_eqb_eq in Hf. congruence. }
    split; [intros [= ->]; auto | intros [[= ->] _]; reflexivity].
Qed.

Lemma keep_all_In (texts : list value) (s : jsstring) :
  In s (keep_all texts) <-> exists t, In t texts /\ kept t = Some s.
Proof.
  induction texts as [|t texts IH]; cbn [keep_all In].
  - split; [intros [] | intros (t & [] & _)].
  - destruct (kept t) as [s'|] eqn:Hk; cbn [In]; rewrite ?IH.
    + split.
      * intros [<- | (t' & Hin & Ht')]; [exists t; auto | exists t'; auto].
      * intros (t' & [<- | Hin] & Ht'); [left; congruence | right; exists t'; auto].
    + split.
      * intros (t' & Hin & Ht'). exists t'; auto.
      * intros (t' & [<- | Hin] & Ht'); [congruence | exists t'; auto].
Qed.

Lemma keep_all_app (a b : list value) : keep_all (a ++ b) = keep_all a ++ keep_all b.
Proof.
  induction a as [|t a IH]; [reflexivity|].
  cbn [app keep_all]. destruct (kept t); cbn [app]; now rewrite IH.
Qed.

Lemma keep_all_length (texts : list value) :
  (List.length (keep_all texts) <= List.length texts)%nat.
Proof.
  induction texts as [|t texts IH]; [apply Nat.le_refl|].
  cbn [keep_all]. destruct (kept t); cbn [List.length]; lia.
Qed.

Lemma row_texts_normal (rows cells : list value) :
  row_texts rows = Normal cells ->
  cells = map (fun row => get row (str "text")) rows /\
  forall row, In row rows -> row <> VNull /\ row <> VUndefined.
Proof.
  revert cells. induction rows as [|row rows IH]; intros cells H.
  - injection H as <-. split; [reflexivity | intros row []].
  - cbn [row_texts] in H.
    destruct (read row (str "text")) as [cell|e] eqn:Hr; [|discriminate H].
    destruct (row_texts rows) as [cells'|e]; [|discriminate H].
    injection H as <-. destruct (IH cells' eq_refl) as [-> Hrows].
    assert (Hrow : cell = get row (str "text") /\ row <> VNull /\ row <> VUndefined).
    { destruct row; try discriminate Hr; injection Hr as <-;
        (split; [reflexivity | split; discriminate]). }
    destruct Hrow as (-> & Hn & Hu). split; [reflexivity|].
    intros row' [<- | Hin]; [auto | apply Hrows, Hin].
Qed.

Lemma row_texts_throw (rows : list value) (e : JsError) :
  row_texts rows = Throw e ->
  exists before row after,
    rows = before ++ row :: after /\
    (forall r, In r before -> r <> VNull /\ r <> VUndefined) /\
    (row = VNull /\ e = cannot_read (str "text") (str "null") \/
     row = VUndefined /\ e = cannot_read (str "text") (str "undefined")).
Proof.
  induction rows as [|row rows IH]; intros H; [discriminate H|].
  cbn [row_texts] in H.
  destruct (read row (str "text")) as [cell|e'] eqn:Hr.
  - destruct (row_texts rows) as [cells'|e'']; [discriminate H|].
    injection H as ->. destruct (IH eq_refl) as (before & bad & after & -> & Hb & Hbad).
    exists (row :: before), bad, after. split; [reflexivity|]. split; [|exact Hbad].
    intros r [<- | Hin]; [|apply Hb, Hin].
    destruct row; try discriminate Hr; split; discriminate.
  - injection H as ->. exists [], row, rows. split; [reflexivity|].
    split; [intros r []|].
    destruct row; try discriminate Hr; injection Hr as <-; [right | left];
      split; reflexivity.
Qed.

Lemma row_texts_app (rows more cells cells' : list value) :
  row_texts rows = Normal cells -> row_texts more = Normal cells' ->
  row_texts (rows ++ more) = Normal (cells ++ cells').
Proof.
  revert cells. induction rows as [|row rows IH]; intros cells H H'.
  - injection H as <-. exact H'.
  - cbn [row_texts app] in *.
    destruct (read row (str "text")) as [cell|e]; [|discriminate H].
    destruct (row_texts rows) as [cs|e]; [|discriminate H].
    injection H as <-. now rewrite (IH cs eq_refl H').
Qed.

Lemma loaded_reviews_spec (rows more : list value) :
  match loaded_reviews rows with
  | Throw e =>
    exists before row after,
      rows = before ++ row :: after /\
      (forall r, In r before -> r <> VNull /\ r <> VUndefined) /\
      (row = VNull /\ e = cannot_read (str "text") (str "null") \/
       row = VUndefined /\ e = cannot_read (str "text") (str "undefined"))
  | Normal loaded =>
    (forall row, In row rows -> row <> VNull /\ row <> VUndefined) /\
    (forall r,
       In r loaded <->
       exists row,
         In row rows /\ get row (str "text") = VString r /\
         exists u, In u r /\ WhiteSpace.is_white_space u = false) /\
    (List.length loaded <= List.length rows)%nat /\
    (forall loaded',
       loaded_reviews more = Normal loaded' ->
       loaded_reviews (rows ++ more) = Normal (loaded ++ loaded'))
  end.
Proof.
  unfold loaded_reviews.
  destruct (row_texts rows) as [cells|e] eqn:Hr; [|now apply row_texts_throw].
  destruct (row_texts_normal rows cells Hr) as [Hcells Hrows].
  split; [exact Hrows|]. split; [|split].
  - intros r. rewrite keep_all_In, Hcells. split.
    + intros (t & Hin & Hk). apply in_map_iff in Hin. destruct Hin as (row & <- & Hin).
      apply kept_spec in Hk. exists row. tauto.
    + intros (row & Hin & Ht & Hu). exists (VString r). split.
      * apply in_map_iff. exists row. auto.
      * apply kept_spec. auto.
  - pose proof (keep_all_length cells) as H. rewrite Hcells in H at 2.
    now rewrite length_map in H.
  - intros loaded' H'.
    destruct (row_texts more) as [cells'|e'] eqn:Hm; [|discriminate H'].
    injection H' as <-. rewrite (row_texts_app rows more cells cells' Hr Hm).
    now rewrite keep_all_app.
Qed.

(** X9: a row that is [null] or [undefined] makes the load throw, at the
    first such row. Otherwise the working set holds exactly the [text]
    cells that are strings with at least one code unit that is no white
    space, in the order of the rows and with their repetitions; rows
    without such a cell are dropped, none is added. *)
Theorem loaded_reviews_characterised (rows more : list value) :
  match loaded_reviews rows with
  | Throw e =>
    exists before row after,
      rows = before ++ row :: after /\
      (forall r, In r before -> r <> VNull /\ r <> VUndefined) /\
      (row = VNull /\ e = cannot_read (str "text") (str "null") \/
       row = VUndefined /\ e = cannot_read (str "text") (str "undefined"))
  | Normal loaded =>
    (forall row, In row rows -> row <> VNull /\ row <> VUndefined) /\
    (forall r,
       In r loaded <->
       exists row,
         In row rows /\ get row (str "text") = VString r /\
         exists u, In u r /\ WhiteSpace.is_white_space u = false) /\
    (List.length loaded <= List.length rows)%nat /\
    (forall loaded',
       loaded_reviews more = Normal loaded' ->
       loaded_reviews (rows ++ more) = Normal (loaded ++ loaded'))
  end.
Proof. exact (loaded_reviews_spec rows more). Qed.

Lemma errors_shown_app (a b : list Ui) :
  errors_shown (a ++ b) = errors_shown a ++ errors_shown b.
Proof. apply flat_map_app. Qed.

Lemma logged_app (a b : list Ui) : logged (a ++ b) = logged a ++ logged b.
Proof. apply flat_map_app. Qed.

Lemma displayed_app (a b : list Ui) : displayed (a ++ b) = displayed a ++ displayed b.
Proof. apply flat_map_app. Qed.

Lemma message_or_nonempty (e : JsError) (fallback : jsstring) :
  fallback <> [] -> message_or e fallback <> [].
Proof. unfold message_or. destruct (errMessage e); [auto | discriminate]. Qed.

Lemma loadReviews_cases (page : Page) (fetched : FetchOutcome)
    (papa : jsstring -> PapaOutcome) :
  let after := loadReviews page fetched papa in
  sentimentPipeline (fst after) = sentimentPipeline page /\
  (forall rows loaded,
     corpus_arrives fetched papa rows -> loaded_reviews rows = Normal loaded ->
     reviews (fst after) = loaded /\ errors_shown (snd after) = []) /\
  ((forall rows, corpus_arrives fetched papa rows -> exists e, loaded_reviews rows = Throw e) ->
   fst after = page /\ exists message, errors_shown (snd after) = [message]).
Proof.
  cbv zeta. unfold corpus_arrives, loadReviews.
  destruct fetched as [e|res].
  - split; [reflexivity|]. split.
    + intros rows loaded (res & tsv & Hf & _). discriminate Hf.
    + intros _. split; [reflexivity|]. eexists. reflexivity.
  - destruct (ok res) eqn:Hok; cbn [negb].
    2:{ split; [reflexivity|]. split.
        - intros rows loaded (res' & tsv & [= <-] & Hok' & _). congruence.
        - intros _. split; [reflexivity|]. eexists. reflexivity. }
    destruct (text res) as [tsv|e] eqn:Ht.
    2:{ split; [reflexivity|]. split.
        - intros rows loaded (res' & tsv & [= <-] & _ & Ht' & _). congruence.
        - intros _. split; [reflexivity|]. eexists. reflexivity. }
    destruct (papa tsv) as [rows|e|e] eqn:Hp.
    + destruct (loaded_reviews rows) as [loaded|e] eqn:Hl.
      * split; [reflexivity|]. split.
        -- intros rows' loaded' (res' & tsv' & [= <-] & _ & Ht' & Hp') Hl'.
           assert (tsv' = tsv) by congruence. subst tsv'.
           assert (rows' = rows) by congruence. subst rows'.
           assert (loaded' = loaded) by congruence. subst loaded'.
           split; reflexivity.
        -- intros Hno. destruct (Hno rows) as [e He]; [exists res, tsv; auto|].
           congruence.
      * split; [reflexivity|]. split.
        -- intros rows' loaded' (res' & tsv' & [= <-] & _ & Ht' & Hp') Hl'.
           assert (tsv' = tsv) by congruence. subst tsv'.
           assert (rows' = rows) by congruence. subst rows'. congruence.
        -- intros _. split; [reflexivity|]. eexists. reflexivity.
    + split; [reflexivity|]. split.
      * intros rows' loaded' (res' & tsv' & [= <-] & _ & Ht' & Hp').
        assert (tsv' = tsv) by congruence. subst tsv'. congruence.
      * intros _. split; [reflexivity|]. eexists. reflexivity.
    + split; [reflexivity|]. split.
      * intros rows' loaded' (res' & tsv' & [= <-] & _ & Ht' & Hp').
        assert (tsv' = tsv) by congruence. subst tsv'. congruence.
      * intros _. split; [reflexivity|]. eexists. reflexivity.
Qed.

(** X10: a load either replaces the working set by the filtered rows and
    shows no error, or - when the fetch is rejected, the status is not 2xx,
    the body cannot be read, the parser fails, or a row is [null] or
    [undefined] so that the callback throws - leaves the page as it was and
    shows exactly one error message; the classifier handle is never
    touched. *)
Theorem loadReviews_all_or_nothing (page : Page) (fetched : FetchOutcome)
    (papa : jsstring -> PapaOutcome) :
  let after := loadReviews page fetched papa in
  sentimentPipeline (fst after) = sentimentPipeline page /\
  (forall rows loaded,
     corpus_arrives fetched papa rows -> loaded_reviews rows = Normal loaded ->
     reviews (fst after) = loaded /\ errors_shown (snd after) = []) /\
  ((forall rows, corpus_arrives fetched papa rows -> exists e, loaded_reviews rows = Throw e) ->
   fst after = page /\ exists message, errors_shown (snd after) = [message]).
Proof.
  exact (loadReviews_cases page fetched papa).
Qed.

(** ** A run of the page *)

Section RunFacts.

Variable toUpperCase : jsstring -> jsstring.
Variable StringToNumber : jsstring -> Number.
Variable ObjectToNumber : value -> Number.

Local Abbreviation extract := (extractSentimentData toUpperCase StringToNumber ObjectToNumber).
Local Abbreviation action_of := (actionFor StringToNumber ObjectToNumber).
Local Abbreviation run := (analyzeRandomReview toUpperCase StringToNumber ObjectToNumber).
Local Abbreviation attempt := (analyze toUpperCase StringToNumber ObjectToNumber).

Lemma run_selected (page : Page) (random_index : nat) (classify : Pipeline)
    (selected : jsstring) :
  sentimentPipeline page = Some classify ->
  nth_error (reviews page) random_index = Some selected ->
  run page random_index =
  Some ([HideError; ShowReview selected; Loading true; AnalyzeButton true;
         ResetSentiment; ResetAction]
        ++ attempt page selected ++ [Loading false; AnalyzeButton false]).
Proof.
  intros Hp Hn. unfold analyzeRandomReview. rewrite Hp, Hn.
  destruct (reviews page) as [|r rs]; [|reflexivity].
  destruct random_index; discriminate Hn.
Qed.

Lemma attempt_cases (page : Page) (selected : jsstring) :
  (exists e,
     attempt page selected =
     [ConsoleError (str "Error:") (error_to_string e);
      ShowError (message_or e (str "Failed to analyze sentiment."))] /\
     (analyzeSentiment page selected = Throw e \/
      exists result, analyzeSentiment page selected = Normal result /\
                     extract result = Throw e)) \/
  (exists result data,
     analyzeSentiment page selected = Normal result /\
     extract result = Normal data /\
     attempt page selected =
     [DisplaySentimentResult (sd_sentiment data) (sd_label data) (sd_score data);
      DisplayBusinessAction (action_of data);
      LogAnalysis selected (sd_sentiment data) (sd_label data) (sd_score data)
        (action_of data)]).
Proof.
  unfold analyze.
  destruct (analyzeSentiment page selected) as [result|e] eqn:Ha.
  - destruct (extract result) as [data|e] eqn:He.
    + right. exists result, data. auto.
    + left. exists e. split; [reflexivity|]. right. exists result. auto.
  - left. exists e. auto.
Qed.

Lemma run_blocked (page : Page) (random_index : nat) :
  reviews page = [] \/ sentimentPipeline page = None ->
  exists message,
    run page random_index = Some [HideError; ShowError message] /\
    (reviews page = [] ->
     message = str "No reviews available. Please try again later.") /\
    (reviews page <> [] ->
     message = str "Sentiment model is not ready yet. Please wait a moment.").
Proof.
  intros H. unfold analyzeRandomReview.
  destruct (reviews page) as [|r rs].
  - eexists. split; [reflexivity|]. split; [reflexivity | congruence].
  - destruct H as [H|H]; [discriminate H|]. rewrite H.
    eexists. split; [reflexivity|]. split; [discriminate | reflexivity].
Qed.


(** X12: once a review is selected, the run ends by hiding the loading
    indicator and enabling the button again, after having shown the one and
    disabled the other - whatever the classifier returns or throws. *)
Theorem run_restores_controls (page : Page) (random_index : nat)
    (classify : Pipeline) (selected : jsstring) :
  sentimentPipeline page = Some classify ->
  nth_error (reviews page) random_index = Some selected ->
  exists before,
    run page random_index = Some (before ++ [Loading false; AnalyzeButton false]) /\
    In (ShowReview selected) before /\
    In (Loading true) before /\ In (AnalyzeButton true) before /\
    ~ In (Loading false) before /\ ~ In (AnalyzeButton false) before.
Proof.
  intros Hp Hn. rewrite (run_selected page random_index classify selected Hp Hn).
  exists ([HideError; ShowReview selected; Loading true; AnalyzeButton true;
           ResetSentiment; ResetAction] ++ attempt page selected).
  split; [now rewrite <- app_assoc|].
  assert (Hmid : forall ev, In ev (attempt page selected) ->
                            ev <> Loading false /\ ev <> AnalyzeButton false).
  { intros ev Hin.
    destruct (attempt_cases page selected) as [(e & He & _) | (r & d & _ & _ & He)];
      rewrite He in Hin; cbn [In] in Hin; intuition (subst; discriminate). }
  repeat split.
  - cbn [app In]. auto.
  - cbn [app In]. auto.
  - cbn [app In]. auto 6.
  - intros Hin. apply in_app_or in Hin. destruct Hin as [Hin|Hin].
    + cbn [In] in Hin. intuition discriminate.
    + destruct (Hmid _ Hin) as [H _]. now apply H.
  - intros Hin. apply in_app_or in Hin. destruct Hin as [Hin|Hin].
    + cbn [In] in Hin. intuition discriminate.
    + destruct (Hmid _ Hin) as [_ H]. now apply H.
Qed.

(** X13: a run with a selected review either displays one action and logs
    that same action - the one decided on the extracted score and raw
    label - and shows no error, or shows exactly one non-empty error
    message and neither displays an action nor logs anything. *)
Theorem run_logs_or_shows_error (page : Page) (random_index : nat)
    (classify : Pipeline) (selected : jsstring) :
  sentimentPipeline page = Some classify ->
  nth_error (reviews page) random_index = Some selected ->
  exists events,
    run page random_index = Some events /\
    ((exists first others data,
        classify selected = Normal (VArray (first :: others)) /\
        extract (VArray [VArray (first :: others)]) = Normal data /\
        In (LogAnalysis selected (sd_sentiment data) (sd_label data) (sd_score data)
              (action_of data)) events /\
        logged events = [action_of data] /\
        displayed events = [action_of data] /\
        errors_shown events = []) \/
     (logged events = [] /\ displayed events = [] /\
      exists message, message <> [] /\ errors_shown events = [message])).
Proof.
  intros Hp Hn. rewrite (run_selected page random_index classify selected Hp Hn).
  eexists. split; [reflexivity|].
  destruct (attempt_cases page selected) as [(e & -> & _) | (r & d & Ha & He & ->)].
  - right. split; [reflexivity|]. split; [reflexivity|].
    exists (message_or e (str "Failed to analyze sentiment.")).
    split; [apply message_or_nonempty; discriminate | reflexivity].
  - left. unfold analyzeSentiment in Ha. rewrite Hp in Ha.
    destruct (classify selected) as [out|e'] eqn:Hc; [|discriminate Ha].
    destruct out as [| | | | |elems|]; try discriminate Ha.
    destruct elems as [|first others]; [discriminate Ha|].
    injection Ha as <-.
    exists first, others, d. split; [reflexivity|]. split; [exact He|].
    split; [|split; [|split]]; try reflexivity.
    cbn [app In]. auto 12.
Qed.

(** X14: what the user reads when a run fails. A classifier that throws
    shows its own message (or "Failed to analyze sentiment." when that is
    empty); an output that is no array or an empty one shows "Invalid
    sentiment output."; and a first entry whose label is truthy and no
    string shows the TypeError of the extraction. *)
Theorem run_error_messages (page : Page) (random_index : nat)
    (classify : Pipeline) (selected : jsstring) :
  sentimentPipeline page = Some classify ->
  nth_error (reviews page) random_index = Some selected ->
  exists events,
    run page random_index = Some events /\
    (forall e,
       classify selected = Throw e ->
       errors_shown events = [message_or e (str "Failed to analyze sentiment.")]) /\
    (forall output,
       classify selected = Normal output ->
       (forall first others, output <> VArray (first :: others)) ->
       errors_shown events = [str "Invalid sentiment output."]) /\
    (forall props others,
       classify selected = Normal (VArray (VObject props :: others)) ->
       ToBoolean (lookup props (str "label")) = true ->
       (forall s, lookup props (str "label") <> VString s) ->
       errors_shown events = [str "rawLabel.toUpperCase is not a function"]).
Proof.
  intros Hp Hn. rewrite (run_selected page random_index classify selected Hp Hn).
  eexists. split; [reflexivity|].
  rewrite !errors_shown_app. cbn [errors_shown flat_map app].
  rewrite app_nil_r. unfold analyze, analyzeSentiment. rewrite Hp.
  split; [|split].
  - intros e ->. reflexivity.
  - intros output -> Hshape.
    destruct output as [| | | | |elems|]; try reflexivity.
    destruct elems as [|first others]; [reflexivity|].
    destruct (Hshape first others eq_refl).
  - intros props others -> Hb Hs.
    assert (Ht : extract (VArray [VArray (VObject props :: others)])
                 = Throw not_a_function).
    { apply extract_label_no_string; assumption. }
    rewrite Ht. reflexivity.
Qed.

(** X15: the two steps of the start-up write different globals, so the
    page after both does not depend on which of them ends first; and when
    the model cannot be loaded, the corpus does not arrive, or it gives no
    review - no usable row, or a row that cannot be read - every later run
    is blocked with an error message. *)
Theorem failed_startup_blocks_analysis (fetched : FetchOutcome)
    (papa : jsstring -> PapaOutcome) (model_load : completion Pipeline)
    (random_index : nat) :
  let page :=
    fst (initSentimentModel (fst (loadReviews initial_page fetched papa)) model_load) in
  page = fst (loadReviews (fst (initSentimentModel initial_page model_load)) fetched papa) /\
  ((exists e, model_load = Throw e) \/
   (forall rows, ~ corpus_arrives fetched papa rows) \/
   (forall rows, corpus_arrives fetched papa rows ->
                 forall r rest, loaded_reviews rows <> Normal (r :: rest)) ->
   exists message, run page random_index = Some [HideError; ShowError message]).
Proof.
  cbv zeta. split.
  - unfold loadReviews, initSentimentModel.
    destruct model_load as [classify|e]; destruct fetched as [e'|res]; try reflexivity;
      cbn [fst]; destruct (ok res); cbn [negb]; try reflexivity;
      destruct (text res) as [tsv|e'']; try reflexivity;
      destruct (papa tsv) as [rows|e3|e3]; try reflexivity;
      destruct (loaded_reviews rows); reflexivity.
  - intros H.
    destruct (loadReviews_cases initial_page fetched papa) as (Hpipe & Hok & Hfail).
    cbv zeta in Hpipe, Hok, Hfail.
    assert (Hblocked :
              reviews (fst (initSentimentModel (fst (loadReviews initial_page fetched papa))
                              model_load)) = [] \/
              sentimentPipeline
                (fst (initSentimentModel (fst (loadReviews initial_page fetched papa))
                        model_load)) = None).
    { destruct H as [[e ->] | [Hno | Hempty]].
      - right. cbn [initSentimentModel fst]. now rewrite Hpipe.
      - left. destruct Hfail as [-> _].
        { intros rows Harr. destruct (Hno rows Harr). }
        destruct model_load; reflexivity.
      - left.
        assert (Hr : reviews (fst (loadReviews initial_page fetched papa)) = []).
        { unfold loadReviews, corpus_arrives in *.
          destruct fetched as [e'|res]; [reflexivity|].
          destruct (ok res) eqn:Hk; cbn [negb]; [|reflexivity].
          destruct (text res) as [tsv|e''] eqn:Ht; [|reflexivity].
          destruct (papa tsv) as [rows|e3|e3] eqn:Hpp; try reflexivity.
          destruct (loaded_reviews rows) as [[|r rest]|e3] eqn:Hl; try reflexivity.
          destruct (Hempty rows (ex_intro _ res (ex_intro _ tsv
                      (conj eq_refl (conj Hk (conj Ht Hpp))))) r rest Hl). }
        destruct model_load; cbn [initSentimentModel fst reviews]; exact Hr. }
    destruct (run_blocked _ random_index Hblocked) as (m & Hm & _).
    exists m. exact Hm.
Qed.

End RunFacts.


Lemma run_restores_controls_witness :
  exists before,
    analyzeRandomReview ascii_upper no_number no_primitive sample_page 0
    = Some (before ++ [Loading false; AnalyzeButton false]) /\
    In (ShowReview (str "great")) before /\
    In (Loading true) before /\ In (AnalyzeButton true) before /\
    ~ In (Loading false) before /\ ~ In (AnalyzeButton false) before.
Proof.
  exact (run_restores_controls ascii_upper no_number no_primitive sample_page 0
           sample_classifier (str "great") eq_refl eq_refl).
Defined.

Lemma run_logs_or_shows_error_witness :
  exists events,
    analyzeRandomReview ascii_upper no_number no_primitive sample_page 0 = Some events /\
    logged events = [ASK_REFERRAL] /\ displayed events = [ASK_REFERRAL] /\
    errors_shown events = [].
Proof.
  destruct (run_logs_or_shows_error ascii_upper no_number no_primitive sample_page 0
              sample_classifier (str "great") eq_refl eq_refl)
    as (events & Hrun & Hcases).
  exists events. split; [exact Hrun|].
  injection Hrun as <-. repeat split.
Defined.

Lemma run_error_messages_witness :
  exists events,
    analyzeRandomReview ascii_upper no_number no_primitive
      (mkPage [str "great"] (Some (fun _ => Normal (VArray [])))) 0 = Some events /\
    errors_shown events = [str "Invalid sentiment output."].
Proof.
  destruct (run_error_messages ascii_upper no_number no_primitive
              (mkPage [str "great"] (Some (fun _ => Normal (VArray [])))) 0
              (fun _ => Normal (VArray [])) (str "great") eq_refl eq_refl)
    as (events & Hrun & _ & Hinvalid & _).
  exists events. split; [exact Hrun|].
  apply (Hinvalid (VArray []) eq_refl). intros first others. discriminate.
Defined.

(** ** More of the emitter *)

Lemma error_to_string_new_Error (u : N) (message : jsstring) :
  error_to_string (new_Error (u :: message)) = str "Error: " ++ u :: message.
Proof. reflexivity. Qed.

Section EmitterFacts.

Variable Number_toString : Number -> jsstring.
Variable toFixed : Number -> Z -> jsstring.

Local Abbreviation emit := (sendLogSimple Number_toString).
Local Abbreviation form_of := (sendLogSimple_form Number_toString).

Lemma emit_events (now : Z) (payload : Payload) (outcome : FetchOutcome) :
  exists rest,
    snd (emit now payload outcome)
    = EFetch (mkRequest GAS_WEB_APP_URL (str "POST") (form_of now payload)) :: rest /\
    forall ev, In ev rest ->
      (exists m, ev = EConsoleLog m) \/
      (exists d, ev = EConsoleError (str "Google Sheets logging failed:") d).
Proof.
  unfold sendLogSimple.
  destruct (try_send_cases outcome) as [(res & _ & _ & ->) | (_ & err & ->)].
  - eexists. split; [reflexivity|].
    intros ev [<- | []]. left. eexists. reflexivity.
  - eexists. split; [reflexivity|].
    intros ev [<- | []]. right. eexists. reflexivity.
Qed.

Lemma requests_quiet (events : list Event) :
  (forall ev, In ev events -> forall req, ev <> EFetch req) -> requests events = [].
Proof.
  induction events as [|ev events IH]; [reflexivity|].
  intros H. unfold requests in *. cbn [flat_map].
  rewrite IH by (intros ev' Hin; apply H; now right).
  destruct ev; try reflexivity. destruct (H (EFetch req) (or_introl eq_refl) req eq_refl).
Qed.

Lemma storage_after_quiet (events : list Event) (stored : option jsstring) :
  (forall ev, In ev events -> forall key v, ev <> ESetItem key v) ->
  storage_after stored events = stored.
Proof.
  revert stored. induction events as [|ev events IH]; [reflexivity|].
  intros stored H. unfold storage_after in *. cbn [fold_left].
  destruct ev as [req|m|m d|m|key v];
    try (apply IH; intros ev' Hin; apply H; now right).
  destruct (H (ESetItem key v) (or_introl eq_refl) key v eq_refl).
Qed.

(** X16: one call of the emitter makes exactly one request, whatever the
    outcome - it never sends again after a failure: a POST to the endpoint
    whose body has the five fields ts, review, sentiment, action_taken and
    meta, each once and in this order. *)
Theorem emitter_sends_one_request (now : Z) (payload : Payload) (outcome : FetchOutcome) :
  requests (snd (emit now payload outcome))
  = [mkRequest GAS_WEB_APP_URL (str "POST") (form_of now payload)] /\
  map fst (form_of now payload)
  = [str "ts"; str "review"; str "sentiment"; str "action_taken"; str "meta"].
Proof.
  split; [|reflexivity].
  destruct (emit_events now payload outcome) as (rest & -> & Hrest).
  unfold requests. cbn [flat_map app]. fold (requests rest).
  rewrite requests_quiet; [reflexivity|].
  intros ev Hin req ->. destruct (Hrest _ Hin) as [[m H] | [d H]]; discriminate H.
Qed.

Lemma form_ts (now : Z) (payload : Payload) :
  Form.get (form_of now payload) (str "ts")
  = Some (Form.toUSVString (JSString.of_Z (number_or (ts payload) now))).
Proof. reflexivity. Qed.

(** X17: the keys that a payload leaves out, or holds as a falsy value,
    get their defaults in the form: the current time for [ts] (also for a
    [ts] of 0), the empty string for [review], [sentiment] and
    [action_taken], and for [meta] the text of the empty object. *)
Theorem emitter_defaults (now : Z) (payload : Payload) :
  let form := form_of now payload in
  (ts payload = None \/ ts payload = Some 0 ->
   Form.get form (str "ts") = Some (JSString.of_Z now)) /\
  (review payload = None \/ review payload = Some [] ->
   Form.get form (str "review") = Some []) /\
  (sentiment payload = None \/ sentiment payload = Some [] ->
   Form.get form (str "sentiment") = Some []) /\
  (action_taken payload = None \/ action_taken payload = Some [] ->
   Form.get form (str "action_taken") = Some []) /\
  (meta payload = None ->
   Form.get form (str "meta") = Some (str "{}") /\
   JSON.parse (str "{}") = Some (JSON.JObject [])).
Proof.
  cbv zeta.
  split; [|split; [|split; [|split]]].
  - intros H. rewrite form_ts.
    assert (Hn : number_or (ts payload) now = now) by (destruct H as [H|H]; now rewrite H).
    now rewrite Hn, USVFacts.of_Z_usv.
  - unfold sendLogSimple_form. intros [H|H]; rewrite H; reflexivity.
  - unfold sendLogSimple_form. intros [H|H]; rewrite H; reflexivity.
  - unfold sendLogSimple_form. intros [H|H]; rewrite H; reflexivity.
  - unfold sendLogSimple_form. intros H; rewrite H. split; reflexivity.
Qed.

(** X18: the [error] string of a failed emission. A rejected fetch, and a
    body that cannot be read, give the string of that error; a response
    outside 200-299 whose body can be read gives
    "Error: HTTP <status>: <body>". *)
Theorem emitter_error_text (now : Z) (payload : Payload) :
  (forall e,
     fst (emit now payload (FetchRejects e))
     = Fulfilled (mkOutcome false (Some (error_to_string e)))) /\
  (forall code body,
     ~ 200 <= code <= 299 ->
     fst (emit now payload (FetchResponds (mkResponse code (TextOk body))))
     = Fulfilled (mkOutcome false
                    (Some (str "Error: HTTP " ++ JSString.of_Z code ++ str ": " ++ body)))) /\
  (forall code e,
     ~ 200 <= code <= 299 ->
     fst (emit now payload (FetchResponds (mkResponse code (TextFails e))))
     = Fulfilled (mkOutcome false (Some (error_to_string e)))).
Proof.
  split; [|split].
  - intros e. reflexivity.
  - intros code body Hcode. unfold sendLogSimple, try_send.
    assert (Hok : ok (mkResponse code (TextOk body)) = false).
    { destruct (ok _) eqn:Hk; [|reflexivity]. apply ok_iff_2xx in Hk. now destruct Hcode. }
    rewrite Hok. cbn [negb text fst status]. reflexivity.
  - intros code e Hcode. unfold sendLogSimple, try_send.
    assert (Hok : ok (mkResponse code (TextFails e)) = false).
    { destruct (ok _) eqn:Hk; [|reflexivity]. apply ok_iff_2xx in Hk. now destruct Hcode. }
    rewrite Hok. reflexivity.
Qed.

Lemma meta_fields (m : Meta) :
  let parsed := json_of_meta Number_toString m in
  JSON.field (str "user_id") parsed = Some (JSON.JString (user_id m)) /\
  JSON.field (str "label") parsed = Some (JSON.JString (label m)) /\
  JSON.field (str "confidence") parsed
  = Some (if Number.is_finite (confidence m)
          then JSON.JNumber (Number_toString (confidence m)) else JSON.JNull) /\
  JSON.field (str "user_agent") parsed = Some (JSON.JString (user_agent m)) /\
  JSON.field (str "review_length") parsed
  = Some (JSON.JNumber (JSString.of_Z (review_length m))) /\
  JSON.field (str "business_decision") parsed
  = option_map JSON.JString (business_decision m).
Proof.
  cbv zeta. unfold json_of_meta, json_of_number.
  repeat split; try reflexivity.
  destruct (business_decision m); reflexivity.
Qed.

(** X19: the [meta] field can be read back. For every payload with a
    [meta] object the text in the form parses, as JSON, to an object with
    the values the caller gave - every string unchanged, whatever code
    units it holds (quotes, backslashes, control characters, lone
    surrogates), and a confidence that is not finite as [null] - given
    that the platform renders a finite Number as a JSON number. *)
Theorem meta_round_trip (now : Z) (payload : Payload) (m : Meta) :
  meta payload = Some m ->
  (Number.is_finite (confidence m) = true ->
   JSON.is_json_number (Number_toString (confidence m)) = true) ->
  exists meta_text parsed,
    Form.get (form_of now payload) (str "meta") = Some meta_text /\
    JSON.parse meta_text = Some parsed /\
    JSON.field (str "user_id") parsed = Some (JSON.JString (user_id m)) /\
    JSON.field (str "label") parsed = Some (JSON.JString (label m)) /\
    JSON.field (str "confidence") parsed
    = Some (if Number.is_finite (confidence m)
            then JSON.JNumber (Number_toString (confidence m)) else JSON.JNull) /\
    JSON.field (str "user_agent") parsed = Some (JSON.JString (user_agent m)) /\
    JSON.field (str "review_length") parsed
    = Some (JSON.JNumber (JSString.of_Z (review_length m))) /\
    JSON.field (str "business_decision") parsed
    = option_map JSON.JString (business_decision m).
Proof.
  intros Hm Hc. rewrite sendLogSimple_form_meta, Hm.
  do 2 eexists. split; [reflexivity|]. split.
  - apply meta_text_parses. exact Hc.
  - apply meta_fields.
Qed.

Local Abbreviation record_of := (logAnalysis_form Number_toString toFixed).

(** X20: a log record tells who and how long. Its [meta] carries the user
    id that [getUserId] returns and the length of the whole review, also
    when the [review] field itself is cut to 5000 code units (and converted
    to a USVString, as every value of the form); [ts] is the time of the
    call. *)
Theorem log_record_identity_and_length (env : Env) (review_text bucket shown : jsstring)
    (score : Number) (action : Action) :
  (Number.is_finite score = true -> JSON.is_json_number (Number_toString score) = true) ->
  now_ms env <> 0 ->
  let form := record_of env review_text bucket shown score action in
  Form.get form (str "ts") = Some (JSString.of_Z (now_ms env)) /\
  Form.get form (str "review") = Some (Form.toUSVString (firstn 5000 review_text)) /\
  exists meta_text parsed,
    Form.get form (str "meta") = Some meta_text /\
    JSON.parse meta_text = Some parsed /\
    JSON.field (str "user_id") parsed = Some (JSON.JString (fst (getUserId env))) /\
    JSON.field (str "review_length") parsed
    = Some (JSON.JNumber (JSString.of_Z (Z.of_nat (List.length review_text)))).
Proof.
  intros Hc Hnow. cbv zeta.
  split; [|split].
  - unfold logAnalysis_form. rewrite form_ts. unfold logAnalysis_payload. cbn [ts].
    rewrite USVFacts.of_Z_usv.
    destruct (now_ms env); [congruence | reflexivity | reflexivity].
  - apply (logAnalysis_form_review Number_toString toFixed).
  - unfold logAnalysis_form. rewrite sendLogSimple_form_meta.
    unfold logAnalysis_payload. cbn [meta].
    do 2 eexists. split; [reflexivity|]. split.
    + apply meta_text_parses. exact Hc.
    + split; reflexivity.
Qed.

(** X21: logging one analysis makes exactly one request, shows nothing to
    the user and never reaches the handler for a rejected emission; and
    afterwards the local storage holds the user id that was logged. *)
Theorem logAnalysis_quiet (env : Env) (review_text bucket shown : jsstring)
    (score : Number) (action : Action) (outcome : FetchOutcome) :
  let events :=
    logAnalysis Number_toString toFixed env review_text bucket shown score action outcome in
  requests events
  = [mkRequest GAS_WEB_APP_URL (str "POST")
       (record_of env review_text bucket shown score action)] /\
  (forall message, ~ In (EShowError message) events) /\
  (forall detail, ~ In (EConsoleError (str "Background logging error:") detail) events) /\
  (fresh_uid env <> [] ->
   storage_after (stored_uid env) events = Some (fst (getUserId env))).
Proof.
  cbv zeta. unfold logAnalysis, logAnalysis_form.
  set (payload := logAnalysis_payload toFixed env review_text bucket shown score action).
  destruct (emit_events (now_ms env) payload outcome) as (rest & Hev & Hrest).
  assert (Hsettled : exists r, fst (emit (now_ms env) payload outcome) = Fulfilled r).
  { unfold sendLogSimple. destruct (try_send outcome) as [[r|err] evs]; eexists; reflexivity. }
  destruct Hsettled as [r Hr].
  destruct (emit (now_ms env) payload outcome) as [settled events] eqn:He.
  cbn [fst snd] in Hev, Hr. subst settled events. rewrite app_nil_r.
  assert (Hquiet : requests rest = []).
  { apply requests_quiet. intros ev Hin req ->.
    destruct (Hrest _ Hin) as [[m H] | [d H]]; discriminate H. }
  assert (Hid : forall st req, storage_after st (EFetch req :: rest) = st).
  { intros st req. apply storage_after_quiet. intros ev [<- | Hin] key v H;
      [discriminate H|]. subst ev.
    destruct (Hrest _ Hin) as [[m H] | [d H]]; discriminate H. }
  split; [|split; [|split]].
  - unfold requests. rewrite flat_map_app. cbn [flat_map app]. fold (requests rest).
    rewrite Hquiet. unfold getUserId.
    destruct (stored_uid env) as [[|u s]|]; reflexivity.
  - intros message Hin. apply in_app_or in Hin. destruct Hin as [Hin | [Hin | Hin]].
    + unfold getUserId in Hin.
      destruct (stored_uid env) as [[|u s]|]; cbn [snd In] in Hin;
        intuition discriminate.
    + discriminate Hin.
    + destruct (Hrest _ Hin) as [[m H] | [d H]]; discriminate H.
  - intros detail Hin. apply in_app_or in Hin. destruct Hin as [Hin | [Hin | Hin]].
    + unfold getUserId in Hin.
      destruct (stored_uid env) as [[|u s]|]; cbn [snd In] in Hin;
        intuition discriminate.
    + discriminate Hin.
    + destruct (Hrest _ Hin) as [[m H] | [d H]]; discriminate H.
  - intros Hfresh. unfold storage_after at 1. rewrite fold_left_app.
    fold (storage_after (stored_uid env) (snd (getUserId env))).
    match goal with
    | |- fold_left ?f ?l ?st = _ => change (storage_after st l = Some (fst (getUserId env)))
    end.
    rewrite Hid. unfold getUserId.
    destruct (stored_uid env) as [[|u s]|]; reflexivity.
Qed.

(** X22: the emitter of the logging-only page builds the same form without
    the field [action_taken], and settles to the same outcome. *)
Theorem emitter_variants_agree (now : Z) (payload : Payload) (outcome : FetchOutcome) :
  LoggingOnly.sendLogSimple_form Number_toString now payload
  = Form.remove (str "action_taken") (form_of now payload) /\
  fst (LoggingOnly.sendLogSimple Number_toString now payload outcome)
  = fst (emit now payload outcome).
Proof.
  split; [reflexivity|].
  unfold LoggingOnly.sendLogSimple, sendLogSimple.
  destruct (try_send outcome) as [[r|err] events]; reflexivity.
Qed.

End EmitterFacts.

(** X23: the user id is stable. With a non-empty id in the local storage
    [getUserId] returns it and writes nothing; otherwise it stores the new
    id, and the next call - whatever new id the browser would offer then -
    returns the stored one and writes nothing. *)
Theorem getUserId_stable (env later : Env) :
  fresh_uid env <> [] ->
  stored_uid later = storage_after (stored_uid env) (snd (getUserId env)) ->
  getUserId later = (fst (getUserId env), []) /\
  (forall uid, uid <> [] -> stored_uid env = Some uid -> getUserId env = (uid, [])).
Proof.
  intros Hfresh Hlater. split.
  - unfold getUserId in *.
    destruct (stored_uid env) as [[|u s]|]; cbn [fst snd storage_after fold_left] in *.
    + change (JSString.eqb LS_KEY_UID LS_KEY_UID) with true in Hlater.
      rewrite Hlater. destruct (fresh_uid env); [congruence | reflexivity].
    + rewrite Hlater. reflexivity.
    + change (JSString.eqb LS_KEY_UID LS_KEY_UID) with true in Hlater.
      rewrite Hlater. destruct (fresh_uid env); [congruence | reflexivity].
  - intros uid Hne Hs. unfold getUserId. rewrite Hs.
    destruct uid; [congruence | reflexivity].
Qed.

Lemma getUserId_stable_witness :
  getUserId (mkEnv (Some (fresh_uid sample_env)) (str "another") [] [] 0)
  = (fresh_uid sample_env, []).
Proof.
  exact (proj1 (getUserId_stable sample_env
                  (mkEnv (Some (fresh_uid sample_env)) (str "another") [] [] 0)
                  ltac:(discriminate) eq_refl)).
Defined.

Lemma meta_round_trip_witness :
  exists meta_text parsed,
    Form.get (sendLogSimple_form (fun _ => str "1") 0
                (mkPayload None None None None (Some sample_meta))) (str "meta")
    = Some meta_text /\
    JSON.parse meta_text = Some parsed /\
    JSON.field (str "user_agent") parsed = Some (JSON.JString (userAgent sample_env)) /\
    JSON.field (str "business_decision") parsed = None.
Proof.
  destruct (meta_round_trip (fun _ => str "1") 0
              (mkPayload None None None None (Some sample_meta)) sample_meta
              eq_refl (fun _ => eq_refl))
    as (meta_text & parsed & Hget & Hparse & _ & _ & _ & Hagent & _ & Hdecision).
  exists meta_text, parsed. auto.
Defined.

Lemma log_record_identity_and_length_witness :
  let form :=
    logAnalysis_form (fun _ => str "1") (fun _ _ => str "100.0") sample_env
      (str "great") (str "positive") (str "POSITIVE") Number.one ASK_REFERRAL in
  Form.get form (str "ts") = Some (str "1709294400000") /\
  Form.get form (str "review") = Some (str "great") /\
  exists meta_text parsed,
    Form.get form (str "meta") = Some meta_text /\
    JSON.parse meta_text = Some parsed /\
    JSON.field (str "user_id") parsed = Some (JSON.JString (fresh_uid sample_env)) /\
    JSON.field (str "review_length") parsed = Some (JSON.JNumber (str "5")).
Proof.
  exact (log_record_identity_and_length (fun _ => str "1") (fun _ _ => str "100.0")
           sample_env (str "great") (str "positive") (str "POSITIVE") Number.one
           ASK_REFERRAL (fun _ => eq_refl) ltac:(discriminate)).
Defined.
